(** * Kym: statement reconciliation page

    A shallow embedding of the value normalizers, the statement mapper
    and the reconciliation verdict of the reconciliation page
    ([safeParseFloat], [safeParseInt], [getMonthAbbreviation],
    [mapAccountData], [mapADLSToReconciliationRow], [calculateDifference],
    [isHarmonized] and the mapping loop of [fetchData]).

    The page is TypeScript, so its numbers are IEEE 754 binary64 values and
    it leans on the ECMAScript library ([parseFloat], [parseInt],
    [Math.round], [Math.floor], [Math.abs], [String], [Date]).  Module [JS]
    gives those their ECMAScript meaning over [spec_float].  What the
    language leaves to the host is a parameter, [JS.Host.t]: the time
    zone, in which [Date] reads a year, month and day, and the text the
    engine prints for a built-in function.

    The code of the page comes twice.  Module [Page] is the code on data
    of the interfaces it declares.  Module [Raw] is the same code on any
    parsed JSON, as [response.json()] hands it over whatever the
    interfaces say: there a property read, a [map], a [replace] or a
    conversion to text can end in a [TypeError], which [Page] has no
    place for.  [RawFacts.mapper_of_response] and
    [RawFacts.mapItems_of_response] show that [Raw] is [Page] on data of
    the declared interfaces.

    Further modules follow the rest of the page and the storage routes:
    [Component] the row component, the request of [Home] and what it
    renders, [FetchAdls], [FundingTransfer] and [BsiAnalysis] the routes
    from the listing they get to the answer they give, and [Wire] the
    trip of an answer through JSON.  Storage is a function [read] from a
    path to the parsed file; a listing is a list.  Text holds code units
    below 256. *)

From Stdlib Require Import ZArith List Bool Ascii String Lia.
From Stdlib Require Import Floats.SpecFloat Numbers.DecimalString Numbers.DecimalPos.
Import ListNotations.

Local Open Scope Z_scope.

(* ================================================================== *)
(** * ECMAScript values and library functions *)
(* ================================================================== *)

Module JS.

(** ** Numbers: binary64, round to nearest, ties to even *)

Definition prec : Z := 53.
Definition emax : Z := 1024.

Definition number : Type := spec_float.

Definition NaN : number := S754_nan.
Definition Infinity : number := S754_infinity false.

(** The number nearest to an integer. *)
Definition of_Z (z : Z) : number := binary_normalize prec emax z 0 false.

(** The number nearest to [+-p/q]; [neg] is the sign. *)
Definition of_ratio (neg : bool) (p q : positive) : number :=
  let '(mz, ez, lz) := SFdiv_core_binary prec emax (Zpos p) 0 (Zpos q) 0 in
  binary_round_aux prec emax neg mz ez lz.

(** The number nearest to [+-p * 10^e]: the value of a decimal literal. *)
Definition of_decimal (neg : bool) (p : positive) (e : Z) : number :=
  match e with
  | Zneg k => of_ratio neg p (Pos.pow 10 k)
  | _ => binary_round prec emax neg (p * Z.to_pos (10 ^ e)) 0
  end.

Definition add : number -> number -> number := SFadd prec emax.
Definition sub : number -> number -> number := SFsub prec emax.
Definition mul : number -> number -> number := SFmul prec emax.
Definition div : number -> number -> number := SFdiv prec emax.

(** [x < y] and [x === y] on numbers. *)
Definition lt : number -> number -> bool := SFltb.
Definition strict_eq : number -> number -> bool := SFeqb.

Definition isNaN (x : number) : bool :=
  match x with S754_nan => true | _ => false end.

Definition is_finite (x : number) : bool :=
  match x with S754_zero _ | S754_finite _ _ _ => true | _ => false end.

(** A number is a canonical binary64 value. *)
Definition wf (x : number) : bool := valid_binary prec emax x.

(** ToBoolean on a number: [0], [-0] and [NaN] are falsy. *)
Definition number_truthy (x : number) : bool :=
  match x with S754_zero _ | S754_nan => false | _ => true end.

(** [a || b] on numbers. *)
Definition number_or (a b : number) : number :=
  if number_truthy a then a else b.

(** The signed integer a finite non-zero number [(-1)^s * m * 2^e] has
    as its floor. *)
Definition floor_finite (s : bool) (m : positive) (e : Z) : Z :=
  Z.shiftl (cond_Zopp s (Zpos m)) e.

Module Math.

Definition abs : number -> number := SFabs.

(** [Math.floor]: the greatest integer not above [x]. *)
Definition floor (x : number) : number :=
  match x with
  | S754_finite s m e =>
      if 0 <=? e then x
      else binary_normalize prec emax (floor_finite s m e) 0 s
  | _ => x
  end.

(** [Math.round]: the integer nearest to [x], ties towards [+Infinity];
    a result of zero keeps the sign of [x]. *)
Definition round (x : number) : number :=
  match x with
  | S754_finite s m e =>
      if 0 <=? e then x
      else
        (* floor (x + 1/2) = floor ((2x + 1) / 2) *)
        let twice := 2 * cond_Zopp s (Zpos m) + 2 ^ (- e) in
        binary_normalize prec emax (Z.shiftl twice (e - 1)) 0 s
  | _ => x
  end.

End Math.

(** ToIntegerOrInfinity restricted to finite numbers: truncation toward
    zero; [None] for [NaN] and the infinities. *)
Definition to_integer (x : number) : option Z :=
  match x with
  | S754_zero _ => Some 0
  | S754_finite s m e => Some (cond_Zopp s (Z.shiftl (Zpos m) e))
  | _ => None
  end.

(** Same representation; on canonical values this is [Object.is]. *)
Definition same_number (x y : number) : bool :=
  match x, y with
  | S754_zero a, S754_zero b => Bool.eqb a b
  | S754_infinity a, S754_infinity b => Bool.eqb a b
  | S754_nan, S754_nan => true
  | S754_finite a m e, S754_finite b m' e' =>
      Bool.eqb a b && Pos.eqb m m' && Z.eqb e e'
  | _, _ => false
  end.

(** ** Strings

    A string is a sequence of code units; the embedding covers the code
    units below 256. *)

Local Open Scope string_scope.
Local Open Scope Z_scope.

(** WhiteSpace and LineTerminator code units: TAB, LF, VT, FF, CR, SP and
    NBSP. *)
Definition is_white_space (c : ascii) : bool :=
  let n := N_of_ascii c in
  ((9 <=? n) && (n <=? 13) || (n =? 32) || (n =? 160))%N.

Definition is_digit (c : ascii) : bool :=
  let n := N_of_ascii c in ((48 <=? n) && (n <=? 57))%N.

Definition digit_value (c : ascii) : Z := Z.of_N (N_of_ascii c) - 48.

Fixpoint trim_start (s : string) : string :=
  match s with
  | String c r => if is_white_space c then trim_start r else s
  | EmptyString => s
  end.

Fixpoint trim_end (s : string) : string :=
  match s with
  | String c r =>
      match trim_end r with
      | EmptyString => if is_white_space c then EmptyString else String c EmptyString
      | r' => String c r'
      end
  | EmptyString => EmptyString
  end.

(** [String.prototype.trim]. *)
Definition trim (s : string) : string := trim_end (trim_start s).

(** [s.replace(/c/g, '')]: every occurrence of the character removed. *)
Fixpoint remove_char (c : ascii) (s : string) : string :=
  match s with
  | String d r => if Ascii.eqb c d then remove_char c r else String d (remove_char c r)
  | EmptyString => EmptyString
  end.

(** [strip_prefix p s] is what follows [p] in [s], when [s] starts with [p]. *)
Fixpoint strip_prefix (p s : string) : option string :=
  match p, s with
  | EmptyString, _ => Some s
  | String a p', String b s' => if Ascii.eqb a b then strip_prefix p' s' else None
  | String _ _, EmptyString => None
  end.

(** The longest prefix of decimal digits, and the rest. *)
Fixpoint span_digits (s : string) : string * string :=
  match s with
  | String c r =>
      if is_digit c then let '(ds, rest) := span_digits r in (String c ds, rest)
      else (EmptyString, s)
  | EmptyString => (EmptyString, EmptyString)
  end.

Fixpoint digits_value_from (acc : Z) (ds : string) : Z :=
  match ds with
  | String c r => digits_value_from (10 * acc + digit_value c) r
  | EmptyString => acc
  end.

Definition digits_value (ds : string) : Z := digits_value_from 0 ds.

(** An optional sign; [true] is [-]. *)
Definition read_sign (s : string) : bool * string :=
  match s with
  | String "-" r => (true, r)
  | String "+" r => (false, r)
  | _ => (false, s)
  end.

(** ExponentPart, if one starts the string; otherwise the exponent is 0. *)
Definition read_exponent (s : string) : Z :=
  match s with
  | String c r =>
      if Ascii.eqb c "e" || Ascii.eqb c "E" then
        let '(neg, r') := read_sign r in
        let '(ds, _) := span_digits r' in
        match ds with
        | EmptyString => 0
        | _ => cond_Zopp neg (digits_value ds)
        end
      else 0
  | EmptyString => 0
  end.

(** The number a signed decimal mantissa and exponent denote. *)
Definition decimal_number (neg : bool) (mant : Z) (e : Z) : number :=
  match mant with
  | Zpos p => of_decimal neg p e
  | _ => S754_zero neg
  end.

(** [parseFloat]: leading white space is skipped, the longest prefix that
    is a StrDecimalLiteral is read, and [NaN] results when there is none. *)
Definition parseFloat (input : string) : number :=
  let '(neg, s) := read_sign (trim_start input) in
  match strip_prefix "Infinity" s with
  | Some _ => S754_infinity neg
  | None =>
      let '(ip, r1) := span_digits s in
      let '(fp, r2) :=
        match r1 with
        | String "." r => span_digits r
        | _ => (EmptyString, r1)
        end in
      match ip ++ fp with
      | EmptyString => NaN
      | ds =>
          decimal_number neg (digits_value ds)
            (read_exponent r2 - Z.of_nat (String.length fp))
      end
  end.

(** [parseInt(input, 10)]. *)
Definition parseInt10 (input : string) : number :=
  let '(neg, s) := read_sign (trim_start input) in
  let '(ds, _) := span_digits s in
  match ds with
  | EmptyString => NaN
  | _ =>
      match digits_value ds with
      | Zpos p => binary_round prec emax neg p 0
      | _ => S754_zero neg
      end
  end.

(** ** Number::toString, radix 10 *)

Definition string_of_pos (p : positive) : string :=
  NilEmpty.string_of_uint (Pos.to_uint p).

Definition string_of_Z (z : Z) : string :=
  match z with
  | Z0 => "0"
  | Zpos p => string_of_pos p
  | Zneg p => "-" ++ string_of_pos p
  end.

Fixpoint zeros (n : nat) : string :=
  match n with
  | O => EmptyString
  | S k => String "0" (zeros k)
  end.

Fixpoint take (n : nat) (s : string) : string :=
  match n, s with
  | S k, String c r => String c (take k r)
  | _, _ => EmptyString
  end.

Fixpoint drop (n : nat) (s : string) : string :=
  match n, s with
  | S k, String _ r => drop k r
  | _, _ => s
  end.

(** The number of decimal digits of [z >= 1], by repeated division; a
    number of [fuel] bits needs no more than [fuel] steps. *)
Fixpoint decimal_length_from (fuel : nat) (z : Z) : Z :=
  match fuel with
  | O => 1
  | S fuel' => if z <? 10 then 1 else 1 + decimal_length_from fuel' (z / 10)
  end.

Definition decimal_length (p : positive) : Z :=
  decimal_length_from (Pos.to_nat (digits2_pos p)) (Zpos p).

(** [floor (p/q * 10^j)]. *)
Definition scale_floor (p q : positive) (j : Z) : Z :=
  match j with
  | Zneg k => Zpos p / Zpos (q * Pos.pow 10 k)
  | _ => (Zpos p * 10 ^ j) / Zpos q
  end.

(** The [n] with [10^(n-1) <= p/q < 10^n]. *)
Definition decimal_magnitude (p q : positive) : Z :=
  let d := decimal_length p - decimal_length q in
  if 1 <=? scale_floor p q (- d) then d + 1 else d.

(** Twice [p/q * 10^j] compared with the integer [t]. *)
Definition compare_twice_scaled (p q : positive) (j t : Z) : comparison :=
  match j with
  | Zneg k => (2 * Zpos p ?= t * Zpos (q * Pos.pow 10 k))
  | _ => (2 * Zpos p * 10 ^ j ?= t * Zpos q)
  end.

(** For [x = p/q] of decimal magnitude [n], the [k]-digit integer [s] and
    the exponent [n'] with [s * 10^(n'-k)] reading back as [x], when there
    is one: of the two [k]-digit decimals around [x], the one that reads
    back, the nearer one when both do, the even one on a tie. *)
Definition digits_at (x : number) (p q : positive) (n k : Z) : option (Z * Z) :=
  let lo := scale_floor p q (k - n) in
  let hi := lo + 1 in
  let '(hs, hn) := if hi =? 10 ^ k then (10 ^ (k - 1), n + 1) else (hi, n) in
  let ok_lo := same_number (decimal_number false lo (n - k)) x in
  let ok_hi := same_number (decimal_number false hs (hn - k)) x in
  match ok_lo, ok_hi with
  | true, false => Some (lo, n)
  | false, true => Some (hs, hn)
  | false, false => None
  | true, true =>
      match compare_twice_scaled p q (k - n) (lo + hi) with
      | Lt => Some (lo, n)
      | Gt => Some (hs, hn)
      | Eq => if Z.even lo then Some (lo, n) else Some (hs, hn)
      end
  end.

(** The shortest digit string: the first [k] from [k] on, within [fuel]
    tries, that has one.  Seventeen digits identify any binary64 value, so
    the search from 1 with 17 tries finds them; the last line is there for
    totality. *)
Fixpoint shortest_digits (fuel : nat) (x : number) (p q : positive) (n k : Z)
  : Z * Z * Z :=
  match fuel with
  | O => (scale_floor p q (k - n), n, k)
  | S fuel' =>
      match digits_at x p q n k with
      | Some (s, n') => (s, n', k)
      | None => shortest_digits fuel' x p q n (k + 1)
      end
  end.

(** The text of the positive finite number [m * 2^e]. *)
Definition positive_to_string (m : positive) (e : Z) : string :=
  let '(p, q) := match e with
                 | Zneg k => (m, Pos.pow 2 k)
                 | _ => (m * Z.to_pos (2 ^ e), 1)%positive
                 end in
  let '(s, n, k) :=
    shortest_digits 17 (S754_finite false m e) p q (decimal_magnitude p q) 1 in
  let ds := string_of_Z s in
  if (k <=? n) && (n <=? 21) then ds ++ zeros (Z.to_nat (n - k))
  else if (0 <? n) && (n <=? 21) then
    take (Z.to_nat n) ds ++ "." ++ drop (Z.to_nat n) ds
  else if (-5 <=? n) && (n <=? 0) then "0." ++ zeros (Z.to_nat (- n)) ++ ds
  else
    let ex := n - 1 in
    let es := (if ex <? 0 then "-" else "+") ++ string_of_Z (Z.abs ex) in
    if k =? 1 then ds ++ "e" ++ es
    else take 1 ds ++ "." ++ drop 1 ds ++ "e" ++ es.

Definition number_to_string (x : number) : string :=
  match x with
  | S754_nan => "NaN"
  | S754_zero _ => "0"
  | S754_infinity s => if s then "-Infinity" else "Infinity"
  | S754_finite s m e =>
      (if s then "-" else "") ++ positive_to_string m e
  end.

(** ** Values

    What a field typed [string | number | undefined | null] can hold. *)

Inductive value : Type :=
  | Undefined
  | Null
  | Num (x : number)
  | Str (s : string).

(** An optional property of some other type: left out, [null], or there. *)
Inductive maybe (A : Type) : Type :=
  | Absent
  | IsNull
  | Present (a : A).
Arguments Absent {A}.
Arguments IsNull {A}.
Arguments Present {A} a.

Definition string_truthy (s : string) : bool :=
  match s with EmptyString => false | _ => true end.

(** ToBoolean. *)
Definition truthy (v : value) : bool :=
  match v with
  | Undefined | Null => false
  | Num x => number_truthy x
  | Str s => string_truthy s
  end.

(** [v || d]. *)
Definition value_or (v d : value) : value := if truthy v then v else d.

(** [s || d] for an optional string. *)
Definition string_or (s : maybe string) (d : string) : string :=
  match s with
  | Present (String c r) => String c r
  | _ => d
  end.

(** [String(v)], also what a template literal inserts. *)
Definition to_String (v : value) : string :=
  match v with
  | Undefined => "undefined"
  | Null => "null"
  | Num x => number_to_string x
  | Str s => s
  end.

(** ** The host

    What the page takes from the engine and the machine it runs on: the
    time zone, by which [new Date(y, m, d)] and [getDate()] read local
    time, and the text of the built-in members that every object literal
    inherits from [Object.prototype]. *)

Module Host.
Record t : Type := mk {
  (** the offset of local time from UTC at a time value, in milliseconds *)
  offset : Z -> Z;
  (** UTC(t): the time value that the local time [t] stands for; where
      the zone skipped [t], the one the offset before the skip gives *)
  utc : Z -> Z;
  (** the text [String] gives for the member of [Object.prototype] of
      that name, as a template literal inserts it *)
  member_text : string -> string
}.
End Host.

(** The property names of [Object.prototype]. *)
Definition Object_prototype : list string :=
  [ "constructor"; "hasOwnProperty"; "isPrototypeOf"; "propertyIsEnumerable";
    "toLocaleString"; "toString"; "valueOf"; "__proto__";
    "__defineGetter__"; "__defineSetter__"; "__lookupGetter__"; "__lookupSetter__" ]%string.

(** ** Dates

    Time values are milliseconds since the epoch; the day arithmetic is
    that of the ECMAScript Date abstract operations.  The constructor
    takes its arguments as local time and [getDate] reads local time. *)

Module Date.

Definition msPerDay : Z := 86400000.

Definition DaysInYear (y : Z) : Z :=
  if negb (y mod 4 =? 0) then 365
  else if negb (y mod 100 =? 0) then 366
  else if negb (y mod 400 =? 0) then 365
  else 366.

Definition DayFromYear (y : Z) : Z :=
  365 * (y - 1970) + (y - 1969) / 4 - (y - 1901) / 100 + (y - 1601) / 400.

(** 1 in a leap year, 0 otherwise. *)
Definition InLeapYear (y : Z) : Z := DaysInYear y - 365.

(** The year a day number falls in: the largest [y] with
    [DayFromYear y <= d].  400 years are 146097 days, which places the
    year within one of the estimate. *)
Definition YearFromDay (d : Z) : Z :=
  let y := 1970 + (400 * d) / 146097 in
  if d <? DayFromYear y then y - 1
  else if DayFromYear (y + 1) <=? d then y + 1
  else y.

(** Days of the year before month [mn] (0 is January). *)
Definition month_start (leap mn : Z) : Z :=
  match mn with
  | 0 => 0
  | 1 => 31
  | 2 => 59 + leap
  | 3 => 90 + leap
  | 4 => 120 + leap
  | 5 => 151 + leap
  | 6 => 181 + leap
  | 7 => 212 + leap
  | 8 => 243 + leap
  | 9 => 273 + leap
  | 10 => 304 + leap
  | _ => 334 + leap
  end.

(** MonthFromTime, on the day within the year. *)
Definition month_of_day (leap dy : Z) : Z :=
  if dy <? 31 then 0
  else if dy <? 59 + leap then 1
  else if dy <? 90 + leap then 2
  else if dy <? 120 + leap then 3
  else if dy <? 151 + leap then 4
  else if dy <? 181 + leap then 5
  else if dy <? 212 + leap then 6
  else if dy <? 243 + leap then 7
  else if dy <? 273 + leap then 8
  else if dy <? 304 + leap then 9
  else if dy <? 334 + leap then 10
  else 11.

(** DateFromTime, on a day number. *)
Definition DateFromDay (d : Z) : Z :=
  let y := YearFromDay d in
  let leap := InLeapYear y in
  let dy := d - DayFromYear y in
  dy - month_start leap (month_of_day leap dy) + 1.

(** MakeDay on integral arguments. *)
Definition MakeDay (y m dt : Z) : Z :=
  let ym := y + m / 12 in
  let mn := m mod 12 in
  DayFromYear ym + month_start (InLeapYear ym) mn + dt - 1.

(** Two-digit years count from 1900. *)
Definition MakeFullYear (y : Z) : Z :=
  if (0 <=? y) && (y <=? 99) then 1900 + y else y.

(** TimeClip: time values beyond 8.64e15 ms are invalid. *)
Definition TimeClip (t : Z) : option Z :=
  if Z.abs t <=? 8640000000000000 then Some t else None.

(** LocalTime(t) and Day(t). *)
Definition LocalTime (host : Host.t) (t : Z) : Z := t + Host.offset host t.

Definition Day (t : Z) : Z := t / msPerDay.

(** [new Date(year, month, date)]: the time value of that local midnight,
    [None] for an invalid date. *)
Definition create (host : Host.t) (year month date : number) : option Z :=
  match to_integer year, to_integer month, to_integer date with
  | Some y, Some m, Some dt =>
      TimeClip (Host.utc host (MakeDay (MakeFullYear y) m dt * msPerDay))
  | _, _, _ => None
  end.

(** [getDate()]: the day of the month in local time, [NaN] for an
    invalid date. *)
Definition getDate (host : Host.t) (tv : option Z) : number :=
  match tv with
  | Some t => of_Z (DateFromDay (Day (LocalTime host t)))
  | None => NaN
  end.

End Date.

End JS.

(* ================================================================== *)
(** * The reconciliation page *)
(* ================================================================== *)

Module Page.

Import JS.
Local Open Scope string_scope.
Local Open Scope Z_scope.

(** ** Interfaces *)

(** Parsed account data from ADLS.  The numeric fields are taken at the
    type the normalizers accept, [string | number | undefined | null]. *)
Module AccountData.
Record t : Type := mk {
  account_number : maybe string;
  account_type : maybe string;
  beginning_balance : value;
  ending_balance : value;
  total_deposits : value;
  total_withdrawals : value;
  avg_daily_balance : value;
  no_of_deposits : value;
  no_of_withdrawals : value;
  mca_withdrawals : value;
  returned_items_count : value;
  returned_items_days : value;
  overdraft_days : value
}.
End AccountData.

(** Mapped account for display. *)
Module MappedAccount.
Record t : Type := mk {
  account_number : string;
  account_type : string;
  starting_balance : number;
  ending_balance : number;
  total_credits : number;
  total_debits : number;
  average_balance : number;
  no_of_deposits : number;
  no_of_withdrawals : number;
  mca_withdrawals : number;
  returned_items_count : number;
  returned_items_days : number;
  overdraft_days : number
}.
End MappedAccount.

(** Row with all accounts from one bank statement. *)
Module ReconciliationRow.
Record t : Type := mk {
  case_id : string;
  document_name : string;
  iso_email : string;
  bank_name : string;
  month_year : string;
  first_transaction_date : string;
  last_transaction_date : string;
  accounts : list MappedAccount.t;
  filename : string
}.
End ReconciliationRow.

(** The [parsed_json] object of a response. *)
Module ParsedJson.
Record t : Type := mk {
  bank_name : maybe string;
  statement_month : value;
  statement_year : value;
  accounts : maybe (list AccountData.t)
}.
End ParsedJson.

Module ADLSResponse.
Record t : Type := mk {
  agent_name : string;
  processing_status : string;
  start_time : string;
  end_time : string;
  parsed_json : maybe ParsedJson.t;
  batch_id : maybe string;
  filename : maybe string
}.
End ADLSResponse.

(** A call either returns, throws an [Error] of the page with a message,
    or runs into a [TypeError] of the engine. *)
Inductive completion (A : Type) : Type :=
  | Return (a : A)
  | Throw (message : string)
  | ThrowTypeError.
Arguments Return {A} a.
Arguments Throw {A} message.
Arguments ThrowTypeError {A}.

(** ** Helpers *)

Definition monthMap : list (string * string) :=
  [ ("1", "JAN"); ("2", "FEB"); ("3", "MAR"); ("4", "APR");
    ("5", "MAY"); ("6", "JUN"); ("7", "JUL"); ("8", "AUG");
    ("9", "SEP"); ("10", "OCT"); ("11", "NOV"); ("12", "DEC") ].

(** The own property of the object literal under the key, if any. *)
Fixpoint lookup (key : string) (map : list (string * string)) : option string :=
  match map with
  | (k, v) :: rest => if String.eqb k key then Some v else lookup key rest
  | [] => None
  end.

(** What [monthMap[monthStr] || monthStr] is: a text, or the member of
    [Object.prototype] that the key names, which the object literal
    inherits and which is truthy. *)
Inductive entry : Type :=
  | Text (s : string)
  | Inherited (key : string).

(** Helper function to convert month number to month abbreviation. *)
Definition getMonthAbbreviation (month : value) : entry :=
  let monthStr := to_String month in
  match lookup monthStr monthMap with
  | Some abbr => if string_truthy abbr then Text abbr else Text monthStr
  | None =>
      if existsb (String.eqb monthStr) Object_prototype then Inherited monthStr
      else Text monthStr
  end.

(** What a template literal inserts for an entry. *)
Definition shown (host : Host.t) (e : entry) : string :=
  match e with
  | Text s => s
  | Inherited key => Host.member_text host key
  end.

(** Helper function to safely parse float values (handles both number and
    string). *)
Definition safeParseFloat (v : value) : number :=
  match v with
  | Null | Undefined => of_Z 0
  | Num x => if isNaN x then of_Z 0 else x
  | Str s =>
      let str := remove_char "," (trim s) in
      let parsed := parseFloat str in
      if isNaN parsed then of_Z 0 else parsed
  end.

(** Helper function to safely parse integer values (handles both number
    and string). *)
Definition safeParseInt (v : value) : number :=
  match v with
  | Null | Undefined => of_Z 0
  | Num x => if isNaN x then of_Z 0 else Math.floor x
  | Str s =>
      let str := remove_char "," (trim s) in
      let parsed := parseInt10 str in
      if isNaN parsed then of_Z 0 else parsed
  end.

(** Map account data to MappedAccount. *)
Definition mapAccountData (account : AccountData.t) : MappedAccount.t :=
  {| MappedAccount.account_number := string_or (AccountData.account_number account) "";
     MappedAccount.account_type := string_or (AccountData.account_type account) "";
     MappedAccount.starting_balance := safeParseFloat (AccountData.beginning_balance account);
     MappedAccount.ending_balance := safeParseFloat (AccountData.ending_balance account);
     MappedAccount.total_credits := safeParseFloat (AccountData.total_deposits account);
     MappedAccount.total_debits :=
       Math.abs (safeParseFloat (AccountData.total_withdrawals account));
     MappedAccount.average_balance := safeParseFloat (AccountData.avg_daily_balance account);
     MappedAccount.no_of_deposits := safeParseInt (AccountData.no_of_deposits account);
     MappedAccount.no_of_withdrawals := safeParseInt (AccountData.no_of_withdrawals account);
     MappedAccount.mca_withdrawals := safeParseFloat (AccountData.mca_withdrawals account);
     MappedAccount.returned_items_count :=
       safeParseInt (AccountData.returned_items_count account);
     MappedAccount.returned_items_days :=
       safeParseInt (AccountData.returned_items_days account);
     MappedAccount.overdraft_days := safeParseInt (AccountData.overdraft_days account) |}.

(** ASCII lower case, the folding of the [i] flag on an ASCII pattern. *)
Definition lower (c : ascii) : ascii :=
  let n := N_of_ascii c in
  if ((65 <=? n) && (n <=? 90))%N then ascii_of_N (n + 32) else c.

Fixpoint lower_string (s : string) : string :=
  match s with
  | String c r => String (lower c) (lower_string r)
  | EmptyString => EmptyString
  end.

(** [filename.replace(/_parsing_result\.json$/i, '')]. *)
Fixpoint strip_parsing_result (s : string) : string :=
  if String.eqb (lower_string s) "_parsing_result.json" then EmptyString
  else match s with
       | String c r => String c (strip_parsing_result r)
       | EmptyString => EmptyString
       end.

(** [s.replace(" ", "_")]: the first space only. *)
Fixpoint replace_first_space (s : string) : string :=
  match s with
  | String c r => if Ascii.eqb c " " then String "_" r else String c (replace_first_space r)
  | EmptyString => EmptyString
  end.

(** The statement month and year the dates are built from. *)
Definition statementMonth (pj : ParsedJson.t) : number :=
  number_or (safeParseInt (ParsedJson.statement_month pj)) (of_Z 1).

Definition statementYear (pj : ParsedJson.t) : number :=
  number_or (safeParseInt (ParsedJson.statement_year pj)) (of_Z 2025).

(** Map ADLS response to ReconciliationRow (one row per bank statement with
    all accounts), on data of the declared interfaces.  [adlsData] is an
    object, as the loop hands it over; [now] is what [Date.now()] reads
    during the call, in milliseconds since the epoch. *)
Definition mapADLSToReconciliationRow (host : Host.t) (now : Z) (adlsData : ADLSResponse.t)
  : completion ReconciliationRow.t :=
  match ADLSResponse.parsed_json adlsData with
  | Absent | IsNull => Throw "Invalid ADLS data structure: missing parsed_json"
  | Present parsed_json =>
      let batch_id := ADLSResponse.batch_id adlsData in
      let filename := ADLSResponse.filename adlsData in
      let monthYear :=
        shown host
          (getMonthAbbreviation
             (value_or (ParsedJson.statement_month parsed_json) (Num (of_Z 1))))
        ++ " "
        ++ to_String (value_or (ParsedJson.statement_year parsed_json) (Num (of_Z 2025))) in
      let month := statementMonth parsed_json in
      let year := statementYear parsed_json in
      let lastDay := Date.getDate host (Date.create host year month (of_Z 0)) in
      let firstTransactionDate :=
        number_to_string month ++ "/1/" ++ number_to_string year in
      let lastTransactionDate :=
        number_to_string month ++ "/" ++ number_to_string lastDay ++ "/"
        ++ number_to_string year in
      let mappedAccounts :=
        List.map mapAccountData
          match ParsedJson.accounts parsed_json with
          | Present accounts => accounts
          | _ => []
          end in
      let displayFilename :=
        match filename with
        | Present (String c r) => strip_parsing_result (String c r)
        | _ => ""
        end in
      Return
        {| ReconciliationRow.case_id :=
             string_or batch_id ("CASE-" ++ number_to_string (of_Z now));
           ReconciliationRow.document_name :=
             "Statement_" ++ replace_first_space monthYear ++ ".pdf";
           ReconciliationRow.iso_email := "";
           ReconciliationRow.bank_name := string_or (ParsedJson.bank_name parsed_json) "";
           ReconciliationRow.month_year := monthYear;
           ReconciliationRow.first_transaction_date := firstTransactionDate;
           ReconciliationRow.last_transaction_date := lastTransactionDate;
           ReconciliationRow.accounts := mappedAccounts;
           ReconciliationRow.filename := displayFilename |}
  end.

(** ** The verdict of a row ([ReconciliationRowComponent]) *)

(** Calculate difference for the selected account. *)
Definition calculateDifference (account : MappedAccount.t) : number :=
  let calcBalance :=
    add (sub (MappedAccount.starting_balance account) (MappedAccount.total_debits account))
        (MappedAccount.total_credits account) in
  let difference := sub (MappedAccount.ending_balance account) calcBalance in
  let rounded := div (Math.round (mul difference (of_Z 100))) (of_Z 100) in
  if lt (Math.abs rounded) (of_decimal false 5 (-3)) then of_Z 0 else rounded.

(** Check if the selected account harmonizes (difference is 0). *)
Definition isHarmonized (selectedAccount : option MappedAccount.t) : bool :=
  let difference :=
    match selectedAccount with
    | Some account => calculateDifference account
    | None => of_Z 0
    end in
  strict_eq difference (of_Z 0).

(** ** The mapping loop of [fetchData] *)

(** The guard in front of the mapper: [parsed_json] and its [accounts]
    array must be there. *)
Definition valid_item (item : ADLSResponse.t) : bool :=
  match ADLSResponse.parsed_json item with
  | Present pj =>
      match ParsedJson.accounts pj with
      | Present _ => true
      | _ => false
      end
  | _ => false
  end.

(** One [ReconciliationRow] per bank statement, pushed in order; an item
    the guard rejects or the mapper throws on is skipped.  [clock i] is
    what [Date.now()] reads while item [i] is mapped. *)
Fixpoint mapItems (host : Host.t) (clock : nat -> Z) (i : nat)
    (items : list ADLSResponse.t) : list ReconciliationRow.t :=
  match items with
  | [] => []
  | item :: rest =>
      let mappedData := mapItems host clock (S i) rest in
      if valid_item item then
        match mapADLSToReconciliationRow host (clock i) item with
        | Return mapped => mapped :: mappedData
        | _ => mappedData
        end
      else mappedData
  end.

Definition fetchData (host : Host.t) (clock : nat -> Z) (items : list ADLSResponse.t)
  : list ReconciliationRow.t :=
  mapItems host clock 0%nat items.

End Page.

(* ================================================================== *)
(** * The page on any parsed JSON *)
(* ================================================================== *)

(** What [response.json()] and [JSON.parse] hand over is not bound by the
    interfaces: any value of JSON can stand where an interface names a
    type.  [Json] is the part of ECMAScript the page then runs into, and
    [Raw] is the page's code on such values; [Page] above is the same
    code where the data have the declared types. *)

Module Json.

Import JS Page.
Local Open Scope string_scope.

(** A value of parsed JSON, and [undefined] for a property that is not
    there. *)
#[local] Set Warnings "-register-all".
Inductive t : Type :=
  | Undefined
  | Null
  | Bool (b : bool)
  | Num (x : number)
  | Str (s : string)
  | Arr (items : list t)
  | Obj (fields : list (string * t)).

(** ToBoolean. *)
Definition truthy (v : t) : bool :=
  match v with
  | Undefined | Null => false
  | Bool b => b
  | Num x => number_truthy x
  | Str s => string_truthy s
  | Arr _ | Obj _ => true
  end.

(** [v || d]. *)
Definition or_else (v d : t) : t := if truthy v then v else d.

(** [Array.isArray(v)]. *)
Definition isArray (v : t) : bool :=
  match v with
  | Arr _ => true
  | _ => false
  end.

(** The own property of an object under a key; each key is held once. *)
Fixpoint own (key : string) (fields : list (string * t)) : option t :=
  match fields with
  | (k, v) :: rest => if String.eqb k key then Some v else own key rest
  | [] => None
  end.

(** [v.key], for a key that names no member of a prototype, as the keys
    the page reads do: the own property of an object, and [undefined]
    otherwise; [None] for the [TypeError] on [null] and [undefined]. *)
Definition get (key : string) (v : t) : option t :=
  match v with
  | Undefined | Null => None
  | Obj fields =>
      Some match own key fields with
           | Some x => x
           | None => Undefined
           end
  | _ => Some Undefined
  end.

(** ToString, which [String(v)] and a template literal apply; [None] for
    a [TypeError].  An array joins the texts of its elements with commas,
    [null] counting as empty.  An object is ["[object Object]"], unless
    it holds a property [toString] of its own: parsed JSON holds no
    function, so the conversion then finds nothing to call and ends in a
    [TypeError]. *)
Fixpoint to_text (v : t) : option string :=
  match v with
  | Undefined => Some "undefined"
  | Null => Some "null"
  | Bool true => Some "true"
  | Bool false => Some "false"
  | Num x => Some (number_to_string x)
  | Str s => Some s
  | Arr items =>
      (fix join (l : list t) : option string :=
         match l with
         | [] => Some ""
         | x :: rest =>
             match match x with
                   | Undefined | Null => Some ""
                   | _ => to_text x
                   end with
             | Some first =>
                 match rest with
                 | [] => Some first
                 | _ =>
                     match join rest with
                     | Some others => Some (first ++ "," ++ others)
                     | None => None
                     end
                 end
             | None => None
             end
         end) items
  | Obj fields =>
      match own "toString" fields with
      | Some _ => None
      | None => Some "[object Object]"
      end
  end.

(** A value of a type the normalizers declare, as JSON. *)
Definition of_value (v : value) : t :=
  match v with
  | JS.Undefined => Undefined
  | JS.Null => Null
  | JS.Num x => Num x
  | JS.Str s => Str s
  end.

(** An optional text, as JSON. *)
Definition of_text (s : maybe string) : t :=
  match s with
  | Absent => Undefined
  | IsNull => Null
  | Present s => Str s
  end.

End Json.

Module Raw.

Import JS Page.
Local Open Scope string_scope.
Local Open Scope Z_scope.

(** Running on after a call that returned. *)
Definition bind {A B : Type} (c : completion A) (k : A -> completion B) : completion B :=
  match c with
  | Return a => k a
  | Throw message => Throw message
  | ThrowTypeError => ThrowTypeError
  end.

Notation "x <- c ;; k" := (bind c (fun x => k))
  (at level 61, c at next level, right associativity).

(** A step of the engine that returns or ends in a [TypeError]. *)
Definition step {A : Type} (o : option A) : completion A :=
  match o with
  | Some a => Return a
  | None => ThrowTypeError
  end.

Definition get (key : string) (v : Json.t) : completion Json.t := step (Json.get key v).

Definition to_text (v : Json.t) : completion string := step (Json.to_text v).

(** [items.map(f)], for an [f] that may throw. *)
Fixpoint map {A B : Type} (f : A -> completion B) (items : list A) : completion (list B) :=
  match items with
  | [] => Return []
  | item :: rest =>
      b <- f item ;;
      bs <- map f rest ;;
      Return (b :: bs)
  end.

(** ** What the mapper makes of any data *)

(** [account_number] and [account_type] come out as they came in when
    they are truthy, whatever they are. *)
Module Account.
Record t : Type := mk {
  account_number : Json.t;
  account_type : Json.t;
  starting_balance : number;
  ending_balance : number;
  total_credits : number;
  total_debits : number;
  average_balance : number;
  no_of_deposits : number;
  no_of_withdrawals : number;
  mca_withdrawals : number;
  returned_items_count : number;
  returned_items_days : number;
  overdraft_days : number
}.
End Account.

(** So do [case_id] and [bank_name]. *)
Module Row.
Record t : Type := mk {
  case_id : Json.t;
  document_name : string;
  iso_email : string;
  bank_name : Json.t;
  month_year : string;
  first_transaction_date : string;
  last_transaction_date : string;
  accounts : list Account.t;
  filename : string
}.
End Row.

(** ** Helpers *)

(** What a normalizer works on: [null], [undefined] and a number as they
    are, anything else by its text, [String(value)]. *)
Definition as_value (v : Json.t) : completion value :=
  match v with
  | Json.Undefined => Return Undefined
  | Json.Null => Return Null
  | Json.Num x => Return (Num x)
  | other =>
      str <- to_text other ;;
      Return (Str str)
  end.

(** Helper function to convert month number to month abbreviation. *)
Definition getMonthAbbreviation (month : Json.t) : completion entry :=
  monthStr <- to_text month ;;
  Return (Page.getMonthAbbreviation (Str monthStr)).

(** Helper function to safely parse float values. *)
Definition safeParseFloat (v : Json.t) : completion number :=
  value <- as_value v ;;
  Return (Page.safeParseFloat value).

(** Helper function to safely parse integer values. *)
Definition safeParseInt (v : Json.t) : completion number :=
  value <- as_value v ;;
  Return (Page.safeParseInt value).

(** Map account data to MappedAccount. *)
Definition mapAccountData (account : Json.t) : completion Account.t :=
  account_number <- get "account_number" account ;;
  account_type <- get "account_type" account ;;
  beginning_balance <- get "beginning_balance" account ;;
  starting_balance <- safeParseFloat beginning_balance ;;
  ending_balance <- get "ending_balance" account ;;
  ending_balance <- safeParseFloat ending_balance ;;
  total_deposits <- get "total_deposits" account ;;
  total_credits <- safeParseFloat total_deposits ;;
  total_withdrawals <- get "total_withdrawals" account ;;
  total_debits <- safeParseFloat total_withdrawals ;;
  avg_daily_balance <- get "avg_daily_balance" account ;;
  average_balance <- safeParseFloat avg_daily_balance ;;
  no_of_deposits <- get "no_of_deposits" account ;;
  no_of_deposits <- safeParseInt no_of_deposits ;;
  no_of_withdrawals <- get "no_of_withdrawals" account ;;
  no_of_withdrawals <- safeParseInt no_of_withdrawals ;;
  mca_withdrawals <- get "mca_withdrawals" account ;;
  mca_withdrawals <- safeParseFloat mca_withdrawals ;;
  returned_items_count <- get "returned_items_count" account ;;
  returned_items_count <- safeParseInt returned_items_count ;;
  returned_items_days <- get "returned_items_days" account ;;
  returned_items_days <- safeParseInt returned_items_days ;;
  overdraft_days <- get "overdraft_days" account ;;
  overdraft_days <- safeParseInt overdraft_days ;;
  Return
    {| Account.account_number := Json.or_else account_number (Json.Str "");
       Account.account_type := Json.or_else account_type (Json.Str "");
       Account.starting_balance := starting_balance;
       Account.ending_balance := ending_balance;
       Account.total_credits := total_credits;
       Account.total_debits := Math.abs total_debits;
       Account.average_balance := average_balance;
       Account.no_of_deposits := no_of_deposits;
       Account.no_of_withdrawals := no_of_withdrawals;
       Account.mca_withdrawals := mca_withdrawals;
       Account.returned_items_count := returned_items_count;
       Account.returned_items_days := returned_items_days;
       Account.overdraft_days := overdraft_days |}.

Definition missing_parsed_json : string :=
  "Invalid ADLS data structure: missing parsed_json".

(** Map ADLS response to ReconciliationRow (one row per bank statement with
    all accounts), on whatever [adlsData] is.  Calling [map] on what is
    no array, and [replace] on what is no text, is a [TypeError]. *)
Definition mapADLSToReconciliationRow (host : Host.t) (now : Z) (adlsData : Json.t)
  : completion Row.t :=
  if negb (Json.truthy adlsData) then Throw missing_parsed_json
  else
    parsed_json <- get "parsed_json" adlsData ;;
    if negb (Json.truthy parsed_json) then Throw missing_parsed_json
    else
      batch_id <- get "batch_id" adlsData ;;
      filename <- get "filename" adlsData ;;
      statement_month <- get "statement_month" parsed_json ;;
      abbreviation <-
        getMonthAbbreviation (Json.or_else statement_month (Json.Num (of_Z 1))) ;;
      statement_year <- get "statement_year" parsed_json ;;
      yearText <- to_text (Json.or_else statement_year (Json.Num (of_Z 2025))) ;;
      let monthYear := shown host abbreviation ++ " " ++ yearText in
      month <- safeParseInt statement_month ;;
      let month := number_or month (of_Z 1) in
      year <- safeParseInt statement_year ;;
      let year := number_or year (of_Z 2025) in
      let lastDay := Date.getDate host (Date.create host year month (of_Z 0)) in
      let firstTransactionDate :=
        number_to_string month ++ "/1/" ++ number_to_string year in
      let lastTransactionDate :=
        number_to_string month ++ "/" ++ number_to_string lastDay ++ "/"
        ++ number_to_string year in
      accounts <- get "accounts" parsed_json ;;
      mappedAccounts <-
        match Json.or_else accounts (Json.Arr []) with
        | Json.Arr items => map mapAccountData items
        | _ => ThrowTypeError
        end ;;
      displayFilename <-
        (if Json.truthy filename then
           match filename with
           | Json.Str name => Return (strip_parsing_result name)
           | _ => ThrowTypeError
           end
         else Return "") ;;
      bank_name <- get "bank_name" parsed_json ;;
      Return
        {| Row.case_id :=
             Json.or_else batch_id (Json.Str ("CASE-" ++ number_to_string (of_Z now)));
           Row.document_name := "Statement_" ++ replace_first_space monthYear ++ ".pdf";
           Row.iso_email := "";
           Row.bank_name := Json.or_else bank_name (Json.Str "");
           Row.month_year := monthYear;
           Row.first_transaction_date := firstTransactionDate;
           Row.last_transaction_date := lastTransactionDate;
           Row.accounts := mappedAccounts;
           Row.filename := displayFilename |}.

(** ** The mapping loop of [fetchData] *)

(** Validate that parsed_json and accounts exist: whether the item goes
    on to the mapper.  Reading [parsed_json] off [null] is a
    [TypeError]. *)
Definition valid_item (item : Json.t) : completion bool :=
  parsed_json <- get "parsed_json" item ;;
  if negb (Json.truthy parsed_json) then Return false
  else
    accounts <- get "accounts" parsed_json ;;
    Return (Json.truthy accounts && Json.isArray accounts).

(** The callback of [forEach] on the items in turn.  What the mapper
    throws is caught and the item skipped; what the guard throws is not,
    and ends the loop.  [clock i] is what [Date.now()] reads while item
    [i] is mapped. *)
Fixpoint mapItems (host : Host.t) (clock : nat -> Z) (i : nat) (items : list Json.t)
  : completion (list Row.t) :=
  match items with
  | [] => Return []
  | item :: rest =>
      valid <- valid_item item ;;
      mappedData <- mapItems host clock (S i) rest ;;
      Return
        (if valid : bool then
           match mapADLSToReconciliationRow host (clock i) item with
           | Return mapped => mapped :: mappedData
           | _ => mappedData
           end
         else mappedData)
  end.

(** [result.data.forEach(...)]: the rows set as the page's data, or the
    [TypeError] that [fetchData] catches at its end.  There is no
    [forEach] but on an array. *)
Definition fetchData (host : Host.t) (clock : nat -> Z) (result : Json.t)
  : completion (list Row.t) :=
  data <- get "data" result ;;
  match data with
  | Json.Arr items => mapItems host clock 0%nat items
  | _ => ThrowTypeError
  end.

(** ** Data of the declared interfaces, as JSON *)

Definition of_account (account : AccountData.t) : Json.t :=
  Json.Obj
    [ ("account_number", Json.of_text (AccountData.account_number account));
      ("account_type", Json.of_text (AccountData.account_type account));
      ("beginning_balance", Json.of_value (AccountData.beginning_balance account));
      ("ending_balance", Json.of_value (AccountData.ending_balance account));
      ("total_deposits", Json.of_value (AccountData.total_deposits account));
      ("total_withdrawals", Json.of_value (AccountData.total_withdrawals account));
      ("avg_daily_balance", Json.of_value (AccountData.avg_daily_balance account));
      ("no_of_deposits", Json.of_value (AccountData.no_of_deposits account));
      ("no_of_withdrawals", Json.of_value (AccountData.no_of_withdrawals account));
      ("mca_withdrawals", Json.of_value (AccountData.mca_withdrawals account));
      ("returned_items_count", Json.of_value (AccountData.returned_items_count account));
      ("returned_items_days", Json.of_value (AccountData.returned_items_days account));
      ("overdraft_days", Json.of_value (AccountData.overdraft_days account)) ].

Definition of_parsed_json (parsed_json : ParsedJson.t) : Json.t :=
  Json.Obj
    [ ("bank_name", Json.of_text (ParsedJson.bank_name parsed_json));
      ("statement_month", Json.of_value (ParsedJson.statement_month parsed_json));
      ("statement_year", Json.of_value (ParsedJson.statement_year parsed_json));
      ("accounts",
       match ParsedJson.accounts parsed_json with
       | Absent => Json.Undefined
       | IsNull => Json.Null
       | Present accounts => Json.Arr (List.map of_account accounts)
       end) ].

Definition of_response (adlsData : ADLSResponse.t) : Json.t :=
  Json.Obj
    [ ("agent_name", Json.Str (ADLSResponse.agent_name adlsData));
      ("processing_status", Json.Str (ADLSResponse.processing_status adlsData));
      ("start_time", Json.Str (ADLSResponse.start_time adlsData));
      ("end_time", Json.Str (ADLSResponse.end_time adlsData));
      ("parsed_json",
       match ADLSResponse.parsed_json adlsData with
       | Absent => Json.Undefined
       | IsNull => Json.Null
       | Present parsed_json => of_parsed_json parsed_json
       end);
      ("batch_id", Json.of_text (ADLSResponse.batch_id adlsData));
      ("filename", Json.of_text (ADLSResponse.filename adlsData)) ].

Definition of_mapped_account (account : MappedAccount.t) : Account.t :=
  {| Account.account_number := Json.Str (MappedAccount.account_number account);
     Account.account_type := Json.Str (MappedAccount.account_type account);
     Account.starting_balance := MappedAccount.starting_balance account;
     Account.ending_balance := MappedAccount.ending_balance account;
     Account.total_credits := MappedAccount.total_credits account;
     Account.total_debits := MappedAccount.total_debits account;
     Account.average_balance := MappedAccount.average_balance account;
     Account.no_of_deposits := MappedAccount.no_of_deposits account;
     Account.no_of_withdrawals := MappedAccount.no_of_withdrawals account;
     Account.mca_withdrawals := MappedAccount.mca_withdrawals account;
     Account.returned_items_count := MappedAccount.returned_items_count account;
     Account.returned_items_days := MappedAccount.returned_items_days account;
     Account.overdraft_days := MappedAccount.overdraft_days account |}.

Definition of_row (row : ReconciliationRow.t) : Row.t :=
  {| Row.case_id := Json.Str (ReconciliationRow.case_id row);
     Row.document_name := ReconciliationRow.document_name row;
     Row.iso_email := ReconciliationRow.iso_email row;
     Row.bank_name := Json.Str (ReconciliationRow.bank_name row);
     Row.month_year := ReconciliationRow.month_year row;
     Row.first_transaction_date := ReconciliationRow.first_transaction_date row;
     Row.last_transaction_date := ReconciliationRow.last_transaction_date row;
     Row.accounts := List.map of_mapped_account (ReconciliationRow.accounts row);
     Row.filename := ReconciliationRow.filename row |}.

End Raw.

(* ================================================================== *)
(** * The specification's vocabulary *)
(* ================================================================== *)

Module Spec.

Import JS Page.
Local Open Scope string_scope.
Local Open Scope Z_scope.

(** [round2]: to two decimal places, by rounding the hundredths to the
    nearest integer. *)
Definition round2 (x : number) : number :=
  div (Math.round (mul x (of_Z 100))) (of_Z 100).

(** [calculated_balance = starting_balance - total_debits + total_credits]
    and the raw difference [ending_balance - calculated_balance]. *)
Definition calculated_balance (a : MappedAccount.t) : number :=
  add (sub (MappedAccount.starting_balance a) (MappedAccount.total_debits a))
      (MappedAccount.total_credits a).

Definition raw_difference (a : MappedAccount.t) : number :=
  sub (MappedAccount.ending_balance a) (calculated_balance a).

(** The decimal literal [p * 10^e] as a number. *)
Definition literal (p : positive) (e : Z) : number := of_decimal false p e.

(** [x >= 0]. *)
Definition nonneg (x : number) : bool := SFleb (of_Z 0) x.

(** The Gregorian calendar. *)
Definition leap_year (y : Z) : bool :=
  (y mod 4 =? 0) && (negb (y mod 100 =? 0) || (y mod 400 =? 0)).

Definition days_in_month (y m : Z) : Z :=
  match m with
  | 2 => if leap_year y then 29 else 28
  | 4 | 6 | 9 | 11 => 30
  | _ => 31
  end.

(** Local midnight of the last day of a month: day 0 of the month after,
    as the arguments of [new Date(year, month, 0)] name it. *)
Definition last_midnight (year month : Z) : Z :=
  Date.MakeDay (Date.MakeFullYear year) month 0 * Date.msPerDay.

(** The host's zone keeps the local time [t] on its day: the instant that
    [new Date] takes for [t] is within the range of [Date], and read back
    in local time it falls on the day of [t].  So it is wherever the zone
    has the local time [t], and where a clock put forward by less than a
    day skipped it. *)
Definition keeps_the_day (host : Host.t) (t : Z) : Prop :=
  Z.abs (Host.utc host t) <= 8640000000000000
  /\ Date.Day (Date.LocalTime host (Host.utc host t)) = Date.Day t.

(** The host's zone is within a day of UTC at the local time [t]. *)
Definition within_a_day (host : Host.t) (t : Z) : Prop :=
  Z.abs (Host.utc host t - t) <= Date.msPerDay.

(** JAN through DEC. *)
Definition abbreviations : list string :=
  [ "JAN"; "FEB"; "MAR"; "APR"; "MAY"; "JUN";
    "JUL"; "AUG"; "SEP"; "OCT"; "NOV"; "DEC" ].

(** The texts "1" to "12". *)
Definition month_keys : list string := List.map fst monthMap.

(** The envelope has no usable [batch_id]: left out, [null] or empty. *)
Definition lacks_batch_id (item : ADLSResponse.t) : Prop :=
  string_or (ADLSResponse.batch_id item) "" = "".


(** A numeric input is a genuine binary64 value. *)
Definition well_formed (v : value) : Prop :=
  match v with
  | Num x => wf x = true
  | _ => True
  end.

(** Two rows that agree everywhere but, possibly, in their [case_id]. *)
Definition same_but_case_id (r1 r2 : ReconciliationRow.t) : Prop :=
  ReconciliationRow.document_name r1 = ReconciliationRow.document_name r2
  /\ ReconciliationRow.iso_email r1 = ReconciliationRow.iso_email r2
  /\ ReconciliationRow.bank_name r1 = ReconciliationRow.bank_name r2
  /\ ReconciliationRow.month_year r1 = ReconciliationRow.month_year r2
  /\ ReconciliationRow.first_transaction_date r1
     = ReconciliationRow.first_transaction_date r2
  /\ ReconciliationRow.last_transaction_date r1
     = ReconciliationRow.last_transaction_date r2
  /\ ReconciliationRow.accounts r1 = ReconciliationRow.accounts r2
  /\ ReconciliationRow.filename r1 = ReconciliationRow.filename r2.

End Spec.

(** ** Sample data, after the JSON of the setup notes *)

Module Sample.

Import JS Page.
Local Open Scope string_scope.
Local Open Scope Z_scope.

Definition account (sb td tc eb : number) : MappedAccount.t :=
  {| MappedAccount.account_number := "000000677337936";
     MappedAccount.account_type := "Commercial Checking";
     MappedAccount.starting_balance := sb;
     MappedAccount.ending_balance := eb;
     MappedAccount.total_credits := tc;
     MappedAccount.total_debits := td;
     MappedAccount.average_balance := of_Z 0;
     MappedAccount.no_of_deposits := of_Z 5;
     MappedAccount.no_of_withdrawals := of_Z 8;
     MappedAccount.mca_withdrawals := of_Z 0;
     MappedAccount.returned_items_count := of_Z 0;
     MappedAccount.returned_items_days := of_Z 0;
     MappedAccount.overdraft_days := of_Z 0 |}.

(** An account whose ending balance is off by [d]. *)
Definition account_off_by (d : number) : MappedAccount.t :=
  account (of_Z 0) (of_Z 0) (of_Z 0) d.

(** The account of the notes, with a chosen ending balance. *)
Definition chase_account (eb : number) : MappedAccount.t :=
  account (Spec.literal 178044 (-2)) (Spec.literal 15233052 (-2))
          (Spec.literal 151000 0) eb.

Definition raw_account (withdrawals : value) : AccountData.t :=
  {| AccountData.account_number := Present "000000677337936";
     AccountData.account_type := Present "Commercial Checking";
     AccountData.beginning_balance := Num (Spec.literal 178044 (-2));
     AccountData.ending_balance := Num (Spec.literal 44992 (-2));
     AccountData.total_deposits := Num (Spec.literal 151000 0);
     AccountData.total_withdrawals := withdrawals;
     AccountData.avg_daily_balance := Str "NA";
     AccountData.no_of_deposits := Num (of_Z 5);
     AccountData.no_of_withdrawals := Num (of_Z 8);
     AccountData.mca_withdrawals := Undefined;
     AccountData.returned_items_count := Undefined;
     AccountData.returned_items_days := Undefined;
     AccountData.overdraft_days := Undefined |}.

Definition statement (month year : value) (accounts : maybe (list AccountData.t))
  : ParsedJson.t :=
  {| ParsedJson.bank_name := Present "CHASE";
     ParsedJson.statement_month := month;
     ParsedJson.statement_year := year;
     ParsedJson.accounts := accounts |}.

Definition envelope (pj : maybe ParsedJson.t) (batch_id file : maybe string)
  : ADLSResponse.t :=
  {| ADLSResponse.agent_name := "parsing_batch_agent";
     ADLSResponse.processing_status := "success";
     ADLSResponse.start_time := "2026-01-11T21:02:44.878221";
     ADLSResponse.end_time := "2026-01-11T21:02:44.878232";
     ADLSResponse.parsed_json := pj;
     ADLSResponse.batch_id := batch_id;
     ADLSResponse.filename := file |}.

(** The statement of a given month and year, with the one account. *)
Definition statement_of (month year : Z) : ParsedJson.t :=
  statement (Num (of_Z month)) (Num (of_Z year))
    (Present [raw_account (Num (Spec.literal 15233052 (-2)))]).

Definition august_2025 : ParsedJson.t := statement_of 8 2025.

(** An envelope as the storage route hands it over, with or without a
    [batch_id]. *)
Definition item (pj : maybe ParsedJson.t) (batch_id : maybe string) : ADLSResponse.t :=
  envelope pj batch_id (Present "chase_aug_parsing_result.json").

(** A clock that moves on by one millisecond per item, and one that
    stands still during the loop. *)
Definition ticking (i : nat) : Z := 1762138000000 + Z.of_nat i.
Definition frozen (i : nat) : Z := 1762138000000.

(** An envelope, as JSON, whose one account is [null]. *)
Definition null_account : Json.t :=
  Json.Obj
    [ ("agent_name", Json.Str "parsing_batch_agent");
      ("parsed_json",
       Json.Obj [ ("bank_name", Json.Str "CHASE");
                  ("statement_month", Json.Num (of_Z 8));
                  ("statement_year", Json.Num (of_Z 2025));
                  ("accounts", Json.Arr [Json.Null]) ]);
      ("batch_id", Json.Str "parsing_20260111_205231");
      ("filename", Json.Str "chase_aug_parsing_result.json") ].

(** An envelope, as JSON, whose one account holds an object with a
    [toString] of its own for a balance. *)
Definition balance_without_text : Json.t :=
  Json.Obj
    [ ("agent_name", Json.Str "parsing_batch_agent");
      ("parsed_json",
       Json.Obj [ ("bank_name", Json.Str "CHASE");
                  ("statement_month", Json.Num (of_Z 8));
                  ("statement_year", Json.Num (of_Z 2025));
                  ("accounts",
                   Json.Arr
                     [ Json.Obj
                         [ ("account_number", Json.Str "000000677337936");
                           ("beginning_balance",
                            Json.Obj [("toString", Json.Num (of_Z 1))]) ] ]) ]);
      ("batch_id", Json.Str "parsing_20260111_205231");
      ("filename", Json.Str "chase_aug_parsing_result.json") ].

(** The text V8 gives for the members of [Object.prototype]. *)
Definition v8_member_text (key : string) : string :=
  if String.eqb key "__proto__" then "[object Object]"
  else if String.eqb key "constructor" then "function Object() { [native code] }"
  else "function " ++ key ++ "() { [native code] }".

(** A host in a zone of a fixed offset, in milliseconds. *)
Definition fixed_zone (offset : Z) : Host.t :=
  {| Host.offset := fun _ => offset;
     Host.utc := fun t => t - offset;
     Host.member_text := v8_member_text |}.

(** A host on UTC. *)
Definition utc_host : Host.t := fixed_zone 0.



End Sample.

(* ================================================================== *)
(** * More of the page and the storage routes *)
(* ================================================================== *)

(** ** More of [String.prototype] and [Array.prototype] *)

Module Text.

Import JS.
Local Open Scope string_scope.

(** [s.split(sep)] for a separator of one character: never empty. *)
Fixpoint split (sep : ascii) (s : string) : list string :=
  match s with
  | EmptyString => [EmptyString]
  | String c r =>
      if Ascii.eqb c sep then EmptyString :: split sep r
      else match split sep r with
           | w :: ws => String c w :: ws
           | [] => [String c EmptyString]
           end
  end.

(** [parts.pop() || d]: the last part if it is a non-empty string. *)
Definition pop_or (parts : list string) (d : string) : string :=
  match List.last parts EmptyString with
  | EmptyString => d
  | w => w
  end.

(** [s.startsWith(p)] and [s.endsWith(p)]. *)
Definition startsWith (p s : string) : bool :=
  match strip_prefix p s with Some _ => true | None => false end.

Fixpoint endsWith (p s : string) : bool :=
  String.eqb s p
  || match s with
     | String _ r => endsWith p r
     | EmptyString => false
     end.

(** [parts.join(sep)]. *)
Definition join (sep : string) (parts : list string) : string :=
  String.concat sep parts.

(** A letter of a pattern against a character of the text, under the
    [i] flag or not. *)
Definition same_letter (ignoreCase : bool) (p c : ascii) : bool :=
  if ignoreCase then Ascii.eqb (Page.lower p) (Page.lower c) else Ascii.eqb p c.

(** [/Case(\d+)/] tried at the start of [s]: the text matched and the
    digits captured.  The digits are taken greedily. *)
Definition match_Case_here (ignoreCase : bool) (s : string) : option (string * string) :=
  match s with
  | String c1 (String c2 (String c3 (String c4 r))) =>
      if same_letter ignoreCase "C" c1 && same_letter ignoreCase "a" c2
         && same_letter ignoreCase "s" c3 && same_letter ignoreCase "e" c4
      then
        match span_digits r with
        | (EmptyString, _) => None
        | (ds, _) => Some (String c1 (String c2 (String c3 (String c4 ds))), ds)
        end
      else None
  | _ => None
  end.

(** [s.match(/Case(\d+)/)], with the [i] flag or without: the leftmost
    match, [None] for [null]. *)
Fixpoint match_Case (ignoreCase : bool) (s : string) : option (string * string) :=
  match match_Case_here ignoreCase s with
  | Some m => Some m
  | None =>
      match s with
      | String _ r => match_Case ignoreCase r
      | EmptyString => None
      end
  end.

End Text.

(** ** The row component and the page *)

Module Component.

Import JS Page.
Local Open Scope string_scope.

(** Get the currently selected account:
    [data.accounts[selectedAccountIndex] || data.accounts[0]]. *)
Definition selectedAccount (data : ReconciliationRow.t) (selectedAccountIndex : nat)
  : option MappedAccount.t :=
  match nth_error (ReconciliationRow.accounts data) selectedAccountIndex with
  | Some account => Some account
  | None => nth_error (ReconciliationRow.accounts data) 0
  end.

Definition hasMultipleAccounts (data : ReconciliationRow.t) : bool :=
  Nat.ltb 1 (List.length (ReconciliationRow.accounts data)).

(** The difference a row displays and the verdict it shows, for the
    account index held in the component's state. *)
Definition difference (data : ReconciliationRow.t) (selectedAccountIndex : nat) : number :=
  match selectedAccount data selectedAccountIndex with
  | Some account => calculateDifference account
  | None => of_Z 0
  end.

Definition rowIsHarmonized (data : ReconciliationRow.t) (selectedAccountIndex : nat) : bool :=
  isHarmonized (selectedAccount data selectedAccountIndex).

(** Get first two words of bank name as array, or split single word into
    two parts if long.  [Math.ceil(word.length / 2)] is taken on the
    integer length. *)
Definition getBankNameFirstTwoWords (bankName : string) : list string :=
  let words := Text.split " " bankName in
  if Nat.leb 2 (List.length words) then firstn 2 words
  else if Nat.eqb (List.length words) 1 then
    let word := nth 0 words EmptyString in
    (* If word is short (4 characters or less), show on single line *)
    if Nat.leb (String.length word) 4 then [word]
    else
      (* Split longer single word in the middle to show on two lines *)
      let mid := Nat.div2 (S (String.length word)) in
      [take mid word; drop mid word]
  else [""; ""].

(** What [Home] renders. *)
Inductive view : Type :=
  | Skeleton
  | ErrorBox (message : string)
  | NoData
  | Rows (rows : list Raw.Row.t).

(** The state of [Home]. *)
Module HomeState.
Record t : Type := mk {
  reconciliationData : list Raw.Row.t;
  loading : bool;
  error : maybe string
}.
End HomeState.

Definition initialState : HomeState.t :=
  {| HomeState.reconciliationData := [];
     HomeState.loading := true;
     HomeState.error := IsNull |}.

(** The skeleton while loading, the error box for an error, the empty
    state for no rows, the rows otherwise. *)
Definition Home (state : HomeState.t) : view :=
  if HomeState.loading state then Skeleton
  else
    match HomeState.error state with
    | Present (String c r) => ErrorBox (String c r)
    | _ =>
        match HomeState.reconciliationData state with
        | [] => NoData
        | rows => Rows rows
        end
    end.

(** How the request to [/api/fetch-adls] ends: [fetch] or
    [response.json()] rejects with an [Error] of some message; or the
    response is not ok and its body reads as [errorData]; or it is ok and
    its body reads as [result]. *)
Inductive fetched : Type :=
  | Rejected (message : string)
  | NotOk (errorData : Json.t)
  | Ok (result : Json.t).

(** The body of the [try] of [fetchData]: the rows it sets, or what it
    throws.  [new Error(message)] takes the text of its argument. *)
Definition request (host : Host.t) (clock : nat -> Z) (response : fetched)
  : completion (list Raw.Row.t) :=
  match response with
  | Rejected message => Throw message
  | NotOk errorData =>
      Raw.bind (Raw.get "error" errorData) (fun error =>
      Raw.bind (Raw.to_text (Json.or_else error (Json.Str "Failed to fetch data")))
        (fun message => Throw message))
  | Ok result => Raw.fetchData host clock result
  end.

(** The state once [fetchData] has run.  Whatever is thrown is an
    [Error], whose message becomes the state's [error]; [thrown] is the
    message the engine gives the [TypeError] a run ends in. *)
Definition loaded (host : Host.t) (clock : nat -> Z) (thrown : string)
    (response : fetched) : HomeState.t :=
  match request host clock response with
  | Return mappedData =>
      {| HomeState.reconciliationData := mappedData;
         HomeState.loading := false;
         HomeState.error := IsNull |}
  | Throw message =>
      {| HomeState.reconciliationData := [];
         HomeState.loading := false;
         HomeState.error := Present message |}
  | ThrowTypeError =>
      {| HomeState.reconciliationData := [];
         HomeState.loading := false;
         HomeState.error := Present thrown |}
  end.

End Component.

(** ** [/api/fetch-adls] *)

Module FetchAdls.

Import JS Page.
Local Open Scope string_scope.

(** An entry of the listing. *)
Module PathItem.
Record t : Type := mk {
  isDirectory : maybe bool;
  name : maybe string
}.
End PathItem.

(** The path of a listed JSON file, without a leading slash; [None] for
    anything else. *)
Definition jsonPath (pathItem : PathItem.t) : option string :=
  match PathItem.isDirectory pathItem, PathItem.name pathItem with
  | Present false, Present name =>
      if Text.endsWith ".json" name then
        Some (if Text.startsWith "/" name then drop 1 name else name)
      else None
  | _, _ => None
  end.

(** First, collect all file paths. *)
Fixpoint filePaths (listing : list PathItem.t) : list string :=
  match listing with
  | [] => []
  | pathItem :: rest =>
      match jsonPath pathItem with
      | Some filePath => filePath :: filePaths rest
      | None => filePaths rest
      end
  end.

(** Extract filename from filePath. *)
Definition fileNameOf (filePath : string) : string :=
  Text.pop_or (Text.split "/" filePath) filePath.

(** One file: [read] gives the parsed content, or nothing when reading or
    parsing throws; a content of invalid structure gives [null]. *)
Definition readFile (read : string -> option ADLSResponse.t) (filePath : string)
  : option ADLSResponse.t :=
  match read filePath with
  | None => None
  | Some jsonData =>
      if valid_item jsonData then
        Some {| ADLSResponse.agent_name := ADLSResponse.agent_name jsonData;
                ADLSResponse.processing_status := ADLSResponse.processing_status jsonData;
                ADLSResponse.start_time := ADLSResponse.start_time jsonData;
                ADLSResponse.end_time := ADLSResponse.end_time jsonData;
                ADLSResponse.parsed_json := ADLSResponse.parsed_json jsonData;
                ADLSResponse.batch_id := ADLSResponse.batch_id jsonData;
                ADLSResponse.filename := Present (fileNameOf filePath) |}
      else None
  end.

(** Filter out null values (failed reads or invalid structures). *)
Fixpoint files (read : string -> option ADLSResponse.t) (paths : list string)
  : list ADLSResponse.t :=
  match paths with
  | [] => []
  | filePath :: rest =>
      match readFile read filePath with
      | Some file => file :: files read rest
      | None => files read rest
      end
  end.

(** The [data] the route answers with. *)
Definition GET (listing : list PathItem.t) (read : string -> option ADLSResponse.t)
  : list ADLSResponse.t :=
  files read (filePaths listing).

(** *** The route on whatever JSON the files hold *)

Module Any.

(** [jsonData.filename = fileName] on the fields of an object: the
    property is replaced where it is, or added after the others. *)
Fixpoint assign (key : string) (x : Json.t) (fields : list (string * Json.t))
  : list (string * Json.t) :=
  match fields with
  | [] => [(key, x)]
  | (k, v) :: rest =>
      if String.eqb k key then (k, x) :: rest else (k, v) :: assign key x rest
  end.

(** One file: [read] gives what [JSON.parse] makes of the content, or
    nothing when reading or parsing throws.  A content of invalid
    structure gives [null], and so does one on which the validation
    throws.  What passes the validation is an object. *)
Definition readFile (read : string -> option Json.t) (filePath : string)
  : option Json.t :=
  match read filePath with
  | None => None
  | Some jsonData =>
      match Raw.valid_item jsonData, jsonData with
      | Return true, Json.Obj fields =>
          Some (Json.Obj (assign "filename" (Json.Str (fileNameOf filePath)) fields))
      | _, _ => None
      end
  end.

(** Filter out null values (failed reads or invalid structures). *)
Fixpoint files (read : string -> option Json.t) (paths : list string) : list Json.t :=
  match paths with
  | [] => []
  | filePath :: rest =>
      match readFile read filePath with
      | Some file => file :: files read rest
      | None => files read rest
      end
  end.

(** The [data] the route answers with. *)
Definition GET (listing : list PathItem.t) (read : string -> option Json.t)
  : list Json.t :=
  files read (filePaths listing).

End Any.

End FetchAdls.

(** ** The response on the wire *)

(** What [response.json()] gives the page for what the route gave
    [NextResponse.json]: [JSON.parse(JSON.stringify(x))].  A property
    that is [undefined] is left out and reads as [undefined] again;
    [null], text and arrays come through as they are. *)
Module Wire.

Import JS Page.

(** A finite number is written in digits that read back as the same
    number; either zero is written [0]; [NaN] and the infinities are
    written [null]. *)
Definition of_number (x : JS.number) : value :=
  match x with
  | S754_finite _ _ _ => Num x
  | S754_zero _ => Num (of_Z 0)
  | _ => Null
  end.

Definition of_value (v : value) : value :=
  match v with
  | Num x => of_number x
  | _ => v
  end.

Definition of_account (a : AccountData.t) : AccountData.t :=
  {| AccountData.account_number := AccountData.account_number a;
     AccountData.account_type := AccountData.account_type a;
     AccountData.beginning_balance := of_value (AccountData.beginning_balance a);
     AccountData.ending_balance := of_value (AccountData.ending_balance a);
     AccountData.total_deposits := of_value (AccountData.total_deposits a);
     AccountData.total_withdrawals := of_value (AccountData.total_withdrawals a);
     AccountData.avg_daily_balance := of_value (AccountData.avg_daily_balance a);
     AccountData.no_of_deposits := of_value (AccountData.no_of_deposits a);
     AccountData.no_of_withdrawals := of_value (AccountData.no_of_withdrawals a);
     AccountData.mca_withdrawals := of_value (AccountData.mca_withdrawals a);
     AccountData.returned_items_count := of_value (AccountData.returned_items_count a);
     AccountData.returned_items_days := of_value (AccountData.returned_items_days a);
     AccountData.overdraft_days := of_value (AccountData.overdraft_days a) |}.

Definition of_parsed (pj : ParsedJson.t) : ParsedJson.t :=
  {| ParsedJson.bank_name := ParsedJson.bank_name pj;
     ParsedJson.statement_month := of_value (ParsedJson.statement_month pj);
     ParsedJson.statement_year := of_value (ParsedJson.statement_year pj);
     ParsedJson.accounts :=
       match ParsedJson.accounts pj with
       | Present accounts => Present (List.map of_account accounts)
       | other => other
       end |}.

Definition of_file (file : ADLSResponse.t) : ADLSResponse.t :=
  {| ADLSResponse.agent_name := ADLSResponse.agent_name file;
     ADLSResponse.processing_status := ADLSResponse.processing_status file;
     ADLSResponse.start_time := ADLSResponse.start_time file;
     ADLSResponse.end_time := ADLSResponse.end_time file;
     ADLSResponse.parsed_json :=
       match ADLSResponse.parsed_json file with
       | Present pj => Present (of_parsed pj)
       | other => other
       end;
     ADLSResponse.batch_id := ADLSResponse.batch_id file;
     ADLSResponse.filename := ADLSResponse.filename file |}.

(** [result.data] on the page, for the [files] of the route. *)
Definition data (files : list ADLSResponse.t) : list ADLSResponse.t :=
  List.map of_file files.

(** The same on any value: a property that is [undefined] is left out,
    an element that is [undefined] is written [null]. *)
Fixpoint json (v : Json.t) : Json.t :=
  match v with
  | Json.Num x =>
      match x with
      | S754_finite _ _ _ => Json.Num x
      | S754_zero _ => Json.Num (of_Z 0)
      | _ => Json.Null
      end
  | Json.Arr items =>
      Json.Arr
        (List.map (fun x => match x with
                            | Json.Undefined => Json.Null
                            | _ => json x
                            end) items)
  | Json.Obj fields =>
      Json.Obj
        ((fix properties (l : list (string * Json.t)) : list (string * Json.t) :=
            match l with
            | [] => []
            | (k, Json.Undefined) :: rest => properties rest
            | (k, x) :: rest => (k, json x) :: properties rest
            end) fields)
  | other => other
  end.

(** What [response.json()] gives the page for
    [NextResponse.json({ data: files })]. *)
Definition result (files : list Json.t) : Json.t :=
  json (Json.Obj [("data"%string, Json.Arr files)]).

End Wire.

(** ** The funding-transfer route *)

Module FundingTransfer.

Import JS.
Local Open Scope string_scope.
Local Open Scope Z_scope.

Module TransactionItem.
Record t : Type := mk {
  date : maybe string;
  description : maybe string;
  amount : value;
  type : maybe string;
  non_true_revenue : value
}.
End TransactionItem.

Module AccountData.
Record t : Type := mk {
  account_number : maybe string;
  account_type : maybe string;
  mca_deposit : maybe (list TransactionItem.t);
  returned_items : maybe (list TransactionItem.t);
  internal_transfer_deposit : maybe (list TransactionItem.t);
  other_transfer_deposit : maybe (list TransactionItem.t);
  standard_deposit : maybe (list TransactionItem.t)
}.
End AccountData.

Module AccountCount.
Record t : Type := mk {
  account_number : maybe string;
  account_type : maybe string;
  funding_transfer_count : Z
}.
End AccountCount.

(** Extract case number from caseId (e.g., "Case101" -> "101"). *)
Definition caseNumber (caseId : string) : option string :=
  match Text.match_Case true caseId with
  | Some (_, digits) => Some digits
  | None => None
  end.

(** Construct the filename: Case1.json, Case2.json, etc. (capital C). *)
Definition fileName (caseId : string) : option string :=
  match caseNumber caseId with
  | Some number => Some ("Case" ++ number ++ ".json")
  | None => None
  end.

(** The file read, under the funding-transfer path of the environment or
    its default. *)
Definition filePath (fundingTransferPath : option string) (caseId : string)
  : option string :=
  match fileName caseId with
  | Some name =>
      Some (match fundingTransferPath with
            | Some (String c r) => String c r
            | _ => "gold/funding_deposit"
            end ++ "/" ++ name)
  | None => None
  end.

(** [item.non_true_revenue === 1]. *)
Definition is_non_true_revenue (item : TransactionItem.t) : bool :=
  match TransactionItem.non_true_revenue item with
  | Num x => strict_eq x (of_Z 1)
  | _ => false
  end.

(** Count non_true_revenue = 1; array lengths are exact integers. *)
Definition countNonTrueRevenue (items : maybe (list TransactionItem.t)) : Z :=
  match items with
  | Present items => Z.of_nat (List.length (List.filter is_non_true_revenue items))
  | _ => 0
  end.

Definition fundingTransferCount (account : AccountData.t) : Z :=
  countNonTrueRevenue (AccountData.mca_deposit account)
  + countNonTrueRevenue (AccountData.returned_items account)
  + countNonTrueRevenue (AccountData.internal_transfer_deposit account)
  + countNonTrueRevenue (AccountData.other_transfer_deposit account)
  + countNonTrueRevenue (AccountData.standard_deposit account).

(** Calculate funding transfer deposit count for each account. *)
Definition accountsWithCounts (accounts : list AccountData.t) : list AccountCount.t :=
  List.map
    (fun account =>
       {| AccountCount.account_number := AccountData.account_number account;
          AccountCount.account_type := AccountData.account_type account;
          AccountCount.funding_transfer_count := fundingTransferCount account |})
    accounts.

End FundingTransfer.

(** ** [/api/fetch-bsi-analysis] *)

Module BsiAnalysis.

Import JS.
Local Open Scope string_scope.

(** The last segment of a directory path: [dir.split('/').pop() || '']. *)
Definition dirName (dir : string) : string :=
  Text.pop_or (Text.split "/" dir) "".

(** [caseMatch && caseMatch[0] === caseId]. *)
Definition matches (caseId dir : string) : bool :=
  match Text.match_Case false (dirName dir) with
  | Some (whole, _) => String.eqb whole caseId
  | None => false
  end.

(** Find the directory that matches the caseId: the first one that does. *)
Fixpoint matchedDirectory (directories : list string) (caseId : string)
  : option string :=
  match directories with
  | [] => None
  | dir :: rest =>
      if matches caseId dir then Some dir else matchedDirectory rest caseId
  end.

(** Construct the BSI analysis filename, under the matched directory. *)
Definition bsiAnalysisPath (directories : list string) (caseId : string)
  : option string :=
  match matchedDirectory directories caseId with
  | Some dir => Some (dir ++ "/" ++ caseId ++ "_bsi_analysis.json")
  | None => None
  end.

End BsiAnalysis.

(** ** Vocabulary for the properties of this part *)

Module Shape.

Import JS Page.
Local Open Scope string_scope.

Fixpoint all_chars (P : ascii -> bool) (s : string) : bool :=
  match s with
  | String c r => P c && all_chars P r
  | EmptyString => true
  end.

(** Non-empty text of decimal digits. *)
Definition digits (s : string) : Prop :=
  s <> "" /\ all_chars is_digit s = true.

(** Text without the character. *)
Definition free_of (c : ascii) (s : string) : Prop :=
  all_chars (fun d => negb (Ascii.eqb d c)) s = true.

(** Text that does not go on with a digit. *)
Definition no_digit_ahead (s : string) : Prop :=
  match s with
  | String c _ => is_digit c = false
  | EmptyString => True
  end.

(** Digits with thousands separators among them. *)
Definition grouped_digits (s : string) : Prop :=
  all_chars (fun c => is_digit c || Ascii.eqb c ",") s = true
  /\ remove_char "," s <> "".

(** The raw account with another [total_withdrawals]. *)
Definition with_withdrawals (account : AccountData.t) (v : value) : AccountData.t :=
  {| AccountData.account_number := AccountData.account_number account;
     AccountData.account_type := AccountData.account_type account;
     AccountData.beginning_balance := AccountData.beginning_balance account;
     AccountData.ending_balance := AccountData.ending_balance account;
     AccountData.total_deposits := AccountData.total_deposits account;
     AccountData.total_withdrawals := v;
     AccountData.avg_daily_balance := AccountData.avg_daily_balance account;
     AccountData.no_of_deposits := AccountData.no_of_deposits account;
     AccountData.no_of_withdrawals := AccountData.no_of_withdrawals account;
     AccountData.mca_withdrawals := AccountData.mca_withdrawals account;
     AccountData.returned_items_count := AccountData.returned_items_count account;
     AccountData.returned_items_days := AccountData.returned_items_days account;
     AccountData.overdraft_days := AccountData.overdraft_days account |}.

(** A row comes from an item: the mapper returns it at some clock
    reading. *)
Definition row_of (host : Host.t) (item : ADLSResponse.t) (row : ReconciliationRow.t)
  : Prop :=
  exists now, mapADLSToReconciliationRow host now item = Return row.

(** The envelope has its nested detail object: it is truthy and so is
    its [parsed_json]. *)
Definition has_parsed_json (item : Json.t) : bool :=
  Json.truthy item
  && match Json.get "parsed_json" item with
     | Some parsed_json => Json.truthy parsed_json
     | None => false
     end.

(** The call ends in no [Error] of the page's own. *)
Definition throws_no_Error {A : Type} (c : completion A) : Prop :=
  forall message, c <> Throw message.

(** The call returns. *)
Definition returns {A : Type} (c : completion A) : bool :=
  match c with
  | Return _ => true
  | _ => false
  end.

(** The loop shows the item: the guard lets it through to the mapper, and
    the mapper returns on it. *)
Definition shown_item (host : Host.t) (item : Json.t) : bool :=
  match Raw.valid_item item with
  | Return true => returns (Raw.mapADLSToReconciliationRow host 0 item)
  | _ => false
  end.

(** A row comes from an item of any JSON. *)
Definition raw_row_of (host : Host.t) (item : Json.t) (row : Raw.Row.t) : Prop :=
  exists now, Raw.mapADLSToReconciliationRow host now item = Return row.

(** Neither [null] nor [undefined]. *)
Definition is_there (v : Json.t) : bool :=
  match v with
  | Json.Undefined | Json.Null => false
  | _ => true
  end.

(** The answer of the storage route with these items as its [data]. *)
Definition answer (items : list Json.t) : Json.t :=
  Json.Obj [("data", Json.Arr items)].

(** The property under a key, [undefined] where there is none to read. *)
Definition field (key : string) (v : Json.t) : Json.t :=
  match Json.get key v with
  | Some x => x
  | None => Json.Undefined
  end.

(** The value converts to text, as [String] does it, without throwing. *)
Definition has_text (v : Json.t) : bool :=
  match Json.to_text v with
  | Some _ => true
  | None => false
  end.

(** The fields of an account that the normalizers read. *)
Definition numeric_fields : list string :=
  [ "beginning_balance"; "ending_balance"; "total_deposits"; "total_withdrawals";
    "avg_daily_balance"; "no_of_deposits"; "no_of_withdrawals"; "mca_withdrawals";
    "returned_items_count"; "returned_items_days"; "overdraft_days" ].

(** An account that the mapper takes: it is there, and each field the
    normalizers read converts to text. *)
Definition well_shaped_account (account : Json.t) : bool :=
  is_there account
  && forallb (fun key => has_text (field key account)) numeric_fields.

(** An envelope that the mapper takes: the month and the year of its
    [parsed_json] convert to text, its [accounts] are falsy or an array of
    accounts that the mapper takes, and its [filename] is falsy or a
    text. *)
Definition well_shaped (item : Json.t) : bool :=
  let parsed_json := field "parsed_json" item in
  let accounts := field "accounts" parsed_json in
  let filename := field "filename" item in
  has_text (field "statement_month" parsed_json)
  && has_text (field "statement_year" parsed_json)
  && (if Json.truthy accounts then
        match accounts with
        | Json.Arr items => forallb well_shaped_account items
        | _ => false
        end
      else true)
  && (if Json.truthy filename then
        match filename with
        | Json.Str _ => true
        | _ => false
        end
      else true).

(** What the storage route hands over: a file that passes the guard and
    carries the last segment of the path of a JSON file as its name. *)
Definition handed_over (file : Json.t) : Prop :=
  Raw.valid_item file = Return true
  /\ exists name,
       Json.get "filename" file = Some (Json.Str name)
       /\ Text.endsWith ".json" name = true /\ free_of "/" name.

(** The items of an array that may be missing. *)
Definition items_of {A : Type} (items : maybe (list A)) : list A :=
  match items with
  | Present l => l
  | _ => []
  end.

(** All the transactions the funding-transfer route looks at. *)
Definition transactions (account : FundingTransfer.AccountData.t)
  : list FundingTransfer.TransactionItem.t :=
  (items_of (FundingTransfer.AccountData.mca_deposit account)
   ++ items_of (FundingTransfer.AccountData.returned_items account)
   ++ items_of (FundingTransfer.AccountData.internal_transfer_deposit account)
   ++ items_of (FundingTransfer.AccountData.other_transfer_deposit account)
   ++ items_of (FundingTransfer.AccountData.standard_deposit account))%list.

(** The value of a decimal numeral, read from the left. *)
Fixpoint uint_value (acc : Z) (u : Decimal.uint) : Z :=
  match u with
  | Decimal.Nil => acc
  | Decimal.D0 u => uint_value (10 * acc + 0)%Z u
  | Decimal.D1 u => uint_value (10 * acc + 1)%Z u
  | Decimal.D2 u => uint_value (10 * acc + 2)%Z u
  | Decimal.D3 u => uint_value (10 * acc + 3)%Z u
  | Decimal.D4 u => uint_value (10 * acc + 4)%Z u
  | Decimal.D5 u => uint_value (10 * acc + 5)%Z u
  | Decimal.D6 u => uint_value (10 * acc + 6)%Z u
  | Decimal.D7 u => uint_value (10 * acc + 7)%Z u
  | Decimal.D8 u => uint_value (10 * acc + 8)%Z u
  | Decimal.D9 u => uint_value (10 * acc + 9)%Z u
  end.

End Shape.

(** ** More sample data *)

Module Fixtures.

Import JS Page.
Local Open Scope string_scope.

(** A row of the page with the given accounts. *)
Definition row (accounts : list MappedAccount.t) : ReconciliationRow.t :=
  {| ReconciliationRow.case_id := "CASE-1762138000000";
     ReconciliationRow.document_name := "Statement_AUG_2025.pdf";
     ReconciliationRow.iso_email := "iso@example.com";
     ReconciliationRow.bank_name := "CHASE";
     ReconciliationRow.month_year := "AUG 2025";
     ReconciliationRow.first_transaction_date := "8/1/2025";
     ReconciliationRow.last_transaction_date := "8/31/2025";
     ReconciliationRow.accounts := accounts;
     ReconciliationRow.filename := "chase_aug" |}.

(** A deposit with the given [non_true_revenue] flag. *)
Definition transaction (flag : value) : FundingTransfer.TransactionItem.t :=
  {| FundingTransfer.TransactionItem.date := Present "2025-08-04";
     FundingTransfer.TransactionItem.description := Present "ONLINE TRANSFER";
     FundingTransfer.TransactionItem.amount := Num (of_Z 2500);
     FundingTransfer.TransactionItem.type := Present "credit";
     FundingTransfer.TransactionItem.non_true_revenue := flag |}.

(** An account of the funding-transfer file with two of its arrays. *)
Definition funding_account
    (mca_deposit standard_deposit : maybe (list FundingTransfer.TransactionItem.t))
  : FundingTransfer.AccountData.t :=
  {| FundingTransfer.AccountData.account_number := Present "000000677337936";
     FundingTransfer.AccountData.account_type := Present "Commercial Checking";
     FundingTransfer.AccountData.mca_deposit := mca_deposit;
     FundingTransfer.AccountData.returned_items := Absent;
     FundingTransfer.AccountData.internal_transfer_deposit := Absent;
     FundingTransfer.AccountData.other_transfer_deposit := Absent;
     FundingTransfer.AccountData.standard_deposit := standard_deposit |}.

End Fixtures.

(* ================================================================== *)
(** * Facts about numbers *)
(* ================================================================== *)

Module NumberFacts.

Import JS.
Local Open Scope Z_scope.

Lemma strict_eq_zero_inv (x : number) :
  strict_eq x (of_Z 0) = true -> exists s, x = S754_zero s.
Proof.
  destruct x as [s | s | | s m e]; cbn; try discriminate.
  - intros _. now exists s.
  - destruct s; discriminate.
  - destruct s; discriminate.
Qed.

Lemma abs_nonneg (x : number) :
  isNaN x = false -> Spec.nonneg (Math.abs x) = true.
Proof. destruct x as [s | s | | s m e]; cbn; congruence. Qed.

Lemma same_number_eq (x y : number) : same_number x y = true -> x = y.
Proof.
  destruct x as [a | a | | a m e], y as [b | b | | b m' e']; cbn;
    try discriminate; try reflexivity.
  - intros H. apply Bool.eqb_prop in H. congruence.
  - intros H. apply Bool.eqb_prop in H. congruence.
  - intros H. apply andb_prop in H as [H He]. apply andb_prop in H as [Hs Hm].
    apply Bool.eqb_prop in Hs. apply Pos.eqb_eq in Hm. apply Z.eqb_eq in He.
    congruence.
Qed.

Lemma same_number_refl (x : number) : same_number x x = true.
Proof.
  destruct x as [a | a | | a m e]; cbn; try reflexivity.
  - now destruct a.
  - now destruct a.
  - rewrite Pos.eqb_refl, Z.eqb_refl. now destruct a.
Qed.

(** *** Bit lengths *)

Lemma digits2_pos_size (p : positive) : digits2_pos p = Pos.size p.
Proof. induction p; cbn; congruence. Qed.

Lemma digits2_pos_gt (p : positive) : Zpos p < 2 ^ Zpos (digits2_pos p).
Proof.
  rewrite digits2_pos_size.
  pose proof (Pos.size_gt p) as H.
  change 2 with (Zpos 2). rewrite <- Pos2Z.inj_pow. lia.
Qed.

Lemma digits2_pos_le (p : positive) (n : Z) :
  0 <= n -> Zpos p < 2 ^ n -> Zpos (digits2_pos p) <= n.
Proof.
  intros Hn Hp. rewrite digits2_pos_size.
  pose proof (Pos.size_le p) as H.
  assert (H' : 2 ^ Zpos (Pos.size p) <= 2 * Zpos p).
  { change 2 with (Zpos 2) at 1. rewrite <- Pos2Z.inj_pow. lia. }
  destruct (Z.le_gt_cases (Zpos (Pos.size p)) n) as [Hle | Hgt]; [exact Hle |].
  exfalso.
  assert (2 ^ (n + 1) <= 2 ^ Zpos (Pos.size p)) by (apply Z.pow_le_mono_r; lia).
  rewrite Z.pow_add_r in * by lia. lia.
Qed.

Lemma digits2_pos_iter_xO (p k : positive) :
  digits2_pos (Pos.iter xO p k) = (digits2_pos p + k)%positive.
Proof.
  induction k as [| k IH] using Pos.peano_ind.
  - cbn. lia.
  - rewrite Pos.iter_succ. cbn [digits2_pos]. rewrite IH. lia.
Qed.

Lemma Zpos_iter_xO (p k : positive) :
  Zpos (Pos.iter xO p k) = Zpos p * 2 ^ Zpos k.
Proof.
  induction k as [| k IH] using Pos.peano_ind.
  - cbn. lia.
  - rewrite Pos.iter_succ, Pos2Z.inj_xO, IH, Pos2Z.inj_succ, Z.pow_succ_r by lia.
    lia.
Qed.

(** *** Rounding what needs no rounding *)

Lemma binary_round_aux_canonical (s : bool) (m : positive) (e : Z) :
  Zpos (digits2_pos m) = 53 -> -1074 <= e <= 971 ->
  binary_round_aux prec emax s (Zpos m) e loc_Exact = S754_finite s m e.
Proof.
  intros Hd He.
  unfold binary_round_aux, shr_fexp, fexp, emin, prec, emax.
  cbn [Zdigits2 shr_record_of_loc].
  rewrite Hd.
  replace (Z.max (53 + e - 53) (3 - 1024 - 53) - e) with 0 by lia.
  cbn [shr shr_m loc_of_shr_record round_nearest_even Zdigits2 shr_record_of_loc].
  rewrite Hd.
  replace (Z.max (53 + e - 53) (3 - 1024 - 53) - e) with 0 by lia.
  cbn [shr shr_m].
  destruct (Z.leb_spec e (1024 - 53)); [reflexivity | lia].
Qed.

Lemma binary_round_exact (s : bool) (p : positive) :
  Zpos (digits2_pos p) <= 53 ->
  exists m e, binary_round prec emax s p 0 = S754_finite s m e
              /\ Zpos m = Zpos p * 2 ^ (- e) /\ -52 <= e <= 0.
Proof.
  intros Hd.
  unfold binary_round, shl_align, fexp, emin, prec, emax.
  replace (Z.max (Zpos (digits2_pos p) + 0 - 53) (3 - 1024 - 53) - 0)
    with (Zpos (digits2_pos p) - 53) by lia.
  destruct (Zpos (digits2_pos p) - 53) as [| k | k] eqn:Hk; try lia.
  - exists p, 0. split; [| split; [cbn; lia | lia]].
    apply binary_round_aux_canonical; lia.
  - exists (Pos.iter xO p k), (Z.max (Zpos (digits2_pos p) + 0 - 53) (3 - 1024 - 53)).
    assert (Hmax : Z.max (Zpos (digits2_pos p) + 0 - 53) (3 - 1024 - 53) = Zneg k) by lia.
    rewrite Hmax. split; [| split].
    + apply binary_round_aux_canonical; [| lia].
      rewrite digits2_pos_iter_xO. lia.
    + rewrite Zpos_iter_xO. reflexivity.
    + lia.
Qed.

(** Integers below 2^53 are numbers as they stand. *)
Lemma of_Z_exact (p : positive) :
  Zpos p < 2 ^ 53 ->
  exists m e, of_Z (Zpos p) = S754_finite false m e
              /\ Zpos m = Zpos p * 2 ^ (- e) /\ -52 <= e <= 0.
Proof.
  intros Hp. apply binary_round_exact. apply digits2_pos_le; lia.
Qed.

Lemma of_Z_inj (a b : positive) :
  Zpos a < 2 ^ 53 -> Zpos b < 2 ^ 53 -> of_Z (Zpos a) = of_Z (Zpos b) -> a = b.
Proof.
  intros Ha Hb Heq.
  destruct (of_Z_exact a Ha) as (ma & ea & Hma & Hva & Hea).
  destruct (of_Z_exact b Hb) as (mb & eb & Hmb & Hvb & Heb).
  rewrite Hma, Hmb in Heq. injection Heq as Hm He. subst mb eb.
  rewrite Hva in Hvb.
  assert (0 < 2 ^ (- ea)) by (apply Z.pow_pos_nonneg; lia).
  nia.
Qed.

Lemma to_integer_of_Z (p : positive) :
  Zpos p < 2 ^ 53 -> to_integer (of_Z (Zpos p)) = Some (Zpos p).
Proof.
  intros Hp. destruct (of_Z_exact p Hp) as (m & e & Hm & Hv & He).
  rewrite Hm. cbn [to_integer cond_Zopp]. f_equal.
  rewrite Hv.
  destruct (Z.eq_dec e 0) as [-> | Hne].
  - cbn. lia.
  - rewrite <- (Z.opp_involutive e) at 2.
    rewrite Z.shiftl_opp_r, Z.shiftr_div_pow2 by lia.
    apply Z.div_mul. apply Z.pow_nonzero; lia.
Qed.

Lemma of_decimal_integer (p : positive) (j : Z) :
  0 <= j -> of_decimal false p j = of_Z (Zpos p * 10 ^ j).
Proof.
  intros Hj. assert (0 < 10 ^ j) by (apply Z.pow_pos_nonneg; lia).
  unfold of_decimal, of_Z, binary_normalize.
  destruct (10 ^ j) as [| t | t] eqn:Ht; try lia.
  destruct j as [| j | j]; try lia; cbn [Z.mul Z.to_pos]; reflexivity.
Qed.

(** *** Rounding never gives NaN *)

Lemma iter_pos_invariant {A : Type} (P : A -> Prop) (f : A -> A) :
  (forall a, P a -> P (f a)) -> forall n a, P a -> P (iter_pos f n a).
Proof.
  intros Hf. induction n as [n IH | n IH |]; intros a Ha; cbn; auto.
Qed.

Lemma shr_1_nonneg (mrs : shr_record) : 0 <= shr_m mrs -> 0 <= shr_m (shr_1 mrs).
Proof.
  destruct mrs as [m r s]. cbn [shr_m].
  destruct m as [| [p | p |] | p]; cbn; lia.
Qed.

Lemma shr_fexp_nonneg (m e : Z) (l : location) :
  0 <= m -> 0 <= shr_m (fst (shr_fexp prec emax m e l)).
Proof.
  intros Hm. unfold shr_fexp, shr.
  assert (H0 : 0 <= shr_m (shr_record_of_loc m l)) by (destruct l as [| []]; exact Hm).
  destruct (fexp prec emax (Zdigits2 m + e) - e) as [| k | k]; cbn [fst]; auto.
  apply (iter_pos_invariant (fun mrs => 0 <= shr_m mrs)); auto using shr_1_nonneg.
Qed.

Lemma binary_round_aux_not_NaN (s : bool) (m e : Z) (l : location) :
  0 <= m -> isNaN (binary_round_aux prec emax s m e l) = false.
Proof.
  intros Hm. unfold binary_round_aux.
  pose proof (shr_fexp_nonneg m e l Hm) as H1.
  destruct (shr_fexp prec emax m e l) as [mrs' e']. cbn [fst] in H1.
  assert (H2 : 0 <= round_nearest_even (shr_m mrs') (loc_of_shr_record mrs')).
  { unfold round_nearest_even.
    destruct (loc_of_shr_record mrs') as [| []]; try lia.
    destruct (Z.even (shr_m mrs')); lia. }
  pose proof (shr_fexp_nonneg _ e' loc_Exact H2) as H3.
  destruct (shr_fexp prec emax _ e' loc_Exact) as [mrs'' e'']. cbn [fst] in H3.
  destruct (shr_m mrs'') as [| p | p]; try lia; [reflexivity |].
  now destruct (e'' <=? emax - prec).
Qed.

Lemma binary_normalize_not_NaN (z : Z) (s : bool) :
  isNaN (binary_normalize prec emax z 0 s) = false.
Proof.
  destruct z as [| p | p]; cbn [binary_normalize]; [reflexivity | |];
    unfold binary_round; destruct (shl_align _ _ _) as [mz ez];
    apply binary_round_aux_not_NaN; lia.
Qed.

Lemma floor_not_NaN (x : number) : isNaN x = false -> isNaN (Math.floor x) = false.
Proof.
  destruct x as [s | s | | s m e]; cbn [Math.floor]; auto.
  intros _. destruct (0 <=? e); [reflexivity | apply binary_normalize_not_NaN].
Qed.

(** *** The floor of a finite number is finite *)

Lemma wf_mantissa (s : bool) (m : positive) (e : Z) :
  wf (S754_finite s m e) = true -> Zpos m < 2 ^ 53.
Proof.
  unfold wf, valid_binary, bounded, canonical_mantissa, fexp, emin, prec, emax.
  intros H. apply andb_prop in H as [H _]. apply Z.eqb_eq in H.
  pose proof (digits2_pos_gt m) as Hgt.
  assert (2 ^ Zpos (digits2_pos m) <= 2 ^ 53) by (apply Z.pow_le_mono_r; lia).
  lia.
Qed.

Lemma binary_normalize_finite (z : Z) (s : bool) :
  Z.abs z < 2 ^ 53 -> is_finite (binary_normalize prec emax z 0 s) = true.
Proof.
  intros Hz. destruct z as [| p | p]; cbn [binary_normalize]; [reflexivity | |].
  - destruct (binary_round_exact false p) as (m & e & -> & _); [| reflexivity].
    apply digits2_pos_le; lia.
  - destruct (binary_round_exact true p) as (m & e & -> & _); [| reflexivity].
    apply digits2_pos_le; lia.
Qed.

Lemma floor_is_finite (x : number) :
  wf x = true -> is_finite x = true -> is_finite (Math.floor x) = true.
Proof.
  destruct x as [s | s | | s m e]; cbn [Math.floor]; auto.
  intros Hwf _. destruct (Z.leb_spec 0 e); [reflexivity |].
  apply binary_normalize_finite. apply wf_mantissa in Hwf.
  unfold floor_finite.
  rewrite <- (Z.opp_involutive e), Z.shiftl_opp_r, Z.shiftr_div_pow2 by lia.
  assert (0 < 2 ^ (- e)) by (apply Z.pow_pos_nonneg; lia).
  destruct s; cbn [cond_Zopp].
  - assert (- Zpos m <= - Zpos m / 2 ^ (- e) <= 0).
    { split.
      - apply Z.div_le_lower_bound; [lia |]. nia.
      - apply Z.div_le_upper_bound; lia. }
    lia.
  - assert (0 <= Zpos m / 2 ^ (- e) <= Zpos m).
    { split.
      - apply Z.div_pos; lia.
      - apply Z.div_le_upper_bound; [lia |]. nia. }
    lia.
Qed.

Lemma not_NaN_cases (x : number) :
  isNaN x = false -> is_finite x = true \/ exists s, x = S754_infinity s.
Proof.
  destruct x as [s | s | | s m e]; cbn; intros H; try discriminate; eauto.
Qed.

End NumberFacts.

(* ================================================================== *)
(** * Facts about the text of numbers *)
(* ================================================================== *)

Module TextFacts.

Import JS NumberFacts.
Local Open Scope string_scope.
Local Open Scope Z_scope.

Lemma append_assoc (a b c : string) : (a ++ b) ++ c = a ++ (b ++ c).
Proof. induction a as [| ch a IH]; cbn; congruence. Qed.

Lemma append_nil_r (a : string) : a ++ "" = a.
Proof. induction a as [| ch a IH]; cbn; congruence. Qed.

Lemma append_inv_head (a b c : string) : a ++ b = a ++ c -> b = c.
Proof. induction a as [| ch a IH]; cbn; [auto | intros [= H]; auto]. Qed.

(** *** Decimal digits of positive integers *)

Lemma string_of_pos_inj (a b : positive) : string_of_pos a = string_of_pos b -> a = b.
Proof.
  unfold string_of_pos. intros H.
  apply DecimalPos.Unsigned.to_uint_inj.
  pose proof (NilEmpty.usu (Pos.to_uint a)) as Ha.
  rewrite H, NilEmpty.usu in Ha. congruence.
Qed.

Lemma string_of_uint_revapp (l acc : Decimal.uint) :
  NilEmpty.string_of_uint (Decimal.revapp l acc)
  = NilEmpty.string_of_uint (Decimal.revapp l Decimal.Nil)
    ++ NilEmpty.string_of_uint acc.
Proof.
  revert acc. induction l; intros acc; cbn [Decimal.revapp];
    try reflexivity;
    rewrite IHl; symmetry; rewrite IHl; cbn;
    now rewrite append_assoc.
Qed.

Lemma string_of_pos_tenfold (p : positive) :
  string_of_pos (10 * p) = string_of_pos p ++ "0".
Proof.
  unfold string_of_pos, Pos.to_uint, Decimal.rev.
  pose proof (DecimalPos.Unsigned.to_ldec_tenfold p) as H.
  cbn [DecimalPos.Unsigned.to_lu N.mul] in H.
  rewrite H. cbn [Decimal.revapp].
  now rewrite string_of_uint_revapp.
Qed.

Lemma zeros_snoc (j : nat) : zeros (S j) = zeros j ++ "0".
Proof. induction j as [| j IH]; [reflexivity |]. cbn in *. now rewrite <- IH. Qed.

(** Appending zeros to the digits of a number multiplies it by ten. *)
Lemma string_of_pos_zeros (p : positive) (j : nat) :
  string_of_pos p ++ zeros j = string_of_pos (p * Z.to_pos (10 ^ Z.of_nat j)).
Proof.
  induction j as [| j IH].
  - cbn. now rewrite Pos.mul_1_r, append_nil_r.
  - rewrite zeros_snoc, <- append_assoc, IH, <- string_of_pos_tenfold.
    f_equal. rewrite Nat2Z.inj_succ, Z.pow_succ_r by lia.
    assert (0 < 10 ^ Z.of_nat j) by (apply Z.pow_pos_nonneg; lia).
    apply Pos2Z.inj. rewrite !Pos2Z.inj_mul, !Z2Pos.id by lia. lia.
Qed.

(** *** Decimal length and magnitude *)

Lemma decimal_length_from_spec (fuel : nat) (z : Z) :
  1 <= z < 2 ^ Z.of_nat fuel ->
  let L := decimal_length_from fuel z in
  1 <= L /\ 10 ^ (L - 1) <= z < 10 ^ L.
Proof.
  revert z. induction fuel as [| fuel IH]; intros z Hz.
  - cbn in Hz. lia.
  - cbn [decimal_length_from]. destruct (Z.ltb_spec z 10) as [Hlt | Hge].
    + cbn. lia.
    + assert (Hz' : 1 <= z / 10 < 2 ^ Z.of_nat fuel).
      { rewrite Nat2Z.inj_succ, Z.pow_succ_r in Hz by lia.
        split.
        - apply Z.div_le_lower_bound; lia.
        - apply Z.div_lt_upper_bound; lia. }
      specialize (IH _ Hz'). cbn zeta in *.
      set (L := decimal_length_from fuel (z / 10)) in *.
      destruct IH as (HL & Hlo & Hhi).
      replace (1 + L - 1) with (Z.succ (L - 1)) by lia.
      replace (1 + L) with (Z.succ L) by lia.
      rewrite !Z.pow_succ_r by lia.
      pose proof (Z.div_mod z 10 ltac:(lia)) as Hdm.
      pose proof (Z.mod_pos_bound z 10 ltac:(lia)) as Hmod.
      lia.
Qed.

Lemma decimal_length_spec (p : positive) :
  let L := decimal_length p in
  1 <= L /\ 10 ^ (L - 1) <= Zpos p < 10 ^ L.
Proof.
  apply decimal_length_from_spec. split; [lia |].
  rewrite positive_nat_Z. apply digits2_pos_gt.
Qed.

(** The decimal magnitude of a ratio that is at least 1. *)
Lemma decimal_magnitude_spec (p q : positive) :
  Zpos q <= Zpos p ->
  let M := decimal_magnitude p q in
  1 <= M /\ 10 ^ (M - 1) * Zpos q <= Zpos p.
Proof.
  intros Hqp. unfold decimal_magnitude.
  destruct (decimal_length_spec p) as (HLp & Hplo & Hphi).
  destruct (decimal_length_spec q) as (HLq & Hqlo & Hqhi).
  set (Lp := decimal_length p) in *. set (Lq := decimal_length q) in *.
  assert (Hd : 0 <= Lp - Lq).
  { destruct (Z.le_gt_cases Lq Lp) as [H | H]; [lia |].
    assert (10 ^ Lp <= 10 ^ (Lq - 1)) by (apply Z.pow_le_mono_r; lia). lia. }
  destruct (Z.leb_spec 1 (scale_floor p q (- (Lp - Lq)))) as [Hge | Hlt].
  - split; [lia |]. replace (Lp - Lq + 1 - 1) with (Lp - Lq) by lia.
    unfold scale_floor in Hge.
    destruct (- (Lp - Lq)) as [| k | k] eqn:Hk; try lia.
    + replace (Lp - Lq) with 0 by lia. cbn. lia.
    + replace (Lp - Lq) with (Zpos k) by lia.
      rewrite Pos2Z.inj_mul, Pos2Z.inj_pow in Hge.
      assert (0 < Zpos q * 10 ^ Zpos k)
        by (apply Z.mul_pos_pos; [lia | apply Z.pow_pos_nonneg; lia]).
      assert (Zpos q * 10 ^ Zpos k <= Zpos p).
      { destruct (Z.le_gt_cases (Zpos q * 10 ^ Zpos k) (Zpos p)) as [Hle | Hgt];
          [exact Hle |].
        rewrite Z.div_small in Hge by lia. lia. }
      lia.
  - assert (Hpos : 0 < Lp - Lq).
    { destruct (Z.eq_dec (Lp - Lq) 0) as [H0 | H0]; [| lia].
      rewrite H0 in Hlt. cbn in Hlt.
      assert (1 <= Zpos p * 1 / Zpos q) by (apply Z.div_le_lower_bound; lia). lia. }
    split; [lia |].
    assert (10 ^ (Lp - Lq - 1) * 10 ^ Lq = 10 ^ (Lp - 1)).
    { rewrite <- Z.pow_add_r by lia. f_equal. lia. }
    assert (0 < 10 ^ (Lp - Lq - 1)) by (apply Z.pow_pos_nonneg; lia).
    nia.
Qed.

Lemma scale_floor_integer (n p q : positive) (j : Z) :
  Zpos p = Zpos n * Zpos q -> 0 <= j ->
  scale_floor p q (- j) = Zpos n / 10 ^ j.
Proof.
  intros Hpq Hj. unfold scale_floor.
  destruct j as [| j | j]; try lia; cbn [Z.opp].
  - rewrite Hpq, Z.pow_0_r, Z.mul_1_r, Z.div_1_r. apply Z.div_mul. lia.
  - rewrite Hpq, Pos2Z.inj_mul, Pos2Z.inj_pow.
    rewrite (Z.mul_comm (Zpos q)), Z.div_mul_cancel_r; lia.
Qed.

(** *** The digit search *)

(** What [digits_at] returns reads back as the number, and is one of the
    two decimals around it. *)
Lemma digits_at_sound (x : number) (p q : positive) (M k s n' : Z) :
  1 <= k <= M ->
  digits_at x p q M k = Some (s, n') ->
  let lo := scale_floor p q (k - M) in
  same_number (decimal_number false s (n' - k)) x = true
  /\ M <= n' <= M + 1
  /\ (s * 10 ^ (n' - k) = lo * 10 ^ (M - k)
      \/ s * 10 ^ (n' - k) = (lo + 1) * 10 ^ (M - k)).
Proof.
  intros Hk. unfold digits_at. cbn zeta.
  set (lo := scale_floor p q (k - M)).
  assert (Hhi : forall hs hn,
             (if lo + 1 =? 10 ^ k then (10 ^ (k - 1), M + 1) else (lo + 1, M)) = (hs, hn) ->
             M <= hn <= M + 1 /\ hs * 10 ^ (hn - k) = (lo + 1) * 10 ^ (M - k)).
  { intros hs hn. destruct (Z.eqb_spec (lo + 1) (10 ^ k)) as [He | _]; intros [= <- <-].
    - split; [lia |]. rewrite He, <- !Z.pow_add_r by lia. f_equal. lia.
    - split; [lia | reflexivity]. }
  destruct (if lo + 1 =? 10 ^ k then _ else _) as [hs hn].
  destruct (Hhi hs hn eq_refl) as [Hhn Hhv].
  destruct (same_number (decimal_number false lo (M - k)) x) eqn:Hlo,
           (same_number (decimal_number false hs (hn - k)) x) eqn:Hh;
    try discriminate.
  - destruct (compare_twice_scaled p q (k - M) (lo + (lo + 1)));
      [destruct (Z.even lo) | |]; intros [= <- <-]; repeat split; auto; lia.
  - intros [= <- <-]. repeat split; auto; lia.
  - intros [= <- <-]. repeat split; auto; lia.
Qed.

(** The search stops at the first length that has digits. *)
Lemma shortest_digits_stops
    (x : number) (p q : positive) (M : Z) (fuel : nat) (k : Z) :
  k <= M < k + Z.of_nat fuel ->
  digits_at x p q M M <> None ->
  exists s n' k',
    shortest_digits fuel x p q M k = (s, n', k')
    /\ k <= k' <= M /\ digits_at x p q M k' = Some (s, n').
Proof.
  revert k. induction fuel as [| fuel IH]; intros k Hk Hfound; [lia |].
  cbn [shortest_digits].
  destruct (digits_at x p q M k) as [[s n'] |] eqn:Hat.
  - exists s, n', k. repeat split; auto; lia.
  - assert (k <> M) by congruence.
    destruct (IH (k + 1) ltac:(lia) Hfound) as (s & n' & k' & Hs & Hk' & Hat').
    exists s, n', k'. repeat split; auto; lia.
Qed.

(** An integer has digits at its own length. *)
Lemma digits_at_integer (n p q : positive) (M : Z) :
  Zpos p = Zpos n * Zpos q ->
  digits_at (of_Z (Zpos n)) p q M M <> None.
Proof.
  intros Hpq. unfold digits_at. rewrite !Z.sub_diag.
  assert (Hlo : scale_floor p q 0 = Zpos n).
  { unfold scale_floor. rewrite Hpq, Z.pow_0_r, Z.mul_1_r. apply Z.div_mul. lia. }
  rewrite Hlo. cbn [decimal_number].
  rewrite of_decimal_integer, Z.pow_0_r, Z.mul_1_r by lia.
  rewrite same_number_refl.
  destruct (if Z.pos n + 1 =? 10 ^ M then _ else _) as [hs hn].
  destruct (same_number _ _); [| discriminate].
  destruct (compare_twice_scaled _ _ _ _); [destruct (Z.even _) | |]; discriminate.
Qed.

(** The text of a positive integer below 2^52 is its decimal digits. *)
Lemma number_to_string_integer (n : positive) :
  Zpos n < 2 ^ 52 -> number_to_string (of_Z (Zpos n)) = string_of_pos n.
Proof.
  intros Hn.
  destruct (of_Z_exact n ltac:(lia)) as (m & e & Hx & Hm & He).
  rewrite Hx. cbn [number_to_string append]. unfold positive_to_string.
  rewrite <- Hx.
  set (pq := match e with
             | Zneg k => (m, Pos.pow 2 k)
             | _ => ((m * Z.to_pos (2 ^ e))%positive, 1%positive)
             end).
  assert (Hpq : Zpos (fst pq) = Zpos n * Zpos (snd pq)).
  { subst pq. destruct e as [| e | e]; try lia; cbn [fst snd].
    - cbn in *. lia.
    - rewrite Hm, Pos2Z.inj_pow. reflexivity. }
  destruct pq as [p q]. cbn [fst snd] in Hpq.
  assert (Hqp : Zpos q <= Zpos p) by nia.
  destruct (decimal_magnitude_spec p q Hqp) as [HM1 HMlo].
  set (M := decimal_magnitude p q) in *.
  assert (HMn : 10 ^ (M - 1) <= Zpos n) by nia.
  assert (HM16 : M <= 16).
  { destruct (Z.le_gt_cases M 16) as [H | H]; [exact H |].
    assert (10 ^ 16 <= 10 ^ (M - 1)) by (apply Z.pow_le_mono_r; lia).
    assert (2 ^ 52 < 10 ^ 16) by reflexivity. lia. }
  assert (Hrange : 1 <= M < 1 + Z.of_nat 17).
  { change (Z.of_nat 17) with 17. clear - HM1 HM16. lia. }
  destruct (shortest_digits_stops (of_Z (Zpos n)) p q M 17 1 Hrange
              (digits_at_integer n p q M Hpq)) as (s & n' & k & Hs & Hk & Hat).
  rewrite Hs.
  assert (HkM : 1 <= k <= M) by lia.
  destruct (digits_at_sound _ _ _ _ _ _ _ HkM Hat) as (Hsame & Hn' & Hval).
  apply same_number_eq in Hsame.
  replace (k - M) with (- (M - k)) in Hval by lia.
  rewrite (scale_floor_integer n p q (M - k) Hpq) in Hval by lia.
  (* the digits denote the integer itself *)
  assert (Hpow : 0 < 10 ^ (M - k)) by (apply Z.pow_pos_nonneg; lia).
  assert (Hpow' : 10 ^ (M - k) <= 10 ^ (M - 1)) by (apply Z.pow_le_mono_r; lia).
  pose proof (Z.div_mod (Zpos n) (10 ^ (M - k)) ltac:(lia)) as Hdm.
  pose proof (Z.mod_pos_bound (Zpos n) (10 ^ (M - k)) ltac:(lia)) as Hmod.
  destruct s as [| sp | sp].
  - rewrite Hx in Hsame. discriminate.
  - cbn [decimal_number] in Hsame.
    rewrite of_decimal_integer in Hsame by lia.
    assert (Hpos : 0 < 10 ^ (n' - k)) by (apply Z.pow_pos_nonneg; lia).
    assert (Hv : Zpos sp * 10 ^ (n' - k) = Zpos n).
    { destruct (Zpos sp * 10 ^ (n' - k)) as [| v | v] eqn:Hv; try lia.
      f_equal. apply of_Z_inj; [| lia | exact Hsame].
      assert (2 ^ 52 + 2 ^ 52 = 2 ^ 53) by reflexivity. nia. }
    destruct (Z.leb_spec k n'), (Z.leb_spec n' 21); try lia. cbn [andb string_of_Z].
    rewrite <- (Z2Nat.id (n' - k)) in Hv by lia.
    rewrite string_of_pos_zeros. f_equal.
    apply Pos2Z.inj. rewrite Pos2Z.inj_mul, Z2Pos.id; [exact Hv |].
    apply Z.pow_pos_nonneg; lia.
  - rewrite Hx in Hsame. discriminate.
Qed.

Lemma number_to_string_of_Z (n : Z) :
  1 <= n < 2 ^ 52 -> number_to_string (of_Z n) = string_of_Z n.
Proof.
  intros Hn. destruct n as [| p | p]; try lia.
  apply number_to_string_integer. lia.
Qed.

Lemma string_of_Z_inj (a b : Z) :
  1 <= a -> 1 <= b -> string_of_Z a = string_of_Z b -> a = b.
Proof.
  intros Ha Hb. destruct a as [| a | a], b as [| b | b]; try lia.
  cbn [string_of_Z]. intros H. f_equal. now apply string_of_pos_inj.
Qed.

End TextFacts.

(* ================================================================== *)
(** * Facts about the calendar *)
(* ================================================================== *)

Module DateFacts.

Import JS JS.Date.
Local Open Scope Z_scope.

Lemma DayFromYear_succ (y : Z) : DayFromYear (y + 1) = DayFromYear y + DaysInYear y.
Proof.
  unfold DayFromYear, DaysInYear.
  destruct (Z.eqb_spec (y mod 4) 0), (Z.eqb_spec (y mod 100) 0),
           (Z.eqb_spec (y mod 400) 0);
    cbn [negb]; Z.div_mod_to_equations; lia.
Qed.

Lemma DaysInYear_cases (y : Z) : DaysInYear y = 365 \/ DaysInYear y = 366.
Proof.
  unfold DaysInYear.
  destruct (y mod 4 =? 0), (y mod 100 =? 0), (y mod 400 =? 0); cbn; lia.
Qed.

(** 400 years are 146097 days. *)
Lemma DayFromYear_estimate (y : Z) :
  146097 * (y - 1970) - 506 <= 400 * DayFromYear y <= 146097 * (y - 1970) + 589.
Proof. unfold DayFromYear. Z.div_mod_to_equations. lia. Qed.

Lemma YearFromDay_spec (y d : Z) :
  DayFromYear y <= d < DayFromYear (y + 1) -> YearFromDay d = y.
Proof.
  intros Hd. unfold YearFromDay.
  set (y0 := 1970 + 400 * d / 146097).
  pose proof (DayFromYear_estimate y) as Ey.
  pose proof (DayFromYear_estimate (y + 1)) as Ey1.
  assert (Hy0 : y - 1 <= y0 <= y + 1).
  { subst y0. Z.div_mod_to_equations. lia. }
  pose proof (DayFromYear_succ (y - 1)) as S0.
  replace (y - 1 + 1) with y in S0 by lia.
  pose proof (DayFromYear_succ (y + 1)) as S2.
  pose proof (DaysInYear_cases (y - 1)). pose proof (DaysInYear_cases (y + 1)).
  assert (Hc : y0 = y - 1 \/ y0 = y \/ y0 = y + 1) by lia.
  destruct Hc as [-> | [-> | ->]].
  - replace (y - 1 + 1) with y by lia.
    destruct (Z.ltb_spec d (DayFromYear (y - 1))); [lia |].
    destruct (Z.leb_spec (DayFromYear y) d); lia.
  - destruct (Z.ltb_spec d (DayFromYear y)); [lia |].
    destruct (Z.leb_spec (DayFromYear (y + 1)) d); lia.
  - destruct (Z.ltb_spec d (DayFromYear (y + 1))); lia.
Qed.

Lemma InLeapYear_leap (y : Z) :
  InLeapYear y = if Spec.leap_year y then 1 else 0.
Proof.
  unfold InLeapYear, DaysInYear, Spec.leap_year.
  destruct (Z.eqb_spec (y mod 4) 0), (Z.eqb_spec (y mod 100) 0),
           (Z.eqb_spec (y mod 400) 0);
    reflexivity.
Qed.

Lemma month_cases (month : Z) :
  1 <= month < 12 ->
  month = 1 \/ month = 2 \/ month = 3 \/ month = 4 \/ month = 5 \/ month = 6
  \/ month = 7 \/ month = 8 \/ month = 9 \/ month = 10 \/ month = 11.
Proof. lia. Qed.

Lemma MakeDay_in_year (year month : Z) :
  1 <= month <= 12 ->
  DayFromYear year <= MakeDay year month 0 < DayFromYear (year + 1).
Proof.
  intros Hm. rewrite DayFromYear_succ. unfold MakeDay.
  pose proof (DaysInYear_cases year) as Hd.
  assert (Hc : month = 12 \/ month < 12) by lia.
  destruct Hc as [-> | Hlt].
  - change (12 / 12) with 1. change (12 mod 12) with 0. rewrite DayFromYear_succ.
    cbn [month_start]. lia.
  - rewrite Z.div_small, Z.mod_small, !Z.add_0_r by lia.
    unfold InLeapYear.
    pose proof (month_cases month ltac:(lia)) as Hk.
    repeat destruct Hk as [-> | Hk]; try subst month; cbn [month_start]; lia.
Qed.

(** Day 0 of the month after [month] is the last day of [month]. *)
Lemma last_day_of_month (year month : Z) :
  1 <= month <= 12 ->
  DateFromDay (MakeDay year month 0) = Spec.days_in_month year month.
Proof.
  intros Hm. unfold DateFromDay.
  rewrite (YearFromDay_spec year _ (MakeDay_in_year year month Hm)).
  unfold MakeDay.
  assert (Hc : month = 12 \/ month < 12) by lia.
  destruct Hc as [-> | Hlt].
  - change (12 / 12) with 1. change (12 mod 12) with 0. rewrite DayFromYear_succ.
    cbn [month_start]. unfold InLeapYear.
    replace (DayFromYear year + DaysInYear year + 0 + 0 - 1 - DayFromYear year)
      with (DaysInYear year - 1) by lia.
    destruct (DaysInYear_cases year) as [-> | ->]; reflexivity.
  - rewrite Z.div_small, Z.mod_small, !Z.add_0_r by lia.
    rewrite InLeapYear_leap. unfold Spec.days_in_month.
    replace (DayFromYear year + month_start (if Spec.leap_year year then 1 else 0) month
             - 1 - DayFromYear year)
      with (month_start (if Spec.leap_year year then 1 else 0) month - 1) by lia.
    pose proof (month_cases month ltac:(lia)) as Hk.
    repeat destruct Hk as [-> | Hk]; try subst month;
      destruct (Spec.leap_year year); reflexivity.
Qed.

Lemma days_in_month_range (year month : Z) : 28 <= Spec.days_in_month year month <= 31.
Proof.
  unfold Spec.days_in_month.
  destruct month as [| p | p]; try lia.
  do 4 (try destruct p as [p | p |]); try destruct (Spec.leap_year year); lia.
Qed.

(** Two-digit years count from 1900, where the months are as long as in
    the year itself. *)
Lemma days_in_month_two_digit_year (year month : Z) :
  1 <= year <= 99 -> Spec.days_in_month (1900 + year) month = Spec.days_in_month year month.
Proof.
  intros Hy. unfold Spec.days_in_month.
  assert (Hl : Spec.leap_year (1900 + year) = Spec.leap_year year).
  { unfold Spec.leap_year.
    replace ((1900 + year) mod 4) with (year mod 4) by (Z.div_mod_to_equations; lia).
    replace ((1900 + year) mod 100) with (year mod 100) by (Z.div_mod_to_equations; lia).
    destruct (Z.eqb_spec (year mod 100) 0) as [H0 | H0].
    - exfalso. Z.div_mod_to_equations. lia.
    - cbn [negb orb]. reflexivity. }
  now rewrite Hl.
Qed.

Lemma days_in_month_full_year (year month : Z) :
  1 <= year ->
  Spec.days_in_month (MakeFullYear year) month = Spec.days_in_month year month.
Proof.
  intros Hy. unfold MakeFullYear.
  destruct (Z.leb_spec 0 year), (Z.leb_spec year 99); cbn [andb]; try reflexivity.
  apply days_in_month_two_digit_year. lia.
Qed.

(** The last day of a month, as [getDate] reads it off the date the page
    constructs, in a zone that keeps that local midnight on its day. *)
Lemma getDate_last_day (host : Host.t) (year month : Z) :
  1 <= year < 2 ^ 53 -> 1 <= month <= 12 ->
  Spec.keeps_the_day host (Spec.last_midnight year month) ->
  getDate host (create host (of_Z year) (of_Z month) (of_Z 0))
  = of_Z (Spec.days_in_month year month).
Proof.
  intros Hy Hm [Hclip Hday]. unfold create.
  assert (H53 : 2 ^ 53 = 9007199254740992) by reflexivity.
  destruct year as [| y | y]; try lia. destruct month as [| mo | mo]; try lia.
  rewrite !NumberFacts.to_integer_of_Z by lia.
  cbn [to_integer of_Z binary_normalize].
  fold (Spec.last_midnight (Zpos y) (Zpos mo)).
  unfold TimeClip.
  destruct (Z.leb_spec (Z.abs (Host.utc host (Spec.last_midnight (Zpos y) (Zpos mo))))
                       8640000000000000) as [_ | Hbig]; [| lia].
  cbn [getDate]. rewrite Hday. unfold Day, Spec.last_midnight.
  rewrite Z.div_mul by (unfold msPerDay; lia).
  rewrite last_day_of_month by exact Hm.
  now rewrite days_in_month_full_year by lia.
Qed.

(** An invalid date reads [NaN]. *)
Lemma getDate_out_of_range (host : Host.t) (year month : Z) :
  1 <= year < 2 ^ 53 -> 1 <= month <= 12 ->
  8640000000000000 < Z.abs (Host.utc host (Spec.last_midnight year month)) ->
  getDate host (create host (of_Z year) (of_Z month) (of_Z 0)) = NaN.
Proof.
  intros Hy Hm Hbig. unfold create.
  assert (H53 : 2 ^ 53 = 9007199254740992) by reflexivity.
  destruct year as [| y | y]; try lia. destruct month as [| mo | mo]; try lia.
  rewrite !NumberFacts.to_integer_of_Z by lia.
  cbn [to_integer of_Z binary_normalize].
  fold (Spec.last_midnight (Zpos y) (Zpos mo)).
  unfold TimeClip.
  destruct (Z.leb_spec (Z.abs (Host.utc host (Spec.last_midnight (Zpos y) (Zpos mo))))
                       8640000000000000) as [Hsmall | _]; [lia | reflexivity].
Qed.

(** The range of the local midnights the page asks for. *)
Lemma last_midnight_range (year month : Z) :
  1 <= year -> 1 <= month <= 12 ->
  DayFromYear (MakeFullYear year) * msPerDay <= Spec.last_midnight year month
  < DayFromYear (MakeFullYear year + 1) * msPerDay.
Proof.
  intros Hy Hm. unfold Spec.last_midnight.
  pose proof (MakeDay_in_year (MakeFullYear year) month Hm) as Hday.
  unfold msPerDay. lia.
Qed.


End DateFacts.

(* ================================================================== *)
(** * Facts about the page on any parsed JSON *)
(* ================================================================== *)

Module RawFacts.

Import JS Page.
Local Open Scope string_scope.
Local Open Scope Z_scope.

(** ** Data of the declared interfaces *)

Lemma as_value_of_value (v : value) : Raw.as_value (Json.of_value v) = Return v.
Proof. now destruct v. Qed.

Lemma truthy_of_value (v : value) : Json.truthy (Json.of_value v) = truthy v.
Proof. now destruct v. Qed.

Lemma or_else_of_value (v d : value) :
  Json.or_else (Json.of_value v) (Json.of_value d) = Json.of_value (value_or v d).
Proof. unfold Json.or_else, value_or. rewrite truthy_of_value. now destruct (truthy v). Qed.

Lemma or_else_of_text (s : maybe string) (d : string) :
  Json.or_else (Json.of_text s) (Json.Str d) = Json.Str (string_or s d).
Proof. now destruct s as [ | | [| c r]]. Qed.

Lemma to_text_of_value (v : value) : Raw.to_text (Json.of_value v) = Return (to_String v).
Proof. now destruct v. Qed.

Lemma getMonthAbbreviation_of_value (v : value) :
  Raw.getMonthAbbreviation (Json.of_value v) = Return (getMonthAbbreviation v).
Proof.
  unfold Raw.getMonthAbbreviation. rewrite to_text_of_value. reflexivity.
Qed.

Lemma safeParseFloat_of_value (v : value) :
  Raw.safeParseFloat (Json.of_value v) = Return (safeParseFloat v).
Proof. unfold Raw.safeParseFloat. now rewrite as_value_of_value. Qed.

Lemma safeParseInt_of_value (v : value) :
  Raw.safeParseInt (Json.of_value v) = Return (safeParseInt v).
Proof. unfold Raw.safeParseInt. now rewrite as_value_of_value. Qed.

Lemma mapAccountData_of_account (account : AccountData.t) :
  Raw.mapAccountData (Raw.of_account account)
  = Return (Raw.of_mapped_account (mapAccountData account)).
Proof.
  unfold Raw.mapAccountData, Raw.of_account, Raw.get, Json.get.
  cbn [Json.own String.eqb Ascii.eqb Bool.eqb Raw.step Raw.bind].
  rewrite !safeParseFloat_of_value, !safeParseInt_of_value.
  cbn [Raw.bind]. rewrite !or_else_of_text. reflexivity.
Qed.

Lemma map_mapAccountData (accounts : list AccountData.t) :
  Raw.map Raw.mapAccountData (List.map Raw.of_account accounts)
  = Return (List.map Raw.of_mapped_account (List.map mapAccountData accounts)).
Proof.
  induction accounts as [| account rest IH]; [reflexivity |].
  cbn [List.map Raw.map]. rewrite mapAccountData_of_account, IH. reflexivity.
Qed.

(** On data of the declared interfaces the mapper does what [Page] has. *)
Lemma mapper_of_response (host : Host.t) (now : Z) (item : ADLSResponse.t) :
  Raw.mapADLSToReconciliationRow host now (Raw.of_response item)
  = match mapADLSToReconciliationRow host now item with
    | Return row => Return (Raw.of_row row)
    | Throw message => Throw message
    | ThrowTypeError => ThrowTypeError
    end.
Proof.
  unfold Raw.mapADLSToReconciliationRow, mapADLSToReconciliationRow, Raw.of_response.
  unfold Raw.get at 1. unfold Json.get at 1.
  cbn [Json.truthy negb Json.own String.eqb Ascii.eqb Bool.eqb Raw.step Raw.bind].
  destruct (ADLSResponse.parsed_json item) as [ | | pj]; [reflexivity | reflexivity |].
  unfold Raw.of_parsed_json.
  cbn [Json.truthy negb].
  unfold Raw.get, Json.get.
  cbn [Json.own String.eqb Ascii.eqb Bool.eqb Raw.step Raw.bind].
  change (Json.Num (of_Z 1)) with (Json.of_value (Num (of_Z 1))).
  change (Json.Num (of_Z 2025)) with (Json.of_value (Num (of_Z 2025))).
  rewrite !or_else_of_value, getMonthAbbreviation_of_value.
  fold (Raw.to_text (Json.of_value
                       (value_or (ParsedJson.statement_year pj) (Num (of_Z 2025))))).
  rewrite to_text_of_value, !safeParseInt_of_value.
  cbn [Raw.bind].
  assert (Hacc :
    match Json.or_else
            match ParsedJson.accounts pj with
            | Absent => Json.Undefined
            | IsNull => Json.Null
            | Present accounts => Json.Arr (List.map Raw.of_account accounts)
            end (Json.Arr []) with
    | Json.Arr items => Raw.map Raw.mapAccountData items
    | _ => ThrowTypeError
    end
    = Return (List.map Raw.of_mapped_account
                (List.map mapAccountData
                   match ParsedJson.accounts pj with
                   | Present accounts => accounts
                   | _ => []
                   end))).
  { destruct (ParsedJson.accounts pj) as [ | | accounts]; try reflexivity.
    cbn [Json.or_else Json.truthy]. apply map_mapAccountData. }
  rewrite Hacc. cbn [Raw.bind].
  assert (Hfile :
    (if Json.truthy (Json.of_text (ADLSResponse.filename item))
     then match Json.of_text (ADLSResponse.filename item) with
          | Json.Str name => Return (strip_parsing_result name)
          | _ => ThrowTypeError
          end
     else Return "")
    = Return match ADLSResponse.filename item with
             | Present (String c r) => strip_parsing_result (String c r)
             | _ => ""
             end).
  { now destruct (ADLSResponse.filename item) as [ | | [| c r]]. }
  rewrite Hfile. cbn [Raw.bind]. rewrite !or_else_of_text.
  reflexivity.
Qed.

(** ** What the mapper throws *)

Lemma step_throws_no_Error {A : Type} (o : option A) : Shape.throws_no_Error (Raw.step o).
Proof. intros message. now destruct o. Qed.

Lemma bind_throws_no_Error {A B : Type} (c : completion A) (k : A -> completion B) :
  Shape.throws_no_Error c -> (forall a, Shape.throws_no_Error (k a)) -> Shape.throws_no_Error (Raw.bind c k).
Proof.
  intros Hc Hk message. destruct c as [a | m |]; cbn.
  - apply Hk.
  - now destruct (Hc m).
  - discriminate.
Qed.

Lemma Return_throws_no_Error {A : Type} (a : A) : Shape.throws_no_Error (Return a).
Proof. intros message. discriminate. Qed.

Lemma TypeError_throws_no_Error {A : Type} : Shape.throws_no_Error (@ThrowTypeError A).
Proof. intros message. discriminate. Qed.

Lemma map_throws_no_Error {A B : Type} (f : A -> completion B) (items : list A) :
  (forall a, Shape.throws_no_Error (f a)) -> Shape.throws_no_Error (Raw.map f items).
Proof.
  intros Hf. induction items as [| item rest IH]; cbn [Raw.map].
  - apply Return_throws_no_Error.
  - apply bind_throws_no_Error; [apply Hf |]. intros b.
    apply bind_throws_no_Error; [exact IH |]. intros bs. apply Return_throws_no_Error.
Qed.

Ltac no_Error :=
  repeat (first
    [ apply bind_throws_no_Error; [| intros ?]
    | apply step_throws_no_Error
    | apply Return_throws_no_Error
    | apply TypeError_throws_no_Error ]).

Lemma as_value_throws_no_Error (v : Json.t) : Shape.throws_no_Error (Raw.as_value v).
Proof.
  destruct v; cbn [Raw.as_value]; unfold Raw.to_text; no_Error.
Qed.

Lemma safeParseFloat_throws_no_Error (v : Json.t) : Shape.throws_no_Error (Raw.safeParseFloat v).
Proof.
  unfold Raw.safeParseFloat. apply bind_throws_no_Error; [apply as_value_throws_no_Error |].
  intros a. apply Return_throws_no_Error.
Qed.

Lemma safeParseInt_throws_no_Error (v : Json.t) : Shape.throws_no_Error (Raw.safeParseInt v).
Proof.
  unfold Raw.safeParseInt. apply bind_throws_no_Error; [apply as_value_throws_no_Error |].
  intros a. apply Return_throws_no_Error.
Qed.

Ltac no_Error_step :=
  first
    [ apply safeParseFloat_throws_no_Error
    | apply safeParseInt_throws_no_Error
    | apply step_throws_no_Error
    | apply Return_throws_no_Error
    | apply TypeError_throws_no_Error
    | apply bind_throws_no_Error; [| intros ?] ].

Lemma mapAccountData_throws_no_Error (account : Json.t) :
  Shape.throws_no_Error (Raw.mapAccountData account).
Proof. unfold Raw.mapAccountData, Raw.get. repeat no_Error_step. Qed.

(** The mapper throws its own error exactly for want of [parsed_json];
    whatever else goes wrong is a [TypeError] of the engine. *)
Lemma mapper_throws_iff (host : Host.t) (now : Z) (item : Json.t) (message : string) :
  Raw.mapADLSToReconciliationRow host now item = Throw message
  <-> message = Raw.missing_parsed_json /\ Shape.has_parsed_json item = false.
Proof.
  unfold Raw.mapADLSToReconciliationRow, Shape.has_parsed_json, Raw.get.
  destruct (Json.truthy item) eqn:Hitem; cbn [negb andb].
  2: { split; [intros [= <-]; now split | intros [-> _]; reflexivity]. }
  destruct (Json.get "parsed_json" item) as [parsed_json |] eqn:Hget; cbn [Raw.step Raw.bind].
  2: { destruct item; discriminate. }
  destruct (Json.truthy parsed_json) eqn:Hpj; cbn [negb].
  2: { split; [intros [= <-]; now split | intros [-> _]; reflexivity]. }
  split; [| intros [_ H]; discriminate].
  intros H. exfalso. revert H.
  match goal with |- ?c = Throw message -> False => assert (Hno : Shape.throws_no_Error c) end.
  2: { apply Hno. }
  unfold Raw.getMonthAbbreviation, Raw.to_text.
  repeat no_Error_step.
  - destruct (Json.or_else _ _); try apply TypeError_throws_no_Error.
    apply map_throws_no_Error. apply mapAccountData_throws_no_Error.
  - match goal with
    | |- Shape.throws_no_Error (if Json.truthy ?filename then _ else _) =>
        destruct filename; cbn [Json.truthy]
    end;
      repeat match goal with
             | |- Shape.throws_no_Error (if ?b then _ else _) => destruct b
             end;
      no_Error.
Qed.

(** Whether the mapper Shape.returns does not hang on the clock. *)
Lemma mapper_returns_at_any_time (host : Host.t) (now1 now2 : Z) (item : Json.t) :
  Shape.returns (Raw.mapADLSToReconciliationRow host now1 item)
  = Shape.returns (Raw.mapADLSToReconciliationRow host now2 item).
Proof.
  unfold Raw.mapADLSToReconciliationRow.
  destruct (negb (Json.truthy item)); [reflexivity |].
  destruct (Raw.get "parsed_json" item) as [parsed_json | |]; cbn [Raw.bind];
    try reflexivity.
  destruct (negb (Json.truthy parsed_json)); [reflexivity |].
  repeat match goal with
         | |- context [Raw.bind ?c _] => destruct c; cbn [Raw.bind]; try reflexivity
         end.
Qed.

(** ** The loop on any items *)

Lemma get_is_there (key : string) (v : Json.t) :
  Shape.is_there v = true -> exists x, Json.get key v = Some x.
Proof. destruct v; try discriminate; cbn; eauto. Qed.

Lemma truthy_is_there (v : Json.t) : Json.truthy v = true -> Shape.is_there v = true.
Proof. now destruct v. Qed.

Lemma valid_item_is_there (item : Json.t) :
  Shape.is_there item = true -> exists valid, Raw.valid_item item = Return valid.
Proof.
  intros H. unfold Raw.valid_item, Raw.get.
  destruct (get_is_there "parsed_json" item H) as [parsed_json ->]. cbn [Raw.step Raw.bind].
  destruct (Json.truthy parsed_json) eqn:Hpj; cbn [negb]; [| eauto].
  destruct (get_is_there "accounts" parsed_json (truthy_is_there _ Hpj)) as [accounts ->].
  cbn [Raw.step Raw.bind]. eauto.
Qed.

Lemma valid_item_not_there (item : Json.t) :
  Shape.is_there item = false -> Raw.valid_item item = ThrowTypeError.
Proof. now destruct item. Qed.

Lemma valid_item_throws_no_Error (item : Json.t) : Shape.throws_no_Error (Raw.valid_item item).
Proof.
  unfold Raw.valid_item, Raw.get.
  apply bind_throws_no_Error; [apply step_throws_no_Error |]. intros parsed_json.
  destruct (negb (Json.truthy parsed_json)); [apply Return_throws_no_Error |].
  apply bind_throws_no_Error; [apply step_throws_no_Error |]. intros accounts.
  apply Return_throws_no_Error.
Qed.

Lemma mapItems_throws_no_Error (host : Host.t) (clock : nat -> Z) (items : list Json.t) :
  forall i, Shape.throws_no_Error (Raw.mapItems host clock i items).
Proof.
  induction items as [| item rest IH]; intros i; cbn [Raw.mapItems].
  - apply Return_throws_no_Error.
  - apply bind_throws_no_Error; [apply valid_item_throws_no_Error |]. intros valid.
    apply bind_throws_no_Error; [apply IH |]. intros mappedData.
    apply Return_throws_no_Error.
Qed.

(** An item that is [null] ends the loop. *)
Lemma mapItems_not_there (host : Host.t) (clock : nat -> Z) (items : list Json.t) :
  Exists (fun item => Shape.is_there item = false) items ->
  forall i, Raw.mapItems host clock i items = ThrowTypeError.
Proof.
  induction 1 as [item rest Hitem | item rest Hrest IH]; intros i; cbn [Raw.mapItems].
  - now rewrite (valid_item_not_there _ Hitem).
  - pose proof (valid_item_throws_no_Error item) as Hv.
    destruct (Raw.valid_item item) as [valid | m |]; cbn [Raw.bind].
    + now rewrite IH.
    + now destruct (Hv m).
    + reflexivity.
Qed.

Lemma shown_item_mapped (host : Host.t) (now : Z) (item : Json.t) :
  Raw.valid_item item = Return true ->
  Shape.shown_item host item = Shape.returns (Raw.mapADLSToReconciliationRow host now item).
Proof.
  intros Hv. unfold Shape.shown_item. rewrite Hv. apply mapper_returns_at_any_time.
Qed.

(** Items that are there are mapped or skipped one by one. *)
Lemma mapItems_rows (host : Host.t) (clock : nat -> Z) (items : list Json.t) :
  Forall (fun item => Shape.is_there item = true) items ->
  forall i, exists rows,
    Raw.mapItems host clock i items = Return rows
    /\ Forall2 (Shape.raw_row_of host) (filter (Shape.shown_item host) items) rows.
Proof.
  induction 1 as [| item rest Hitem Hrest IH]; intros i; cbn [Raw.mapItems filter].
  - exists []. split; [reflexivity | constructor].
  - destruct (valid_item_is_there item Hitem) as [valid Hv]. rewrite Hv. cbn [Raw.bind].
    destruct (IH (S i)) as (rows & -> & Hrows). cbn [Raw.bind].
    destruct valid.
    + rewrite (shown_item_mapped host (clock i) item Hv).
      destruct (Raw.mapADLSToReconciliationRow host (clock i) item) as [row | m |] eqn:E;
        cbn [Shape.returns]; eexists; (split; [reflexivity |]); try exact Hrows.
      constructor; [now exists (clock i) | exact Hrows].
    + assert (Hs : Shape.shown_item host item = false) by (unfold Shape.shown_item; now rewrite Hv).
      rewrite Hs. eexists. split; [reflexivity | exact Hrows].
Qed.

(** ** Data of the declared interfaces in the loop *)

Lemma valid_item_of_response (item : ADLSResponse.t) :
  Raw.valid_item (Raw.of_response item) = Return (valid_item item).
Proof.
  unfold Raw.valid_item, valid_item, Raw.of_response, Raw.get, Json.get.
  cbn [Json.own String.eqb Ascii.eqb Bool.eqb Raw.step Raw.bind].
  destruct (ADLSResponse.parsed_json item) as [ | | pj]; try reflexivity.
  unfold Raw.of_parsed_json. cbn [Json.truthy negb Json.own String.eqb Ascii.eqb Bool.eqb].
  cbn [Raw.step Raw.bind]. now destruct (ParsedJson.accounts pj).
Qed.

Lemma mapItems_of_response (host : Host.t) (clock : nat -> Z) (items : list ADLSResponse.t) :
  forall i,
    Raw.mapItems host clock i (List.map Raw.of_response items)
    = Return (List.map Raw.of_row (mapItems host clock i items)).
Proof.
  induction items as [| item rest IH]; intros i; cbn [List.map Raw.mapItems mapItems].
  - reflexivity.
  - rewrite valid_item_of_response, IH, mapper_of_response. cbn [Raw.bind].
    destruct (valid_item item); [| reflexivity].
    now destruct (mapADLSToReconciliationRow host (clock i) item).
Qed.

(** ** The guard and the binds, read backwards *)

Lemma valid_item_inv (item : Json.t) :
  Raw.valid_item item = Return true ->
  exists fields parsed_json accounts,
    item = Json.Obj fields
    /\ Json.own "parsed_json" fields = Some (Json.Obj parsed_json)
    /\ Json.own "accounts" parsed_json = Some (Json.Arr accounts).
Proof.
  unfold Raw.valid_item, Raw.get.
  destruct item as [| | b | x | s | items | fields]; try discriminate.
  cbn [Json.get Raw.step Raw.bind].
  destruct (Json.own "parsed_json" fields) as [pj |] eqn:Hpj; [| discriminate].
  destruct pj as [| | b | x | s | items | parsed_json]; try discriminate;
    cbn [Json.truthy negb Json.get Raw.step Raw.bind Json.isArray andb].
  - destruct b; discriminate.
  - destruct (number_truthy x); discriminate.
  - destruct (string_truthy s); discriminate.
  - destruct (Json.own "accounts" parsed_json) as [accounts |] eqn:Hacc; [| discriminate].
    destruct accounts; try discriminate;
      try (rewrite andb_false_r; discriminate).
    intros _. exists fields, parsed_json, items. now repeat split.
Qed.

Lemma valid_item_of_fields (fields parsed_json : list (string * Json.t))
    (accounts : list Json.t) :
  Json.own "parsed_json" fields = Some (Json.Obj parsed_json) ->
  Json.own "accounts" parsed_json = Some (Json.Arr accounts) ->
  Raw.valid_item (Json.Obj fields) = Return true.
Proof.
  intros Hpj Hacc. unfold Raw.valid_item, Raw.get. cbn [Json.get]. rewrite Hpj.
  cbn [Raw.step Raw.bind Json.truthy negb Json.get]. rewrite Hacc. reflexivity.
Qed.

Lemma bind_Return {A B : Type} (c : completion A) (k : A -> completion B) (b : B) :
  Raw.bind c k = Return b -> exists a, c = Return a /\ k a = Return b.
Proof. destruct c as [a | m |]; cbn [Raw.bind]; [now exists a | discriminate | discriminate]. Qed.

(** ** What the mapper returns on *)

Lemma get_field (key : string) (v : Json.t) :
  Shape.is_there v = true -> Raw.get key v = Return (Shape.field key v).
Proof. now destruct v. Qed.

Lemma to_text_returns (v : Json.t) :
  Shape.returns (Raw.to_text v) = Shape.has_text v.
Proof. unfold Raw.to_text, Shape.has_text. now destruct (Json.to_text v). Qed.

Lemma as_value_returns (v : Json.t) :
  Shape.returns (Raw.as_value v) = Shape.has_text v.
Proof.
  unfold Raw.as_value, Raw.to_text, Shape.has_text.
  destruct v; try reflexivity;
    match goal with |- context [Json.to_text ?x] => now destruct (Json.to_text x) end.
Qed.

Lemma safeParseFloat_returns (v : Json.t) :
  Shape.returns (Raw.safeParseFloat v) = Shape.has_text v.
Proof.
  rewrite <- as_value_returns. unfold Raw.safeParseFloat. now destruct (Raw.as_value v).
Qed.

Lemma safeParseInt_returns (v : Json.t) :
  Shape.returns (Raw.safeParseInt v) = Shape.has_text v.
Proof.
  rewrite <- as_value_returns. unfold Raw.safeParseInt. now destruct (Raw.as_value v).
Qed.

Lemma returns_true {A : Type} (c : completion A) :
  Shape.returns c = true <-> exists a, c = Return a.
Proof.
  destruct c as [a | m |]; cbn; split; try discriminate; eauto;
    intros [a' H]; discriminate.
Qed.

Lemma map_Return {A B : Type} (f : A -> completion B) (items : list A) :
  Shape.returns (Raw.map f items) = forallb (fun a => Shape.returns (f a)) items.
Proof.
  induction items as [| a rest IH]; cbn [Raw.map forallb]; [reflexivity |].
  destruct (f a) as [b | m |]; cbn [Raw.bind Shape.returns andb]; try reflexivity.
  rewrite <- IH. now destruct (Raw.map f rest).
Qed.

(** An account is mapped exactly when it is there and the fields the
    normalizers read convert to text. *)
Lemma mapAccountData_returns (account : Json.t) :
  Shape.returns (Raw.mapAccountData account) = Shape.well_shaped_account account.
Proof.
  unfold Shape.well_shaped_account.
  destruct (Shape.is_there account) eqn:Hthere; cbn [andb].
  - unfold Raw.mapAccountData. rewrite !(get_field _ _ Hthere). cbn [Raw.bind].
    cbn [forallb Shape.numeric_fields].
    repeat match goal with
    | |- Shape.returns (Raw.bind (Raw.safeParseFloat ?v) _) = _ =>
        rewrite <- (safeParseFloat_returns v);
        destruct (Raw.safeParseFloat v); cbn [Raw.bind Shape.returns andb];
        [| reflexivity | reflexivity]
    | |- Shape.returns (Raw.bind (Raw.safeParseInt ?v) _) = _ =>
        rewrite <- (safeParseInt_returns v);
        destruct (Raw.safeParseInt v); cbn [Raw.bind Shape.returns andb];
        [| reflexivity | reflexivity]
    end.
    reflexivity.
  - now destruct account.
Qed.

Lemma or_else_text (v d : Json.t) :
  Shape.has_text d = true -> Shape.has_text (Json.or_else v d) = Shape.has_text v.
Proof.
  intros Hd. unfold Json.or_else. destruct (Json.truthy v) eqn:Ht; [reflexivity |].
  rewrite Hd. destruct v as [| | [|] | x | s | items | fields]; try reflexivity; discriminate.
Qed.

Lemma has_text_Return (v : Json.t) :
  Shape.has_text v = true -> exists str, Raw.to_text v = Return str.
Proof. intros H. apply returns_true. now rewrite to_text_returns. Qed.

Lemma has_no_text (v : Json.t) :
  Shape.has_text v = false -> Raw.to_text v = ThrowTypeError.
Proof. unfold Shape.has_text, Raw.to_text. now destruct (Json.to_text v). Qed.

Lemma safeParseInt_Return (v : Json.t) :
  Shape.has_text v = true -> exists x, Raw.safeParseInt v = Return x.
Proof. intros H. apply returns_true. now rewrite safeParseInt_returns. Qed.

Lemma has_parsed_json_field (item : Json.t) :
  Shape.has_parsed_json item
  = Json.truthy item && Json.truthy (Shape.field "parsed_json" item).
Proof.
  unfold Shape.has_parsed_json, Shape.field.
  destruct (Json.truthy item) eqn:Ht; [| reflexivity].
  destruct (get_is_there "parsed_json" item (truthy_is_there _ Ht))
    as [parsed_json ->].
  reflexivity.
Qed.

(** The mapper returns exactly on the envelopes that have their
    [parsed_json] and are well shaped. *)
Lemma mapper_returns_shape (host : Host.t) (now : Z) (item : Json.t) :
  Shape.returns (Raw.mapADLSToReconciliationRow host now item)
  = Shape.has_parsed_json item && Shape.well_shaped item.
Proof.
  rewrite has_parsed_json_field. unfold Raw.mapADLSToReconciliationRow, Shape.well_shaped.
  destruct (Json.truthy item) eqn:Hitem; cbn [negb andb]; [| reflexivity].
  pose proof (truthy_is_there _ Hitem) as Hthere.
  rewrite !(get_field _ _ Hthere). cbn [Raw.bind].
  set (parsed_json := Shape.field "parsed_json" item).
  destruct (Json.truthy parsed_json) eqn:Hpj; cbn [negb andb]; [| reflexivity].
  pose proof (truthy_is_there _ Hpj) as Hpthere.
  rewrite !(get_field _ _ Hpthere). cbn [Raw.bind].
  set (month := Shape.field "statement_month" parsed_json).
  set (year := Shape.field "statement_year" parsed_json).
  set (accounts := Shape.field "accounts" parsed_json).
  set (filename := Shape.field "filename" item).
  unfold Raw.getMonthAbbreviation.
  pose proof (or_else_text month (Json.Num (of_Z 1)) eq_refl) as Hm.
  destruct (Shape.has_text month) eqn:Hmonth; cbn [andb].
  2:{ now rewrite (has_no_text _ Hm). }
  destruct (has_text_Return _ Hm) as [monthStr ->]. cbn [Raw.bind].
  pose proof (or_else_text year (Json.Num (of_Z 2025)) eq_refl) as Hy.
  destruct (Shape.has_text year) eqn:Hyear; cbn [andb].
  2:{ now rewrite (has_no_text _ Hy). }
  destruct (has_text_Return _ Hy) as [yearText ->]. cbn [Raw.bind].
  destruct (safeParseInt_Return _ Hmonth) as [m ->].
  destruct (safeParseInt_Return _ Hyear) as [y ->]. cbn [Raw.bind].
  assert (Hmap : forall items,
             Shape.returns (Raw.map Raw.mapAccountData items)
             = forallb Shape.well_shaped_account items).
  { intros items. rewrite map_Return.
    induction items as [| a rest IH]; cbn [forallb]; [reflexivity |].
    now rewrite mapAccountData_returns, IH. }
  unfold Json.or_else.
  destruct (Json.truthy accounts) eqn:Haccounts.
  - destruct accounts as [| | b | x | s | items | fields]; try reflexivity.
    rewrite <- Hmap.
    destruct (Raw.map Raw.mapAccountData items) as [mapped | |]; try reflexivity.
    cbn [Raw.bind Shape.returns andb].
    destruct (Json.truthy filename) eqn:Hfilename; [| reflexivity].
    destruct filename; reflexivity.
  - cbn [Raw.map Raw.bind andb].
    destruct (Json.truthy filename) eqn:Hfilename; [| reflexivity].
    destruct filename; reflexivity.
Qed.

(** What converts to text: everything but an object with a [toString] of
    its own, and an array that holds what does not. *)
Lemma has_text_cases (v : Json.t) :
  Shape.has_text v
  = match v with
    | Json.Arr items => forallb Shape.has_text items
    | Json.Obj fields =>
        match Json.own "toString" fields with
        | Some _ => false
        | None => true
        end
    | _ => true
    end.
Proof.
  destruct v as [| | [|] | x | s | items | fields]; try reflexivity.
  - change (Shape.has_text (Json.Arr items))
      with (match Json.to_text (Json.Arr items) with Some _ => true | None => false end).
    cbn [Json.to_text].
    induction items as [| a rest IH]; [reflexivity |].
    cbn [forallb]. rewrite <- IH.
    assert (Ha : Shape.has_text a
                 = match match a with
                         | Json.Undefined | Json.Null => Some ""
                         | _ => Json.to_text a
                         end with
                   | Some _ => true
                   | None => false
                   end) by (destruct a; reflexivity).
    rewrite Ha.
    destruct (match a with
              | Json.Undefined | Json.Null => Some ""
              | _ => Json.to_text a
              end) as [first |]; [| reflexivity].
    cbn [andb]. destruct rest as [| b rest']; [reflexivity |].
    match goal with
    | |- match match ?j with _ => _ end with _ => _ end = _ => now destruct j
    end.
  - unfold Shape.has_text. cbn [Json.to_text].
    now destruct (Json.own "toString" fields).
Qed.

Lemma guard_has_parsed_json (item : Json.t) :
  Raw.valid_item item = Return true -> Shape.has_parsed_json item = true.
Proof.
  intros Hv. destruct (valid_item_inv _ Hv) as (fields & parsed_json & accounts & -> & Hpj & _).
  unfold Shape.has_parsed_json. cbn [Json.truthy Json.get andb]. now rewrite Hpj.
Qed.

(** The loop shows the items that pass the guard and are well shaped. *)
Lemma shown_item_shape (host : Host.t) (item : Json.t) :
  Shape.shown_item host item
  = match Raw.valid_item item with
    | Return true => Shape.well_shaped item
    | _ => false
    end.
Proof.
  unfold Shape.shown_item. destruct (Raw.valid_item item) as [[|] | m |] eqn:Hv; try reflexivity.
  now rewrite mapper_returns_shape, (guard_has_parsed_json _ Hv).
Qed.

End RawFacts.

(* ================================================================== *)
(** * Properties of the page *)
(* ================================================================== *)

Import JS Page.
Local Open Scope string_scope.
Local Open Scope Z_scope.

(** ** The verdict *)

(** C1: an account is reported reconciled exactly when the rounded
    difference between its ending balance and
    [starting_balance - total_debits + total_credits] is below 0.005 in
    absolute value; a raw difference of 0.001 reconciles and one of 0.006
    does not. *)
Theorem reconciliation_verdict (a : MappedAccount.t) :
  (isHarmonized (Some a) = true
   <-> lt (Math.abs (Spec.round2 (Spec.raw_difference a))) (Spec.literal 5 (-3)) = true)
  /\ (Spec.raw_difference a = Spec.literal 1 (-3) -> isHarmonized (Some a) = true)
  /\ (Spec.raw_difference a = Spec.literal 6 (-3) -> isHarmonized (Some a) = false).
Proof.
  unfold isHarmonized, calculateDifference.
  change (sub (MappedAccount.ending_balance a) _) with (Spec.raw_difference a).
  change (div (Math.round (mul (Spec.raw_difference a) (of_Z 100))) (of_Z 100))
    with (Spec.round2 (Spec.raw_difference a)).
  change (of_decimal false 5 (-3)) with (Spec.literal 5 (-3)).
  split; [| split].
  - destruct (lt (Math.abs (Spec.round2 (Spec.raw_difference a))) (Spec.literal 5 (-3)))
      eqn:Hlt.
    + split; reflexivity.
    + split; [| discriminate].
      intros Heq. apply NumberFacts.strict_eq_zero_inv in Heq as [s Hs].
      rewrite Hs in Hlt. now vm_compute in Hlt.
  - intros Hraw. rewrite Hraw. now vm_compute.
  - intros Hraw. rewrite Hraw. now vm_compute.
Qed.

Lemma reconciliation_verdict_witness :
  isHarmonized (Some (Sample.account_off_by (Spec.literal 1 (-3)))) = true
  /\ isHarmonized (Some (Sample.account_off_by (Spec.literal 6 (-3)))) = false.
Proof.
  split.
  - apply (proj1 (proj2 (reconciliation_verdict
                           (Sample.account_off_by (Spec.literal 1 (-3)))))).
    vm_compute. reflexivity.
  - apply (proj2 (proj2 (reconciliation_verdict
                           (Sample.account_off_by (Spec.literal 6 (-3)))))).
    vm_compute. reflexivity.
Defined.

(** The statement of the setup notes: 1780.44 - 152330.52 + 151000.00 is
    449.92 up to noise below half a cent, and the account reconciles; with
    an ending balance of 500.00 the difference is 50.08 and it does not. *)
Example verdict_of_sample_statement :
  isHarmonized (Some (Sample.chase_account (Spec.literal 44992 (-2)))) = true
  /\ isHarmonized (Some (Sample.chase_account (Spec.literal 500 0))) = false
  /\ calculateDifference (Sample.chase_account (Spec.literal 500 0))
     = Spec.literal 5008 (-2).
Proof. now vm_compute. Qed.

(** ** The normalizers *)

Lemma safeParseFloat_not_NaN (v : value) : isNaN (safeParseFloat v) = false.
Proof.
  destruct v as [ | | x | s]; cbn -[parseFloat]; try reflexivity.
  - destruct (isNaN x) eqn:E; [reflexivity | exact E].
  - destruct (isNaN (parseFloat _)) eqn:E; [reflexivity | exact E].
Qed.

Lemma safeParseInt_not_NaN (v : value) : isNaN (safeParseInt v) = false.
Proof.
  destruct v as [ | | x | s]; cbn -[parseInt10 Math.floor]; try reflexivity.
  - destruct (isNaN x) eqn:E; [reflexivity | now apply NumberFacts.floor_not_NaN].
  - destruct (isNaN (parseInt10 _)) eqn:E; [reflexivity | exact E].
Qed.

(** C2, as the code has it: both normalizers return a number that is not
    [NaN], for every input.  The numbers [Infinity] and [-Infinity] pass
    through both unchanged.  Text gives an infinite result exactly when
    [parseFloat], respectively [parseInt], reads its trimmed text without
    commas as an infinity, and then gives that infinity: the decimal
    normalizer reads ["Infinity"] and ["1e999"] as [Infinity] and
    ["-Infinity"] as [-Infinity]; the integer normalizer reads
    ["Infinity"] as 0 and ["1e999"] as 1, and overflows on a numeral of
    310 digits.  Every other input gives a finite number; so do [null],
    [undefined], [NaN], ["NA"], ["1,234.50"] and the empty string. *)
Theorem normalizers_never_NaN :
  (forall v, isNaN (safeParseFloat v) = false /\ isNaN (safeParseInt v) = false)
  /\ (forall s,
        safeParseFloat (Num (S754_infinity s)) = S754_infinity s
        /\ safeParseInt (Num (S754_infinity s)) = S754_infinity s)
  /\ (forall t s,
        parseFloat (remove_char "," (trim t)) = S754_infinity s ->
        safeParseFloat (Str t) = S754_infinity s)
  /\ (forall t s,
        parseInt10 (remove_char "," (trim t)) = S754_infinity s ->
        safeParseInt (Str t) = S754_infinity s)
  /\ (forall v,
        is_finite (safeParseFloat v) = false
        <-> (exists s, v = Num (S754_infinity s))
            \/ (exists t s, v = Str t
                            /\ parseFloat (remove_char "," (trim t)) = S754_infinity s))
  /\ (forall v,
        Spec.well_formed v ->
        is_finite (safeParseInt v) = false
        <-> (exists s, v = Num (S754_infinity s))
            \/ (exists t s, v = Str t
                            /\ parseInt10 (remove_char "," (trim t)) = S754_infinity s))
  /\ (safeParseFloat (Str "Infinity") = S754_infinity false
      /\ safeParseFloat (Str "-Infinity") = S754_infinity true
      /\ safeParseFloat (Str "1e999") = S754_infinity false
      /\ safeParseInt (Str "Infinity") = of_Z 0
      /\ safeParseInt (Str "-Infinity") = of_Z 0
      /\ safeParseInt (Str "1e999") = of_Z 1
      /\ safeParseInt (Str ("1" ++ zeros 309)) = S754_infinity false)
  /\ (forall v,
        In v [Null; Undefined; Num NaN; Str "NA"; Str "1,234.50"; Str ""] ->
        is_finite (safeParseFloat v) = true /\ is_finite (safeParseInt v) = true).
Proof.
  split; [intros v; split; [apply safeParseFloat_not_NaN | apply safeParseInt_not_NaN] |].
  split; [intros s; split; reflexivity |].
  split; [intros t s H; unfold safeParseFloat; now rewrite H |].
  split; [intros t s H; unfold safeParseInt; now rewrite H |].
  split; [| split; [| split]].
  - intros v. split.
    + destruct v as [ | | x | t]; try discriminate.
      * destruct x as [s | s | | s m e]; try discriminate.
        intros _. left. now exists s.
      * unfold safeParseFloat.
        destruct (parseFloat (remove_char "," (trim t))) as [s | s | | s m e] eqn:E;
          try discriminate.
        intros _. right. now exists t, s.
    + intros [[s ->] | (t & s & -> & E)]; [reflexivity |].
      unfold safeParseFloat. now rewrite E.
  - intros v Hwf. split.
    + destruct v as [ | | x | t]; try discriminate.
      * destruct x as [s | s | | s m e]; try discriminate.
        -- intros _. left. now exists s.
        -- cbn [safeParseInt isNaN]. intros H.
           rewrite NumberFacts.floor_is_finite in H by (exact Hwf || reflexivity).
           discriminate.
      * unfold safeParseInt.
        destruct (parseInt10 (remove_char "," (trim t))) as [s | s | | s m e] eqn:E;
          try discriminate.
        intros _. right. now exists t, s.
    + intros [[s ->] | (t & s & -> & E)]; [reflexivity |].
      unfold safeParseInt. now rewrite E.
  - repeat split; now vm_compute.
  - cbn [In]. intros v H.
    repeat (destruct H as [<- | H]; [now vm_compute |]). contradiction.
Qed.

Lemma normalizers_never_NaN_witness :
  safeParseFloat (Str " -Infinity ") = S754_infinity true
  /\ (is_finite (safeParseInt (Num (Spec.literal 15233052 (-2)))) = false
      <-> (exists s, Num (Spec.literal 15233052 (-2)) = Num (S754_infinity s))
          \/ (exists t s, Num (Spec.literal 15233052 (-2)) = Str t
                          /\ parseInt10 (remove_char "," (trim t)) = S754_infinity s))
  /\ is_finite (safeParseFloat (Str "NA")) = true
  /\ is_finite (safeParseInt (Str "NA")) = true.
Proof.
  split; [| split].
  - apply (proj1 (proj2 (proj2 normalizers_never_NaN)) " -Infinity " true).
    vm_compute. reflexivity.
  - apply (proj1 (proj2 (proj2 (proj2 (proj2 (proj2 normalizers_never_NaN)))))
             (Num (Spec.literal 15233052 (-2)))).
    vm_compute. reflexivity.
  - apply (proj2 (proj2 (proj2 (proj2 (proj2 (proj2 (proj2 normalizers_never_NaN))))))
             (Str "NA")).
    cbn. tauto.
Defined.

(** C2, as stated, fails: an infinite number, and text that reads as
    one, come back infinite. *)
Lemma infinity_passes_the_normalizers :
  is_finite (safeParseFloat (Num Infinity)) = false
  /\ is_finite (safeParseInt (Num Infinity)) = false
  /\ is_finite (safeParseFloat (Str "Infinity")) = false
  /\ is_finite (safeParseFloat (Str "1e999")) = false.
Proof. now vm_compute. Qed.

(** C8: ["1,234.56"] normalizes to 1234.56 as a decimal and to 1234 as an
    integer; the sentinel ["NA"] and [null] normalize to 0. *)
Theorem normalizer_equations :
  safeParseFloat (Str "1,234.56") = div (of_Z 123456) (of_Z 100)
  /\ number_to_string (safeParseFloat (Str "1,234.56")) = "1234.56"
  /\ safeParseInt (Str "1,234.56") = of_Z 1234
  /\ safeParseFloat (Str "NA") = of_Z 0
  /\ safeParseFloat Null = of_Z 0.
Proof. now vm_compute. Qed.

(** ** Accounts *)

(** C5: [total_debits] is the absolute value of the normalized
    [total_withdrawals], hence never negative; -152330.52 and 152330.52
    both give 152330.52. *)
Theorem total_debits_is_magnitude (account : AccountData.t) :
  MappedAccount.total_debits (mapAccountData account)
  = Math.abs (safeParseFloat (AccountData.total_withdrawals account))
  /\ Spec.nonneg (MappedAccount.total_debits (mapAccountData account)) = true
  /\ (AccountData.total_withdrawals account = Num (SFopp (Spec.literal 15233052 (-2)))
      \/ AccountData.total_withdrawals account = Num (Spec.literal 15233052 (-2))
      -> MappedAccount.total_debits (mapAccountData account)
         = Spec.literal 15233052 (-2)).
Proof.
  split; [reflexivity | split].
  - apply NumberFacts.abs_nonneg, safeParseFloat_not_NaN.
  - cbn [mapAccountData MappedAccount.total_debits].
    intros [-> | ->]; now vm_compute.
Qed.

Lemma total_debits_is_magnitude_witness :
  MappedAccount.total_debits
    (mapAccountData (Sample.raw_account (Num (SFopp (Spec.literal 15233052 (-2))))))
  = Spec.literal 15233052 (-2)
  /\ MappedAccount.total_debits
    (mapAccountData (Sample.raw_account (Num (Spec.literal 15233052 (-2)))))
  = Spec.literal 15233052 (-2).
Proof.
  split.
  - apply (proj2 (proj2 (total_debits_is_magnitude
             (Sample.raw_account (Num (SFopp (Spec.literal 15233052 (-2)))))))).
    left. reflexivity.
  - apply (proj2 (proj2 (total_debits_is_magnitude
             (Sample.raw_account (Num (Spec.literal 15233052 (-2))))))).
    right. reflexivity.
Defined.

(** ** Month abbreviations *)

Lemma lookup_absent (map : list (string * string)) (key : string) :
  ~ In key (List.map fst map) -> lookup key map = None.
Proof.
  induction map as [| [k v] rest IH]; intros Hk; [reflexivity |].
  cbn in *. destruct (String.eqb_spec k key) as [-> | _].
  - exfalso. apply Hk. now left.
  - apply IH. intros Hin. apply Hk. now right.
Qed.

Lemma month_keys_are_1_to_12 :
  Spec.month_keys = List.map string_of_Z [1; 2; 3; 4; 5; 6; 7; 8; 9; 10; 11; 12].
Proof. reflexivity. Qed.

Lemma text_of_other_integer (n : Z) :
  13 <= n < 2 ^ 52 -> ~ In (to_String (Num (of_Z n))) Spec.month_keys.
Proof.
  intros Hn. cbn [to_String].
  rewrite TextFacts.number_to_string_of_Z, month_keys_are_1_to_12 by lia.
  intros Hin. apply in_map_iff in Hin as (k & Hk & Hin).
  apply TextFacts.string_of_Z_inj in Hk; [| cbn in Hin; lia | lia].
  cbn in Hin. lia.
Qed.

Lemma member_has_no_digit_ahead (key : string) :
  In key Object_prototype -> Shape.no_digit_ahead key.
Proof.
  unfold Object_prototype. cbn [In]. intros H.
  repeat (destruct H as [<- | H]; [reflexivity |]). contradiction.
Qed.

Lemma string_of_pos_digit_ahead (p : positive) :
  ~ Shape.no_digit_ahead (string_of_pos p).
Proof.
  unfold string_of_pos. pose proof (DecimalPos.Unsigned.to_uint_nonnil p) as Hn.
  destruct (Pos.to_uint p); [contradiction | ..]; cbn; discriminate.
Qed.

Lemma text_of_integer_is_no_member (n : Z) :
  1 <= n < 2 ^ 52 -> ~ In (to_String (Num (of_Z n))) Object_prototype.
Proof.
  intros Hn Hin. apply member_has_no_digit_ahead in Hin. cbn [to_String] in Hin.
  rewrite TextFacts.number_to_string_of_Z in Hin by lia.
  destruct n as [| p | p]; try lia. now apply (string_of_pos_digit_ahead p).
Qed.

Lemma existsb_eqb_In (key : string) (keys : list string) :
  existsb (String.eqb key) keys = true <-> In key keys.
Proof.
  rewrite existsb_exists. split.
  - intros (k & Hin & Hk). apply String.eqb_eq in Hk. now subst.
  - intros Hin. exists key. split; [exact Hin | apply String.eqb_refl].
Qed.

Lemma month_keys_are_no_members (key : string) :
  In key Object_prototype -> ~ In key Spec.month_keys.
Proof.
  intros Hm Hk. apply member_has_no_digit_ahead in Hm.
  rewrite month_keys_are_1_to_12 in Hk. apply in_map_iff in Hk as (n & <- & Hn).
  cbn in Hn. destruct n as [| p | p]; try lia.
  now apply (string_of_pos_digit_ahead p).
Qed.

(** C9, on the code: the months 1 to 12, given as numbers or as their
    text, map to JAN through DEC, so 8 gives ["AUG"]; a value whose text
    is none of the twelve keys and names no member of [Object.prototype]
    comes back as that text: so does every integer from 13 on, and 13
    gives ["13"].  But text that names such a member, like
    ["constructor"], does not come back as text: the object literal
    inherits the member, and the code returns it. *)
Theorem month_abbreviation_mapping :
  (forall n : nat, (n < 12)%nat ->
     getMonthAbbreviation (Num (of_Z (Z.of_nat (S n)))) = Text (nth n Spec.abbreviations "")
     /\ getMonthAbbreviation (Str (string_of_Z (Z.of_nat (S n))))
        = Text (nth n Spec.abbreviations ""))
  /\ getMonthAbbreviation (Num (of_Z 8)) = Text "AUG"
  /\ (forall month : value,
        ~ In (to_String month) Spec.month_keys ->
        ~ In (to_String month) Object_prototype ->
        getMonthAbbreviation month = Text (to_String month))
  /\ (forall n : Z,
        13 <= n < 2 ^ 52 -> getMonthAbbreviation (Num (of_Z n)) = Text (string_of_Z n))
  /\ getMonthAbbreviation (Num (of_Z 13)) = Text "13"
  /\ (forall month : value,
        In (to_String month) Object_prototype ->
        getMonthAbbreviation month = Inherited (to_String month))
  /\ getMonthAbbreviation (Str "constructor") = Inherited "constructor"
  /\ getMonthAbbreviation (Str "constructor") <> Text "constructor".
Proof.
  assert (Hpass : forall month : value,
             ~ In (to_String month) Spec.month_keys ->
             ~ In (to_String month) Object_prototype ->
             getMonthAbbreviation month = Text (to_String month)).
  { intros month Hnot Hmem. unfold getMonthAbbreviation.
    rewrite (lookup_absent monthMap _ Hnot).
    destruct (existsb (String.eqb (to_String month)) Object_prototype) eqn:E;
      [| reflexivity].
    apply existsb_eqb_In in E. contradiction. }
  assert (Hmember : forall month : value,
             In (to_String month) Object_prototype ->
             getMonthAbbreviation month = Inherited (to_String month)).
  { intros month Hmem. unfold getMonthAbbreviation.
    rewrite (lookup_absent monthMap _ (month_keys_are_no_members _ Hmem)).
    apply existsb_eqb_In in Hmem. now rewrite Hmem. }
  split; [| split; [| split; [| split; [| split; [| split; [| split]]]]]].
  - intros n Hn.
    do 12 (destruct n as [| n]; [now vm_compute |]). lia.
  - now vm_compute.
  - exact Hpass.
  - intros n Hn.
    rewrite (Hpass _ (text_of_other_integer n Hn) (text_of_integer_is_no_member n ltac:(lia))).
    cbn [to_String]. f_equal. apply TextFacts.number_to_string_of_Z. lia.
  - now vm_compute.
  - exact Hmember.
  - apply (Hmember (Str "constructor")). cbn. tauto.
  - rewrite (Hmember (Str "constructor")) by (cbn; tauto). discriminate.
Qed.

Lemma month_abbreviation_mapping_witness :
  getMonthAbbreviation (Num (of_Z 3)) = Text "MAR"
  /\ getMonthAbbreviation (Str "12") = Text "DEC"
  /\ getMonthAbbreviation (Num (Spec.literal 15 (-1))) = Text "1.5"
  /\ getMonthAbbreviation (Num (of_Z 2025)) = Text "2025"
  /\ getMonthAbbreviation (Str "toString") = Inherited "toString".
Proof.
  split; [| split; [| split; [| split]]].
  - apply (proj1 (proj1 month_abbreviation_mapping 2%nat ltac:(lia))).
  - apply (proj2 (proj1 month_abbreviation_mapping 11%nat ltac:(lia))).
  - apply (proj1 (proj2 (proj2 month_abbreviation_mapping))).
    + vm_compute. intuition discriminate.
    + vm_compute. intuition discriminate.
  - apply (proj1 (proj2 (proj2 (proj2 month_abbreviation_mapping))) 2025).
    vm_compute. split; [discriminate | reflexivity].
  - apply (proj1 (proj2 (proj2 (proj2 (proj2 (proj2 month_abbreviation_mapping)))))
             (Str "toString")).
    vm_compute. tauto.
Defined.

(** What the page then shows for a statement whose month is the text
    ["constructor"]: the text the engine has for the inherited function. *)
Example month_of_an_inherited_key (host : Host.t) :
  exists row,
    mapADLSToReconciliationRow host 1762138000000
      (Sample.item (Present (Sample.statement (Str "constructor") (Num (of_Z 2025))
                                              (Present [])))
                   Absent)
    = Return row
    /\ ReconciliationRow.month_year row = Host.member_text host "constructor" ++ " 2025".
Proof. eexists. split; [reflexivity |]. now vm_compute. Qed.

(** ** The statement mapper *)

Lemma mapper_returns (host : Host.t) (now : Z) (item : ADLSResponse.t) (pj : ParsedJson.t) :
  ADLSResponse.parsed_json item = Present pj ->
  exists row, mapADLSToReconciliationRow host now item = Return row
              /\ ReconciliationRow.accounts row
                 = List.map mapAccountData
                     match ParsedJson.accounts pj with
                     | Present accounts => accounts
                     | _ => []
                     end.
Proof.
  intros Hpj. unfold mapADLSToReconciliationRow. rewrite Hpj.
  eexists. split; reflexivity.
Qed.

Lemma valid_item_has_parsed_json (item : ADLSResponse.t) :
  valid_item item = true -> exists pj, ADLSResponse.parsed_json item = Present pj.
Proof.
  unfold valid_item. destruct (ADLSResponse.parsed_json item) as [ | | pj];
    try discriminate.
  intros _. now exists pj.
Qed.

(** The loop on three items of which the second is not shown. *)
Lemma second_of_three_dropped (host : Host.t) (clock : nat -> Z)
    (item1 item2 item3 : Json.t) (row1 row3 : Raw.Row.t) :
  Raw.valid_item item1 = Return true ->
  Raw.mapADLSToReconciliationRow host (clock 0%nat) item1 = Return row1 ->
  Shape.is_there item2 = true -> Shape.shown_item host item2 = false ->
  Raw.valid_item item3 = Return true ->
  Raw.mapADLSToReconciliationRow host (clock 2%nat) item3 = Return row3 ->
  Raw.fetchData host clock (Shape.answer [item1; item2; item3]) = Return [row1; row3].
Proof.
  intros Hv1 Hrow1 Hthere2 Hshown2 Hv3 Hrow3.
  unfold Raw.fetchData, Shape.answer, Raw.get, Json.get.
  cbn [Json.own String.eqb Ascii.eqb Bool.eqb Raw.step Raw.bind Raw.mapItems].
  rewrite Hv1, Hv3, Hrow1, Hrow3.
  destruct (RawFacts.valid_item_is_there item2 Hthere2) as [valid2 Hv2].
  rewrite Hv2. cbn [Raw.bind]. destruct valid2; [| reflexivity].
  rewrite (RawFacts.shown_item_mapped host (clock 1%nat) item2 Hv2) in Hshown2.
  now destruct (Raw.mapADLSToReconciliationRow host (clock 1%nat) item2).
Qed.

Lemma not_shown_without_parsed_json (host : Host.t) (item : Json.t) :
  Shape.has_parsed_json item = false -> Shape.shown_item host item = false.
Proof.
  unfold Shape.has_parsed_json, Shape.shown_item, Raw.valid_item, Raw.get.
  destruct item as [| | b | x | s | items | fields]; try reflexivity.
  cbn [Json.truthy Json.get andb Raw.step Raw.bind].
  intros Hpj. rewrite Hpj. reflexivity.
Qed.

(** C3, as the code has it: the mapper throws its structural error
    exactly when the envelope lacks [parsed_json], and throws no other
    error of its own.  It returns exactly when the envelope has its
    [parsed_json] and is well shaped: the month and the year convert to
    text, [accounts] is falsy or an array of accounts that are not
    [null] and whose numeric fields convert to text, and [filename] is
    falsy or a text; whatever else it is given makes it fail with a
    [TypeError] of the engine.  Everything converts to text but an object
    with a [toString] of its own and an array that holds what does not;
    so an account that is [null], or a balance that is such an object,
    makes the mapper fail, and data of the declared interfaces never do,
    whatever the account fields hold.  The loop drops each item that is
    not shown on its own: of three items of which the second, being
    there, lacks [parsed_json] or fails otherwise, and the other two pass
    the guard and are mapped, it keeps the rows of the first and the
    third, in that order; so it does for envelopes of the declared
    interfaces with an [accounts] array. *)
Theorem structural_error_only :
  (forall host now item message,
     Raw.mapADLSToReconciliationRow host now item = Throw message
     <-> message = Raw.missing_parsed_json /\ Shape.has_parsed_json item = false)
  /\ (forall host now item,
        Shape.returns (Raw.mapADLSToReconciliationRow host now item)
        = Shape.has_parsed_json item && Shape.well_shaped item)
  /\ (forall v,
        Shape.has_text v
        = match v with
          | Json.Arr items => forallb Shape.has_text items
          | Json.Obj fields =>
              match Json.own "toString" fields with
              | Some _ => false
              | None => true
              end
          | _ => true
          end)
  /\ (forall host now,
        Raw.mapADLSToReconciliationRow host now Sample.null_account = ThrowTypeError
        /\ Raw.mapADLSToReconciliationRow host now Sample.balance_without_text
           = ThrowTypeError)
  /\ (forall host now item pj,
        ADLSResponse.parsed_json item = Present pj ->
        exists row,
          mapADLSToReconciliationRow host now item = Return row
          /\ Raw.mapADLSToReconciliationRow host now (Raw.of_response item)
             = Return (Raw.of_row row))
  /\ (forall host item,
        Shape.has_parsed_json item = false -> Shape.shown_item host item = false)
  /\ (forall host clock item1 item2 item3 row1 row3,
        Raw.valid_item item1 = Return true ->
        Raw.mapADLSToReconciliationRow host (clock 0%nat) item1 = Return row1 ->
        Shape.is_there item2 = true -> Shape.shown_item host item2 = false ->
        Raw.valid_item item3 = Return true ->
        Raw.mapADLSToReconciliationRow host (clock 2%nat) item3 = Return row3 ->
        Raw.fetchData host clock (Shape.answer [item1; item2; item3])
        = Return [row1; row3])
  /\ (forall host clock item1 item2 item3,
        valid_item item1 = true ->
        Shape.is_there item2 = true -> Shape.has_parsed_json item2 = false ->
        valid_item item3 = true ->
        exists row1 row3,
          mapADLSToReconciliationRow host (clock 0%nat) item1 = Return row1
          /\ mapADLSToReconciliationRow host (clock 2%nat) item3 = Return row3
          /\ Raw.fetchData host clock
               (Shape.answer [Raw.of_response item1; item2; Raw.of_response item3])
             = Return [Raw.of_row row1; Raw.of_row row3]).
Proof.
  assert (Htyped : forall host now item pj,
             ADLSResponse.parsed_json item = Present pj ->
             exists row,
               mapADLSToReconciliationRow host now item = Return row
               /\ Raw.mapADLSToReconciliationRow host now (Raw.of_response item)
                  = Return (Raw.of_row row)).
  { intros host now item pj Hpj.
    destruct (mapper_returns host now _ _ Hpj) as [row [Hrow _]].
    exists row. split; [exact Hrow |].
    now rewrite RawFacts.mapper_of_response, Hrow. }
  split; [exact RawFacts.mapper_throws_iff |].
  split; [exact RawFacts.mapper_returns_shape |].
  split; [exact RawFacts.has_text_cases |].
  split; [intros host now; split; reflexivity |].
  split; [exact Htyped |].
  split; [exact not_shown_without_parsed_json |].
  split; [exact second_of_three_dropped |].
  intros host clock item1 item2 item3 H1 Hthere2 Hlacks2 H3.
  destruct (valid_item_has_parsed_json _ H1) as [pj1 Hpj1].
  destruct (valid_item_has_parsed_json _ H3) as [pj3 Hpj3].
  destruct (Htyped host (clock 0%nat) _ _ Hpj1) as (row1 & Hrow1 & Hraw1).
  destruct (Htyped host (clock 2%nat) _ _ Hpj3) as (row3 & Hrow3 & Hraw3).
  exists row1, row3. split; [exact Hrow1 |]. split; [exact Hrow3 |].
  apply second_of_three_dropped; try assumption.
  - now rewrite RawFacts.valid_item_of_response, H1.
  - now apply not_shown_without_parsed_json.
  - now rewrite RawFacts.valid_item_of_response, H3.
Qed.

Lemma structural_error_only_witness :
  exists row1 row3,
    mapADLSToReconciliationRow Sample.utc_host (Sample.ticking 0%nat)
      (Sample.item (Present Sample.august_2025) (Present "parsing_20260111_205231"))
    = Return row1
    /\ mapADLSToReconciliationRow Sample.utc_host (Sample.ticking 2%nat)
         (Sample.item (Present (Sample.statement_of 2 2024))
                      (Present "parsing_20260111_205233"))
       = Return row3
    /\ Raw.fetchData Sample.utc_host Sample.ticking
         (Shape.answer
            [ Raw.of_response
                (Sample.item (Present Sample.august_2025)
                             (Present "parsing_20260111_205231"));
              Json.Obj [("batch_id", Json.Str "parsing_20260111_205232")];
              Raw.of_response
                (Sample.item (Present (Sample.statement_of 2 2024))
                             (Present "parsing_20260111_205233")) ])
       = Return [Raw.of_row row1; Raw.of_row row3].
Proof.
  apply (proj2 (proj2 (proj2 (proj2 (proj2 (proj2 (proj2 structural_error_only))))))
           Sample.utc_host Sample.ticking
           (Sample.item (Present Sample.august_2025) (Present "parsing_20260111_205231"))
           (Json.Obj [("batch_id", Json.Str "parsing_20260111_205232")])
           (Sample.item (Present (Sample.statement_of 2 2024))
                        (Present "parsing_20260111_205233"))).
  - reflexivity.
  - reflexivity.
  - reflexivity.
  - reflexivity.
Defined.

(** C3, as stated, fails: an envelope that has its [parsed_json] makes
    the mapper fail when its account is [null], which passes the guard,
    or when a balance of its account is an object with a [toString] of
    its own.  And of three items of which the second lacks
    [parsed_json], the loop keeps only one row when the first has no
    [accounts] array, and none, failing as a whole, when the second is
    [null]. *)
Lemma the_mapper_fails_on_a_null_account :
  Shape.has_parsed_json Sample.null_account = true
  /\ Raw.valid_item Sample.null_account = Return true
  /\ Raw.mapADLSToReconciliationRow Sample.utc_host 1762138000000 Sample.null_account
     = ThrowTypeError
  /\ Shape.has_parsed_json Sample.balance_without_text = true
  /\ Raw.mapADLSToReconciliationRow Sample.utc_host 1762138000000
       Sample.balance_without_text
     = ThrowTypeError
  /\ (exists row3,
        Raw.fetchData Sample.utc_host Sample.ticking
          (Shape.answer
             [ Raw.of_response
                 (Sample.item
                    (Present (Sample.statement (Num (of_Z 8)) (Num (of_Z 2025)) Absent))
                    (Present "parsing_20260111_205231"));
               Raw.of_response (Sample.item Absent (Present "parsing_20260111_205232"));
               Raw.of_response
                 (Sample.item (Present (Sample.statement_of 2 2024))
                              (Present "parsing_20260111_205233")) ])
        = Return [row3])
  /\ Raw.fetchData Sample.utc_host Sample.ticking
       (Shape.answer
          [ Raw.of_response
              (Sample.item (Present Sample.august_2025) (Present "parsing_20260111_205231"));
            Json.Null;
            Raw.of_response
              (Sample.item (Present (Sample.statement_of 2 2024))
                           (Present "parsing_20260111_205233")) ])
     = ThrowTypeError.
Proof.
  split; [reflexivity |]. split; [reflexivity |]. split; [reflexivity |].
  split; [reflexivity |]. split; [reflexivity |].
  split; [eexists; reflexivity | reflexivity].
Qed.

(** C10: with [parsed_json] there and its [accounts] left out or [null],
    the mapper returns a row with no accounts. *)
Theorem missing_accounts_give_empty_row
    (host : Host.t) (now : Z) (item : ADLSResponse.t) (pj : ParsedJson.t) :
  ADLSResponse.parsed_json item = Present pj ->
  ParsedJson.accounts pj = Absent \/ ParsedJson.accounts pj = IsNull ->
  exists row,
    mapADLSToReconciliationRow host now item = Return row
    /\ ReconciliationRow.accounts row = [].
Proof.
  intros Hpj Hacc.
  destruct (mapper_returns host now _ _ Hpj) as [row [Hrow Haccounts]].
  exists row. split; [exact Hrow |].
  rewrite Haccounts. now destruct Hacc as [-> | ->].
Qed.

Lemma missing_accounts_give_empty_row_witness :
  exists row,
    mapADLSToReconciliationRow Sample.utc_host 1762138000000
      (Sample.item (Present (Sample.statement (Num (of_Z 8)) (Num (of_Z 2025)) IsNull))
                   (Present "parsing_20260111_205231"))
    = Return row
    /\ ReconciliationRow.accounts row = [].
Proof.
  apply (missing_accounts_give_empty_row Sample.utc_host 1762138000000 _
           (Sample.statement (Num (of_Z 8)) (Num (of_Z 2025)) IsNull)).
  - reflexivity.
  - right. reflexivity.
Defined.

(** ** Determinism *)

Lemma lacks_batch_id_cases (item : ADLSResponse.t) :
  Spec.lacks_batch_id item
  \/ exists c r, ADLSResponse.batch_id item = Present (String c r).
Proof.
  unfold Spec.lacks_batch_id.
  destruct (ADLSResponse.batch_id item) as [ | | [| c r]]; cbn; eauto.
Qed.

(** C4, as the code has it: a statement with a [batch_id] maps to the same
    row whenever it is mapped; without one, two mappings agree in every
    field but [case_id], and in that one too when they read the same
    clock. *)
Theorem mapping_deterministic (host : Host.t) (now1 now2 : Z) (item : ADLSResponse.t) :
  (~ Spec.lacks_batch_id item \/ now1 = now2 ->
   mapADLSToReconciliationRow host now1 item = mapADLSToReconciliationRow host now2 item)
  /\ (forall row1 row2,
        mapADLSToReconciliationRow host now1 item = Return row1 ->
        mapADLSToReconciliationRow host now2 item = Return row2 ->
        Spec.same_but_case_id row1 row2).
Proof.
  split.
  - intros [Hid | ->]; [| reflexivity].
    destruct (lacks_batch_id_cases item) as [Hl | (c & r & Hb)]; [contradiction |].
    unfold mapADLSToReconciliationRow. rewrite Hb.
    now destruct (ADLSResponse.parsed_json item).
  - intros row1 row2. unfold mapADLSToReconciliationRow.
    destruct (ADLSResponse.parsed_json item) as [ | | pj]; try discriminate.
    intros [= <-] [= <-]. unfold Spec.same_but_case_id. cbn.
    repeat split; reflexivity.
Qed.

Lemma mapping_deterministic_witness :
  mapADLSToReconciliationRow Sample.utc_host 1762138000000
    (Sample.item (Present Sample.august_2025) (Present "parsing_20260111_205231"))
  = mapADLSToReconciliationRow Sample.utc_host 1762138000001
      (Sample.item (Present Sample.august_2025) (Present "parsing_20260111_205231")).
Proof.
  apply (proj1 (mapping_deterministic Sample.utc_host 1762138000000 1762138000001
                  (Sample.item (Present Sample.august_2025)
                               (Present "parsing_20260111_205231")))).
  left. vm_compute. discriminate.
Defined.

(** C4, as stated, fails: without a [batch_id] the row depends on when
    the statement is mapped. *)
Lemma mapping_reads_the_clock :
  mapADLSToReconciliationRow Sample.utc_host 1762138000000
    (Sample.item (Present Sample.august_2025) Absent)
  <> mapADLSToReconciliationRow Sample.utc_host 1762138000001
       (Sample.item (Present Sample.august_2025) Absent).
Proof. vm_compute. discriminate. Qed.

(** ** Transaction dates *)


Lemma mapped_dates (host : Host.t) (now : Z) (item : ADLSResponse.t) (pj : ParsedJson.t)
    (row : ReconciliationRow.t) :
  ADLSResponse.parsed_json item = Present pj ->
  mapADLSToReconciliationRow host now item = Return row ->
  ReconciliationRow.first_transaction_date row
  = number_to_string (statementMonth pj) ++ "/1/" ++ number_to_string (statementYear pj)
  /\ ReconciliationRow.last_transaction_date row
     = number_to_string (statementMonth pj) ++ "/"
       ++ number_to_string
            (Date.getDate host
               (Date.create host (statementYear pj) (statementMonth pj) (of_Z 0)))
       ++ "/" ++ number_to_string (statementYear pj).
Proof.
  intros Hpj. unfold mapADLSToReconciliationRow. rewrite Hpj.
  intros [= <-]. split; reflexivity.
Qed.

Lemma mapped_last_date (host : Host.t) (now : Z) (item : ADLSResponse.t)
    (pj : ParsedJson.t) (row : ReconciliationRow.t) (month year : Z) :
  ADLSResponse.parsed_json item = Present pj ->
  mapADLSToReconciliationRow host now item = Return row ->
  1 <= month <= 12 -> statementMonth pj = of_Z month ->
  1 <= year < 2 ^ 52 -> statementYear pj = of_Z year ->
  ReconciliationRow.first_transaction_date row
  = string_of_Z month ++ "/1/" ++ string_of_Z year
  /\ (Spec.keeps_the_day host (Spec.last_midnight year month) ->
      ReconciliationRow.last_transaction_date row
      = string_of_Z month ++ "/" ++ string_of_Z (Spec.days_in_month year month)
        ++ "/" ++ string_of_Z year)
  /\ (8640000000000000 < Z.abs (Host.utc host (Spec.last_midnight year month)) ->
      ReconciliationRow.last_transaction_date row
      = string_of_Z month ++ "/NaN/" ++ string_of_Z year).
Proof.
  intros Hpj Hrow Hm Hmonth Hy Hyear.
  destruct (mapped_dates host now item pj row Hpj Hrow) as [-> ->].
  rewrite Hmonth, Hyear.
  assert (H52 : 2 ^ 52 = 4503599627370496) by reflexivity.
  assert (H53 : 2 ^ 53 = 9007199254740992) by reflexivity.
  rewrite !TextFacts.number_to_string_of_Z by lia.
  split; [reflexivity |]. split; intros Hzone.
  - rewrite DateFacts.getDate_last_day by (try assumption; lia).
    pose proof (DateFacts.days_in_month_range year month) as Hd.
    rewrite TextFacts.number_to_string_of_Z by lia. reflexivity.
  - rewrite DateFacts.getDate_out_of_range by (try assumption; lia). reflexivity.
Qed.




(** ** Case ids *)

Lemma mapped_case_id (host : Host.t) (now : Z) (item : ADLSResponse.t) (row : ReconciliationRow.t) :
  mapADLSToReconciliationRow host now item = Return row ->
  ReconciliationRow.case_id row
  = string_or (ADLSResponse.batch_id item) ("CASE-" ++ number_to_string (of_Z now)).
Proof.
  unfold mapADLSToReconciliationRow.
  destruct (ADLSResponse.parsed_json item) as [ | | pj]; try discriminate.
  now intros [= <-].
Qed.

Lemma fallback_case_id (host : Host.t) (now : Z) (item : ADLSResponse.t) (row : ReconciliationRow.t) :
  mapADLSToReconciliationRow host now item = Return row ->
  Spec.lacks_batch_id item -> 1 <= now < 2 ^ 52 ->
  ReconciliationRow.case_id row = "CASE-" ++ string_of_Z now.
Proof.
  intros Hrow Hl Hnow. rewrite (mapped_case_id _ _ _ _ Hrow).
  rewrite TextFacts.number_to_string_of_Z by assumption.
  unfold Spec.lacks_batch_id in Hl.
  destruct (ADLSResponse.batch_id item) as [ | | [| c r]]; try reflexivity.
  discriminate.
Qed.

(** C7, as the code has it: the [case_id] is the [batch_id] when there is
    a non-empty one, and otherwise ["CASE-"] followed by the millisecond
    clock read while the statement is mapped; two statements without
    [batch_id] get the same [case_id] exactly when they are mapped at the
    same clock reading. *)
Theorem case_id_source :
  (forall host now item row b,
     mapADLSToReconciliationRow host now item = Return row ->
     ADLSResponse.batch_id item = Present b -> b <> "" ->
     ReconciliationRow.case_id row = b)
  /\ (forall host now item row,
        mapADLSToReconciliationRow host now item = Return row ->
        Spec.lacks_batch_id item -> 1 <= now < 2 ^ 52 ->
        ReconciliationRow.case_id row = "CASE-" ++ string_of_Z now)
  /\ (forall host now1 now2 item1 item2 row1 row2,
        mapADLSToReconciliationRow host now1 item1 = Return row1 ->
        mapADLSToReconciliationRow host now2 item2 = Return row2 ->
        Spec.lacks_batch_id item1 -> Spec.lacks_batch_id item2 ->
        1 <= now1 < 2 ^ 52 -> 1 <= now2 < 2 ^ 52 ->
        (ReconciliationRow.case_id row1 = ReconciliationRow.case_id row2
         <-> now1 = now2)).
Proof.
  split; [| split].
  - intros host now item row b Hrow Hb Hne.
    rewrite (mapped_case_id _ _ _ _ Hrow), Hb.
    destruct b as [| c r]; [contradiction | reflexivity].
  - exact fallback_case_id.
  - intros host now1 now2 item1 item2 row1 row2 Hrow1 Hrow2 Hl1 Hl2 Hn1 Hn2.
    rewrite (fallback_case_id _ _ _ _ Hrow1 Hl1 Hn1), (fallback_case_id _ _ _ _ Hrow2 Hl2 Hn2).
    split.
    + intros H. apply TextFacts.append_inv_head in H.
      apply TextFacts.string_of_Z_inj in H; lia.
    + now intros ->.
Qed.

Lemma case_id_source_witness :
  (exists row,
     mapADLSToReconciliationRow Sample.utc_host 1762138000000
       (Sample.item (Present Sample.august_2025) (Present "parsing_20260111_205231"))
     = Return row
     /\ ReconciliationRow.case_id row = "parsing_20260111_205231")
  /\ (exists row,
        mapADLSToReconciliationRow Sample.utc_host 1762138000000
          (Sample.item (Present Sample.august_2025) (Present "")) = Return row
        /\ ReconciliationRow.case_id row = "CASE-" ++ string_of_Z 1762138000000)
  /\ (exists row1 row2,
        mapADLSToReconciliationRow Sample.utc_host 1762138000000
          (Sample.item (Present Sample.august_2025) Absent) = Return row1
        /\ mapADLSToReconciliationRow Sample.utc_host 1762138000001
             (Sample.item (Present (Sample.statement_of 2 2024)) IsNull) = Return row2
        /\ (ReconciliationRow.case_id row1 = ReconciliationRow.case_id row2
            <-> 1762138000000 = 1762138000001)).
Proof.
  split; [| split].
  - eexists. split; [reflexivity |].
    apply (proj1 case_id_source Sample.utc_host 1762138000000
             (Sample.item (Present Sample.august_2025) (Present "parsing_20260111_205231"))
             _ "parsing_20260111_205231").
    + reflexivity.
    + reflexivity.
    + discriminate.
  - eexists. split; [reflexivity |].
    apply (proj1 (proj2 case_id_source) Sample.utc_host 1762138000000
             (Sample.item (Present Sample.august_2025) (Present ""))).
    + reflexivity.
    + reflexivity.
    + vm_compute. split; [discriminate | reflexivity].
  - eexists. eexists. split; [reflexivity | split; [reflexivity |]].
    apply (proj2 (proj2 case_id_source) Sample.utc_host 1762138000000 1762138000001
             (Sample.item (Present Sample.august_2025) Absent)
             (Sample.item (Present (Sample.statement_of 2 2024)) IsNull)).
    + reflexivity.
    + reflexivity.
    + reflexivity.
    + reflexivity.
    + vm_compute. split; [discriminate | reflexivity].
    + vm_compute. split; [discriminate | reflexivity].
Defined.

(** C7, as stated, fails: two statements without [batch_id] that one
    loop maps within the same millisecond share their [case_id]. *)
Lemma fallback_case_ids_collide :
  List.map ReconciliationRow.case_id
    (fetchData Sample.utc_host Sample.frozen
       [ Sample.item (Present Sample.august_2025) Absent;
         Sample.item (Present (Sample.statement_of 2 2024)) Absent ])
  = ["CASE-1762138000000"; "CASE-1762138000000"].
Proof. now vm_compute. Qed.

(* ================================================================== *)
(** * More properties: the page, its texts and the storage routes *)
(* ================================================================== *)

(** ** The loop of [fetchData] and what [Home] shows *)

Lemma filter_nil_iff {A : Type} (f : A -> bool) (l : list A) :
  filter f l = [] <-> Forall (fun a => f a = false) l.
Proof.
  induction l as [| a l IH]; cbn.
  - split; constructor.
  - destruct (f a) eqn:E.
    + split; [discriminate | intros H; inversion H; congruence].
    + rewrite IH. split; [now constructor | intros H; now inversion H].
Qed.

Lemma valid_item_is_mapped (host : Host.t) (now : Z) (item : ADLSResponse.t) :
  valid_item item = true ->
  exists row, mapADLSToReconciliationRow host now item = Return row.
Proof.
  intros Hv. destruct (valid_item_has_parsed_json _ Hv) as [pj Hpj].
  destruct (mapper_returns host now _ _ Hpj) as [row [Hrow _]]. now exists row.
Qed.

Lemma declared_items_rows (host : Host.t) (clock : nat -> Z) (items : list ADLSResponse.t) :
  forall i,
    Forall2 (Shape.row_of host) (filter valid_item items) (mapItems host clock i items).
Proof.
  induction items as [| item rest IH]; intros i; cbn [filter mapItems].
  - constructor.
  - destruct (valid_item item) eqn:Hv; [| apply IH].
    destruct (valid_item_is_mapped host (clock i) item Hv) as [row Hrow].
    rewrite Hrow. constructor; [now exists (clock i) | apply IH].
Qed.

Lemma fetchData_of_data (host : Host.t) (clock : nat -> Z) (result : Json.t)
    (items : list Json.t) :
  Json.get "data" result = Some (Json.Arr items) ->
  Raw.fetchData host clock result = Raw.mapItems host clock 0%nat items.
Proof. intros H. unfold Raw.fetchData, Raw.get. now rewrite H. Qed.

(** X1: [fetchData] on any answer whose [data] is an array.  When no
    item is [null] or [undefined], it sets one row for each item that
    passes the guard and on which the mapper returns, in their order,
    each being what the mapper returns for its item; every other item is
    dropped.  An item that is [null] or [undefined] makes the guard
    throw, outside the [try] of the mapper, and the whole run fail.  The
    mapper returns on the items that are well shaped.  On items of the
    declared interfaces the mapper returns whenever the guard passes, so
    that there is one row for each item that passes the guard. *)
Theorem fetchData_keeps_valid_items (host : Host.t) (clock : nat -> Z) :
  (forall result items,
     Json.get "data" result = Some (Json.Arr items) ->
     Forall (fun item => Shape.is_there item = true) items ->
     exists rows,
       Raw.fetchData host clock result = Return rows
       /\ Forall2 (Shape.raw_row_of host) (filter (Shape.shown_item host) items) rows)
  /\ (forall result items,
        Json.get "data" result = Some (Json.Arr items) ->
        Exists (fun item => Shape.is_there item = false) items ->
        Raw.fetchData host clock result = ThrowTypeError)
  /\ (forall item,
        Shape.shown_item host item
        = match Raw.valid_item item with
          | Return true => Shape.well_shaped item
          | _ => false
          end)
  /\ (forall items,
        Raw.fetchData host clock (Shape.answer (List.map Raw.of_response items))
        = Return (List.map Raw.of_row (fetchData host clock items))
        /\ Forall2 (Shape.row_of host) (filter valid_item items)
                   (fetchData host clock items)
        /\ List.length (fetchData host clock items)
           = List.length (filter valid_item items)).
Proof.
  split; [| split; [| split]].
  - intros result items Hdata Hthere. rewrite (fetchData_of_data host clock _ _ Hdata).
    now apply RawFacts.mapItems_rows.
  - intros result items Hdata Hnull. rewrite (fetchData_of_data host clock _ _ Hdata).
    now apply RawFacts.mapItems_not_there.
  - apply RawFacts.shown_item_shape.
  - intros items. split; [| split].
    + rewrite (fetchData_of_data host clock (Shape.answer (List.map Raw.of_response items))
                 (List.map Raw.of_response items) eq_refl).
      apply RawFacts.mapItems_of_response.
    + apply declared_items_rows.
    + symmetry. exact (Forall2_length (declared_items_rows host clock items 0%nat)).
Qed.

Lemma fetchData_keeps_valid_items_witness :
  (exists rows,
     Raw.fetchData Sample.utc_host Sample.ticking
       (Shape.answer
          [ Sample.null_account;
            Raw.of_response
              (Sample.item (Present Sample.august_2025) (Present "parsing_20260111_205231")) ])
     = Return rows
     /\ Forall2 (Shape.raw_row_of Sample.utc_host)
          (filter (Shape.shown_item Sample.utc_host)
             [ Sample.null_account;
               Raw.of_response
                 (Sample.item (Present Sample.august_2025)
                              (Present "parsing_20260111_205231")) ])
          rows)
  /\ Raw.fetchData Sample.utc_host Sample.ticking
       (Shape.answer [Sample.null_account; Json.Null])
     = ThrowTypeError.
Proof.
  split.
  - apply (proj1 (fetchData_keeps_valid_items Sample.utc_host Sample.ticking)).
    + reflexivity.
    + repeat constructor.
  - apply (proj1 (proj2 (fetchData_keeps_valid_items Sample.utc_host Sample.ticking))
             _ [Sample.null_account; Json.Null]).
    + reflexivity.
    + apply Exists_cons_tl. apply Exists_cons_hd. reflexivity.
Defined.

(** X2: what [Home] shows once the request has ended.  For an ok answer
    whose [data] is an array without [null] items it shows the rows of
    the items that pass the guard and are mapped, and the empty state
    exactly when there is no such item.  For an answer that is not ok it
    shows the error box with the answer's [error] when that is a text
    that is not empty, and with [Failed to fetch data] when the [error]
    is missing or falsy; an [error] that is truthy and has an empty text,
    as an empty array has, gives the empty state instead.  A request
    that is rejected, or a run that ends in a [TypeError], shows the
    error box with the message of the error, and the empty state when
    that message is empty. *)
Theorem Home_after_loading (host : Host.t) (clock : nat -> Z) (thrown : string) :
  (forall result items,
     Json.get "data" result = Some (Json.Arr items) ->
     Forall (fun item => Shape.is_there item = true) items ->
     (exists rows,
        Forall2 (Shape.raw_row_of host) (filter (Shape.shown_item host) items) rows
        /\ Component.Home (Component.loaded host clock thrown (Component.Ok result))
           = match rows with
             | [] => Component.NoData
             | _ => Component.Rows rows
             end)
     /\ (Component.Home (Component.loaded host clock thrown (Component.Ok result))
         = Component.NoData
         <-> Forall (fun item => Shape.shown_item host item = false) items))
  /\ (forall errorData error,
        Json.get "error" errorData = Some error ->
        (Json.truthy error = false ->
         Component.Home (Component.loaded host clock thrown (Component.NotOk errorData))
         = Component.ErrorBox "Failed to fetch data")
        /\ (forall message,
              error = Json.Str message -> message <> "" ->
              Component.Home (Component.loaded host clock thrown (Component.NotOk errorData))
              = Component.ErrorBox message))
  /\ Component.Home
       (Component.loaded host clock thrown
          (Component.NotOk (Json.Obj [("error", Json.Arr [])])))
     = Component.NoData
  /\ (forall message,
        Component.Home (Component.loaded host clock thrown (Component.Rejected message))
        = match message with
          | "" => Component.NoData
          | _ => Component.ErrorBox message
          end)
  /\ (forall response,
        Component.request host clock response = ThrowTypeError ->
        Component.Home (Component.loaded host clock thrown response)
        = match thrown with
          | "" => Component.NoData
          | _ => Component.ErrorBox thrown
          end)
  /\ Component.request host clock (Component.NotOk Json.Null) = ThrowTypeError
  /\ Component.request host clock (Component.Ok (Json.Obj [("data", Json.Null)]))
     = ThrowTypeError.
Proof.
  split; [| split; [| split; [| split; [| split; [| split]]]]].
  - intros result items Hdata Hthere.
    destruct (RawFacts.mapItems_rows host clock items Hthere 0%nat) as (rows & Hrun & Hrows).
    rewrite <- (fetchData_of_data host clock _ _ Hdata) in Hrun.
    assert (Hview : Component.Home
                      (Component.loaded host clock thrown (Component.Ok result))
                    = match rows with
                      | [] => Component.NoData
                      | _ => Component.Rows rows
                      end).
    { unfold Component.loaded, Component.request. rewrite Hrun. now destruct rows. }
    split; [now exists rows |].
    rewrite Hview, <- filter_nil_iff. pose proof (Forall2_length Hrows) as Hlen.
    destruct rows as [| row rows]; cbn [List.length] in Hlen.
    + split; [intros _ | reflexivity]. now apply length_zero_iff_nil.
    + split; [discriminate |]. intros Hnone. rewrite Hnone in Hlen. discriminate.
  - intros errorData error Herror. unfold Component.loaded, Component.request, Raw.get.
    rewrite Herror. cbn [Raw.step Raw.bind]. split.
    + intros Hfalsy. unfold Json.or_else. rewrite Hfalsy. reflexivity.
    + intros message -> Hmessage. destruct message as [| c rest]; [contradiction |].
      reflexivity.
  - reflexivity.
  - intros message. now destruct message.
  - intros response Hrun. unfold Component.loaded. rewrite Hrun. now destruct thrown.
  - reflexivity.
  - reflexivity.
Qed.

Lemma Home_after_loading_witness :
  Component.Home
    (Component.loaded Sample.utc_host Sample.ticking "Failed to fetch"
       (Component.NotOk
          (Json.Obj [("error", Json.Str "AZURE_STORAGE_ACCOUNT_NAME is required. Please check your .env.local file.")])))
  = Component.ErrorBox "AZURE_STORAGE_ACCOUNT_NAME is required. Please check your .env.local file."
  /\ (Component.Home
        (Component.loaded Sample.utc_host Sample.ticking "Failed to fetch"
           (Component.Ok (Shape.answer [Sample.null_account])))
      = Component.NoData
      <-> Forall (fun item => Shape.shown_item Sample.utc_host item = false)
                 [Sample.null_account]).
Proof.
  split.
  - apply (proj2 (proj1 (proj2 (Home_after_loading Sample.utc_host Sample.ticking
                                  "Failed to fetch"))
                   (Json.Obj [("error", Json.Str "AZURE_STORAGE_ACCOUNT_NAME is required. Please check your .env.local file.")])
                   (Json.Str "AZURE_STORAGE_ACCOUNT_NAME is required. Please check your .env.local file.")
                   eq_refl)).
    + reflexivity.
    + discriminate.
  - apply (proj1 (Home_after_loading Sample.utc_host Sample.ticking "Failed to fetch")
             (Shape.answer [Sample.null_account]) [Sample.null_account]).
    + reflexivity.
    + repeat constructor.
Defined.

(** X4: the selected account is undefined only for a row without
    accounts; an index within the accounts selects that account, and an
    index past them selects the first account. *)
Theorem selectedAccount_falls_back (data : ReconciliationRow.t) (index : nat) :
  (Component.selectedAccount data index = None <-> ReconciliationRow.accounts data = [])
  /\ ((index < List.length (ReconciliationRow.accounts data))%nat ->
      Component.selectedAccount data index
      = nth_error (ReconciliationRow.accounts data) index)
  /\ ((List.length (ReconciliationRow.accounts data) <= index)%nat ->
      Component.selectedAccount data index = hd_error (ReconciliationRow.accounts data)).
Proof.
  unfold Component.selectedAccount.
  destruct (ReconciliationRow.accounts data) as [| a l] eqn:E.
  - split; [| split].
    + now destruct index.
    + cbn. lia.
    + now destruct index.
  - split; [| split].
    + split; [| discriminate].
      destruct (nth_error (a :: l) index); discriminate.
    + intros Hi. apply nth_error_Some in Hi.
      now destruct (nth_error (a :: l) index).
    + intros Hi. apply nth_error_None in Hi. now rewrite Hi.
Qed.

Lemma selectedAccount_falls_back_witness :
  Component.selectedAccount (Fixtures.row [Sample.account_off_by (of_Z 0)]) 3
  = Some (Sample.account_off_by (of_Z 0)).
Proof.
  apply (proj2 (proj2 (selectedAccount_falls_back
                         (Fixtures.row [Sample.account_off_by (of_Z 0)]) 3))).
  simpl. lia.
Defined.

(** X5: a statement whose [accounts] are missing, [null] or empty is
    mapped to a row that shows as harmonized, with a difference of 0,
    whatever the selected index. *)
Theorem statement_without_accounts_is_harmonized
    (host : Host.t) (now : Z) (item : ADLSResponse.t) (pj : ParsedJson.t) (row : ReconciliationRow.t)
    (index : nat) :
  ADLSResponse.parsed_json item = Present pj ->
  ParsedJson.accounts pj = Absent \/ ParsedJson.accounts pj = IsNull
  \/ ParsedJson.accounts pj = Present [] ->
  mapADLSToReconciliationRow host now item = Return row ->
  Component.rowIsHarmonized row index = true
  /\ Component.difference row index = of_Z 0.
Proof.
  intros Hpj Hacc Hrow.
  destruct (mapper_returns host now _ _ Hpj) as [row' [Hrow' Haccounts]].
  rewrite Hrow in Hrow'. injection Hrow' as <-.
  assert (Hnil : ReconciliationRow.accounts row = []).
  { rewrite Haccounts. now destruct Hacc as [-> | [-> | ->]]. }
  unfold Component.rowIsHarmonized, Component.difference, Component.selectedAccount.
  rewrite Hnil. now destruct index.
Qed.

Lemma statement_without_accounts_is_harmonized_witness :
  exists row,
    mapADLSToReconciliationRow Sample.utc_host 1762138000000
      (Sample.item (Present (Sample.statement (Num (of_Z 8)) (Num (of_Z 2025)) (Present [])))
                   Absent)
    = Return row
    /\ Component.rowIsHarmonized row 2 = true
    /\ Component.difference row 2 = of_Z 0.
Proof.
  eexists. split; [reflexivity |].
  apply (statement_without_accounts_is_harmonized Sample.utc_host 1762138000000
           (Sample.item (Present (Sample.statement (Num (of_Z 8)) (Num (of_Z 2025))
                                                   (Present [])))
                        Absent)
           (Sample.statement (Num (of_Z 8)) (Num (of_Z 2025)) (Present [])) _ 2%nat).
  - reflexivity.
  - right. right. reflexivity.
  - reflexivity.
Defined.

(** X6: the difference a row shows is 0 whenever the account
    harmonizes, and is otherwise never closer to 0 than half a cent: it
    is 0, or its magnitude is not below 0.005. *)
Theorem difference_is_zero_or_half_a_cent (a : MappedAccount.t) :
  (isHarmonized (Some a) = true -> calculateDifference a = of_Z 0)
  /\ (calculateDifference a = of_Z 0
      \/ lt (Math.abs (calculateDifference a)) (Spec.literal 5 (-3)) = false).
Proof.
  unfold isHarmonized, calculateDifference.
  change (of_decimal false 5 (-3)) with (Spec.literal 5 (-3)).
  set (rounded := div (Math.round _) (of_Z 100)).
  destruct (lt (Math.abs rounded) (Spec.literal 5 (-3))) eqn:Hlt.
  - split; [reflexivity | now left].
  - split; [| now right].
    intros Heq. apply NumberFacts.strict_eq_zero_inv in Heq as [s Hs].
    rewrite Hs in Hlt. now vm_compute in Hlt.
Qed.

Lemma difference_is_zero_or_half_a_cent_witness :
  calculateDifference (Sample.account_off_by (Spec.literal 4 (-3))) = of_Z 0.
Proof.
  apply (proj1 (difference_is_zero_or_half_a_cent
                  (Sample.account_off_by (Spec.literal 4 (-3))))).
  vm_compute. reflexivity.
Defined.



(** ** Stripping the suffix of a file name *)

Lemma length_lower_string (s : string) :
  String.length (lower_string s) = String.length s.
Proof. induction s as [| c s IH]; cbn; congruence. Qed.

Lemma length_append (a b : string) :
  String.length (a ++ b) = (String.length a + String.length b)%nat.
Proof. induction a as [| c a IH]; cbn; congruence. Qed.

Lemma suffix_test_length (s : string) :
  String.eqb (lower_string s) "_parsing_result.json" = true -> String.length s = 20%nat.
Proof.
  intros H. apply String.eqb_eq in H.
  rewrite <- length_lower_string, H. reflexivity.
Qed.

Lemma strip_suffix (base suffix : string) :
  lower_string suffix = "_parsing_result.json" ->
  strip_parsing_result (base ++ suffix) = base.
Proof.
  intros Hs.
  assert (Hlen : String.length suffix = 20%nat).
  { rewrite <- length_lower_string, Hs. reflexivity. }
  induction base as [| c base IH].
  - cbn [append]. destruct suffix as [| d suffix]; [discriminate |].
    cbn [strip_parsing_result]. now rewrite Hs.
  - cbn [append strip_parsing_result].
    destruct (String.eqb (lower_string (String c (base ++ suffix))) _) eqn:E.
    + apply suffix_test_length in E. cbn in E. rewrite length_append in E. lia.
    + now rewrite IH.
Qed.

(** X8: the displayed file name is the name without its suffix
    [_parsing_result.json], in whatever letter case the suffix is
    written; a name that does not end in the suffix is displayed as it
    is. *)
Theorem display_filename_strips_the_suffix :
  (forall base suffix,
     lower_string suffix = "_parsing_result.json" ->
     strip_parsing_result (base ++ suffix) = base)
  /\ (forall name,
        (forall base suffix,
           name = base ++ suffix -> lower_string suffix <> "_parsing_result.json") ->
        strip_parsing_result name = name).
Proof.
  split; [exact strip_suffix |].
  induction name as [| c s IH]; intros H.
  - reflexivity.
  - cbn [strip_parsing_result].
    destruct (String.eqb_spec (lower_string (String c s)) "_parsing_result.json") as [E | _].
    + exfalso. exact (H "" (String c s) eq_refl E).
    + f_equal. apply IH. intros base suffix -> . apply (H (String c base)). reflexivity.
Qed.

Lemma display_filename_strips_the_suffix_witness :
  strip_parsing_result ("chase_aug" ++ "_Parsing_Result.JSON") = "chase_aug".
Proof.
  apply (proj1 display_filename_strips_the_suffix "chase_aug" "_Parsing_Result.JSON").
  reflexivity.
Defined.

(** ** Digits with thousands separators *)

Lemma digit_is_no_sign (c : ascii) (r : string) :
  is_digit c = true -> read_sign (String c r) = (false, String c r).
Proof.
  destruct c as [[] [] [] [] [] [] [] []]; cbn; try discriminate; reflexivity.
Qed.

Lemma digit_is_no_space (c : ascii) : is_digit c = true -> is_white_space c = false.
Proof. destruct c as [[] [] [] [] [] [] [] []]; cbn; try discriminate; reflexivity. Qed.

Lemma comma_is_no_space : is_white_space "," = false.
Proof. reflexivity. Qed.

Lemma span_all_digits (s : string) :
  Shape.all_chars is_digit s = true -> span_digits s = (s, "").
Proof.
  induction s as [| c s IH]; cbn; [reflexivity |].
  intros H. apply andb_prop in H as [Hc Hs]. now rewrite Hc, IH.
Qed.

Lemma digits_value_from_nonneg (s : string) :
  Shape.all_chars is_digit s = true -> forall acc, 0 <= acc -> 0 <= digits_value_from acc s.
Proof.
  induction s as [| c s IH]; cbn [Shape.all_chars digits_value_from];
    intros H acc Hacc; [exact Hacc |].
  apply andb_prop in H as [Hc Hs]. apply IH; [exact Hs |].
  unfold digit_value. unfold is_digit in Hc. cbv zeta in Hc.
  apply andb_prop in Hc as [Hlo _]. apply N.leb_le in Hlo.
  apply N2Z.inj_le in Hlo. change (Z.of_N 48) with 48 in Hlo. lia.
Qed.

Lemma trim_end_no_space (s : string) :
  Shape.all_chars (fun c => negb (is_white_space c)) s = true -> trim_end s = s.
Proof.
  induction s as [| c s IH]; cbn; [reflexivity |].
  intros H. apply andb_prop in H as [Hc Hs]. rewrite (IH Hs).
  apply negb_true_iff in Hc. rewrite Hc. now destruct s.
Qed.

Lemma trim_no_space (s : string) :
  Shape.all_chars (fun c => negb (is_white_space c)) s = true -> trim s = s.
Proof.
  intros H. unfold trim.
  assert (Hstart : trim_start s = s).
  { destruct s as [| c s]; [reflexivity |]. cbn in *.
    apply andb_prop in H as [Hc _]. apply negb_true_iff in Hc. now rewrite Hc. }
  rewrite Hstart. now apply trim_end_no_space.
Qed.

Lemma all_chars_weaken (P Q : ascii -> bool) (s : string) :
  (forall c, P c = true -> Q c = true) ->
  Shape.all_chars P s = true -> Shape.all_chars Q s = true.
Proof.
  intros HPQ. induction s as [| c s IH]; cbn; [reflexivity |].
  intros H. apply andb_prop in H as [Hc Hs]. now rewrite (HPQ _ Hc), IH.
Qed.

Lemma remove_commas_digits (s : string) :
  Shape.all_chars (fun c => is_digit c || Ascii.eqb c ",") s = true ->
  Shape.all_chars is_digit (remove_char "," s) = true.
Proof.
  induction s as [| c s IH]; cbn [Shape.all_chars remove_char]; [reflexivity |].
  intros H. apply andb_prop in H as [Hc Hs].
  destruct (Ascii.eqb_spec "," c) as [<- | Hne]; [now apply IH |].
  cbn [Shape.all_chars]. rewrite (IH Hs), andb_true_r.
  apply orb_prop in Hc as [Hc | Hc]; [exact Hc |].
  apply Ascii.eqb_eq in Hc. congruence.
Qed.

Lemma parseInt10_digits (ds : string) :
  ds <> "" -> Shape.all_chars is_digit ds = true ->
  parseInt10 ds = of_Z (digits_value ds).
Proof.
  intros Hne Hd. destruct ds as [| c r]; [contradiction |].
  unfold parseInt10.
  assert (Hc : is_digit c = true) by (cbn in Hd; now apply andb_prop in Hd as [? _]).
  cbn [trim_start]. rewrite (digit_is_no_space c Hc), (digit_is_no_sign c r Hc).
  rewrite (span_all_digits _ Hd).
  pose proof (digits_value_from_nonneg _ Hd 0 ltac:(lia)) as Hnn.
  fold (digits_value (String c r)) in Hnn.
  destruct (digits_value (String c r)) as [| p | p]; try lia; reflexivity.
Qed.

Lemma digit_starts_no_Infinity (c : ascii) (r : string) :
  is_digit c = true -> strip_prefix "Infinity" (String c r) = None.
Proof.
  destruct c as [[] [] [] [] [] [] [] []]; cbn; try discriminate; reflexivity.
Qed.

Lemma parseFloat_digits (ds : string) :
  ds <> "" -> Shape.all_chars is_digit ds = true ->
  parseFloat ds = of_Z (digits_value ds).
Proof.
  intros Hne Hd. destruct ds as [| c r]; [contradiction |].
  unfold parseFloat.
  assert (Hc : is_digit c = true) by (cbn in Hd; now apply andb_prop in Hd as [? _]).
  cbn [trim_start]. rewrite (digit_is_no_space c Hc), (digit_is_no_sign c r Hc).
  rewrite (digit_starts_no_Infinity c r Hc), (span_all_digits _ Hd).
  rewrite TextFacts.append_nil_r.
  pose proof (digits_value_from_nonneg _ Hd 0 ltac:(lia)) as Hnn.
  fold (digits_value (String c r)) in Hnn.
  cbn [read_exponent String.length Z.of_nat Z.sub Z.opp].
  destruct (digits_value (String c r)) as [| p | p]; try lia; [reflexivity |].
  cbn [decimal_number]. now rewrite NumberFacts.of_decimal_integer, Z.pow_0_r, Z.mul_1_r by lia.
Qed.

Lemma grouped_digits_trimmed (s : string) :
  Shape.grouped_digits s ->
  trim s = s
  /\ Shape.all_chars is_digit (remove_char "," s) = true
  /\ 0 <= digits_value (remove_char "," s).
Proof.
  intros [Hall Hne]. split; [| split].
  - apply trim_no_space. revert Hall. apply all_chars_weaken.
    intros c Hc. apply orb_prop in Hc as [Hc | Hc].
    + now rewrite (digit_is_no_space c Hc).
    + apply Ascii.eqb_eq in Hc. now subst c.
  - now apply remove_commas_digits.
  - apply digits_value_from_nonneg; [now apply remove_commas_digits | lia].
Qed.

Lemma safeParseInt_grouped (s : string) :
  Shape.grouped_digits s ->
  safeParseInt (Str s) = of_Z (digits_value (remove_char "," s)).
Proof.
  intros Hg. destruct (grouped_digits_trimmed s Hg) as (Htrim & Hd & _).
  unfold safeParseInt. rewrite Htrim, (parseInt10_digits _ (proj2 Hg) Hd).
  assert (HnN : isNaN (of_Z (digits_value (remove_char "," s))) = false)
    by apply NumberFacts.binary_normalize_not_NaN.
  now rewrite HnN.
Qed.

Lemma safeParseFloat_grouped (s : string) :
  Shape.grouped_digits s ->
  safeParseFloat (Str s) = of_Z (digits_value (remove_char "," s)).
Proof.
  intros Hg. destruct (grouped_digits_trimmed s Hg) as (Htrim & Hd & _).
  unfold safeParseFloat. rewrite Htrim, (parseFloat_digits _ (proj2 Hg) Hd).
  assert (HnN : isNaN (of_Z (digits_value (remove_char "," s))) = false)
    by apply NumberFacts.binary_normalize_not_NaN.
  now rewrite HnN.
Qed.

(** X10: text made of decimal digits and thousands separators, with at
    least one digit, is normalized to the integer its digits spell, by
    both normalizers. *)
Theorem grouped_digits_normalize (s : string) :
  Shape.grouped_digits s ->
  safeParseInt (Str s) = of_Z (digits_value (remove_char "," s))
  /\ safeParseFloat (Str s) = of_Z (digits_value (remove_char "," s)).
Proof.
  intros Hg. split; [now apply safeParseInt_grouped | now apply safeParseFloat_grouped].
Qed.

Lemma grouped_digits_normalize_witness :
  safeParseInt (Str "1,234,567") = of_Z 1234567
  /\ safeParseFloat (Str "1,234,567") = of_Z 1234567.
Proof.
  apply (grouped_digits_normalize "1,234,567").
  split; [reflexivity | vm_compute; discriminate].
Defined.


(** ** Normalizing twice *)

Lemma shr_fexp_exponent (m e : Z) (l : location) :
  e <= snd (shr_fexp prec emax m e l).
Proof.
  unfold shr_fexp, shr.
  destruct (fexp prec emax (Zdigits2 m + e) - e) as [| k | k]; cbn [snd]; lia.
Qed.

Lemma binary_round_aux_exponent (s : bool) (m e : Z) (l : location) :
  match binary_round_aux prec emax s m e l with
  | S754_finite _ _ e' => e <= e'
  | _ => True
  end.
Proof.
  unfold binary_round_aux.
  pose proof (shr_fexp_exponent m e l) as H1.
  destruct (shr_fexp prec emax m e l) as [mrs' e']. cbn [snd] in H1.
  pose proof (shr_fexp_exponent
                (round_nearest_even (shr_m mrs') (loc_of_shr_record mrs')) e' loc_Exact) as H2.
  destruct (shr_fexp prec emax _ e' loc_Exact) as [mrs'' e'']. cbn [snd] in H2.
  destruct (shr_m mrs''); try exact I.
  destruct (e'' <=? emax - prec); [lia | exact I].
Qed.

(** A rounded integer of more than 53 bits has a positive exponent. *)
Lemma binary_round_large (s : bool) (p : positive) :
  53 < Zpos (digits2_pos p) ->
  match binary_round prec emax s p 0 with
  | S754_finite _ _ e => 1 <= e
  | _ => True
  end.
Proof.
  intros Hd. unfold binary_round, shl_align, fexp, emin, prec, emax.
  replace (Z.max (Zpos (digits2_pos p) + 0 - 53) (3 - 1024 - 53) - 0)
    with (Zpos (digits2_pos p) - 53) by lia.
  destruct (Zpos (digits2_pos p) - 53) as [| k | k] eqn:Hk; try lia.
  unfold binary_round_aux.
  pose proof (shr_fexp_exponent
                (round_nearest_even
                   (shr_m (fst (shr_fexp 53 1024 (Zpos p) 0 loc_Exact)))
                   (loc_of_shr_record (fst (shr_fexp 53 1024 (Zpos p) 0 loc_Exact))))
                (snd (shr_fexp 53 1024 (Zpos p) 0 loc_Exact)) loc_Exact) as H2.
  assert (H1 : 1 <= snd (shr_fexp 53 1024 (Zpos p) 0 loc_Exact)).
  { unfold shr_fexp, shr, fexp, emin. cbn [Zdigits2].
    replace (Z.max (Zpos (digits2_pos p) + 0 - 53) (3 - 1024 - 53) - 0) with (Zpos k) by lia.
    cbn [snd]. lia. }
  destruct (shr_fexp 53 1024 (Zpos p) 0 loc_Exact) as [mrs' e']. cbn [fst snd] in *.
  unfold prec, emax in H2.
  destruct (shr_fexp 53 1024 _ e' loc_Exact) as [mrs'' e'']. cbn [snd] in H2.
  destruct (shr_m mrs''); try exact I.
  destruct (e'' <=? 1024 - 53); [lia | exact I].
Qed.

Lemma floor_of_rounded_integer (s : bool) (p : positive) :
  Math.floor (binary_round prec emax s p 0) = binary_round prec emax s p 0.
Proof.
  destruct (Z.le_gt_cases (Zpos (digits2_pos p)) 53) as [Hle | Hgt].
  - destruct (NumberFacts.binary_round_exact s p Hle) as (m & e & Hr & Hm & He).
    rewrite Hr. cbn [Math.floor].
    destruct (Z.leb_spec 0 e) as [_ | Hneg]; [reflexivity |].
    assert (Hfl : floor_finite s m e = cond_Zopp s (Zpos p)).
    { unfold floor_finite.
      rewrite <- (Z.opp_involutive e), Z.shiftl_opp_r, Z.shiftr_div_pow2 by lia.
      assert (0 < 2 ^ (- e)) by (apply Z.pow_pos_nonneg; lia).
      destruct s; cbn [cond_Zopp].
      - rewrite Hm, <- Z.mul_opp_l, Z.div_mul by lia. reflexivity.
      - rewrite Hm, Z.div_mul by lia. reflexivity. }
    rewrite Hfl, <- Hr. now destruct s.
  - pose proof (binary_round_large s p ltac:(lia)) as H.
    destruct (binary_round prec emax s p 0) as [ | | | s' m e]; try reflexivity.
    cbn [Math.floor]. destruct (Z.leb_spec 0 e); [reflexivity | lia].
Qed.

Lemma floor_idempotent (x : number) : Math.floor (Math.floor x) = Math.floor x.
Proof.
  destruct x as [s | s | | s m e]; try reflexivity.
  cbn [Math.floor]. destruct (Z.leb_spec 0 e) as [Hpos | Hneg].
  - cbn [Math.floor]. destruct (Z.leb_spec 0 e); [reflexivity | lia].
  - destruct (floor_finite s m e) as [| p | p]; cbn [binary_normalize];
      [reflexivity | |]; apply floor_of_rounded_integer.
Qed.

Lemma floor_of_parseInt10 (s : string) : Math.floor (parseInt10 s) = parseInt10 s.
Proof.
  unfold parseInt10.
  destruct (read_sign (trim_start s)) as [neg r].
  destruct (span_digits r) as [ds rest].
  destruct ds; [reflexivity |].
  destruct (digits_value _) as [| p | p]; try reflexivity.
  apply floor_of_rounded_integer.
Qed.

Lemma floor_of_safeParseInt (v : value) : Math.floor (safeParseInt v) = safeParseInt v.
Proof.
  destruct v as [ | | x | s]; try reflexivity.
  - cbn [safeParseInt]. destruct (isNaN x); [reflexivity | apply floor_idempotent].
  - unfold safeParseInt.
    destruct (isNaN (parseInt10 _)); [reflexivity | apply floor_of_parseInt10].
Qed.

(** X7: normalizing a normalized value changes nothing: both
    normalizers are idempotent, and the floating normalizer leaves the
    result of the integer one as it is. *)
Theorem normalizers_are_idempotent (v : value) :
  safeParseInt (Num (safeParseInt v)) = safeParseInt v
  /\ safeParseFloat (Num (safeParseFloat v)) = safeParseFloat v
  /\ safeParseFloat (Num (safeParseInt v)) = safeParseInt v.
Proof.
  pose proof (safeParseInt_not_NaN v) as Hi.
  pose proof (safeParseFloat_not_NaN v) as Hf.
  split; [| split].
  - change (safeParseInt (Num (safeParseInt v)))
      with (if isNaN (safeParseInt v) then of_Z 0 else Math.floor (safeParseInt v)).
    rewrite Hi. apply floor_of_safeParseInt.
  - change (safeParseFloat (Num (safeParseFloat v)))
      with (if isNaN (safeParseFloat v) then of_Z 0 else safeParseFloat v).
    now rewrite Hf.
  - change (safeParseFloat (Num (safeParseInt v)))
      with (if isNaN (safeParseInt v) then of_Z 0 else safeParseInt v).
    now rewrite Hi.
Qed.

(** ** The period label *)

Lemma of_Z_truthy (n : Z) : 1 <= n < 2 ^ 53 -> number_truthy (of_Z n) = true.
Proof.
  intros Hn. destruct n as [| p | p]; try lia.
  destruct (NumberFacts.of_Z_exact p ltac:(lia)) as (m & e & -> & _). reflexivity.
Qed.

Lemma month_label (n : nat) :
  (n < 12)%nat ->
  getMonthAbbreviation (Num (of_Z (Z.of_nat (S n)))) = Text (nth n Spec.abbreviations "")
  /\ forall rest,
       replace_first_space (nth n Spec.abbreviations "" ++ " " ++ rest)
       = nth n Spec.abbreviations "" ++ "_" ++ rest.
Proof.
  intros Hn. do 12 (destruct n as [| n]; [split; [now vm_compute | reflexivity] |]). lia.
Qed.

(** X9: for a month from 1 to 12 and a four-digit year, given as
    numbers, the row's [month_year] is the month's abbreviation, a space
    and the year, and its [document_name] is
    [Statement_<ABBR>_<year>.pdf]. *)
Theorem period_label (host : Host.t) (now : Z) (item : ADLSResponse.t) (pj : ParsedJson.t)
    (row : ReconciliationRow.t) (month year : Z) :
  ADLSResponse.parsed_json item = Present pj ->
  mapADLSToReconciliationRow host now item = Return row ->
  1 <= month <= 12 -> ParsedJson.statement_month pj = Num (of_Z month) ->
  1000 <= year <= 9999 -> ParsedJson.statement_year pj = Num (of_Z year) ->
  ReconciliationRow.month_year row
  = nth (Z.to_nat (month - 1)) Spec.abbreviations "" ++ " " ++ string_of_Z year
  /\ ReconciliationRow.document_name row
     = "Statement_" ++ nth (Z.to_nat (month - 1)) Spec.abbreviations "" ++ "_"
       ++ string_of_Z year ++ ".pdf".
Proof.
  intros Hpj Hrow Hm Hmonth Hy Hyear.
  unfold mapADLSToReconciliationRow in Hrow. rewrite Hpj in Hrow.
  injection Hrow as <-. cbn [ReconciliationRow.month_year ReconciliationRow.document_name].
  rewrite Hmonth, Hyear. unfold value_or. cbn [truthy].
  assert (H53 : 2 ^ 53 = 9007199254740992) by reflexivity.
  assert (H52 : 2 ^ 52 = 4503599627370496) by reflexivity.
  rewrite !of_Z_truthy by lia. cbn [to_String].
  rewrite TextFacts.number_to_string_of_Z by lia.
  remember (Z.to_nat (month - 1)) as k eqn:Hk.
  assert (Hk12 : (k < 12)%nat) by lia.
  replace (of_Z month) with (of_Z (Z.of_nat (S k))) by (f_equal; lia).
  destruct (month_label k Hk12) as [-> Hrep]. cbn [shown].
  split; [reflexivity |].
  transitivity ("Statement_"
                ++ replace_first_space (nth k Spec.abbreviations "" ++ " " ++ string_of_Z year)
                ++ ".pdf"); [reflexivity |].
  now rewrite Hrep, !TextFacts.append_assoc.
Qed.

Lemma period_label_witness :
  exists row,
    mapADLSToReconciliationRow Sample.utc_host 1762138000000
      (Sample.item (Present (Sample.statement_of 2 2024)) Absent) = Return row
    /\ ReconciliationRow.month_year row = "FEB 2024"
    /\ ReconciliationRow.document_name row = "Statement_FEB_2024.pdf".
Proof.
  eexists. split; [reflexivity |].
  apply (period_label Sample.utc_host 1762138000000
           (Sample.item (Present (Sample.statement_of 2 2024)) Absent)
           (Sample.statement_of 2 2024) _ 2 2024).
  - reflexivity.
  - reflexivity.
  - lia.
  - reflexivity.
  - lia.
  - reflexivity.
Defined.

(** ** Printed integers read back *)

Lemma string_of_uint_digits (u : Decimal.uint) :
  Shape.all_chars is_digit (NilEmpty.string_of_uint u) = true.
Proof. induction u; cbn; auto. Qed.

Lemma digits_value_of_uint (u : Decimal.uint) (acc : Z) :
  digits_value_from acc (NilEmpty.string_of_uint u) = Shape.uint_value acc u.
Proof.
  revert acc.
  induction u; intros acc;
    cbn [NilEmpty.string_of_uint digits_value_from Shape.uint_value];
    try reflexivity; rewrite IHu; reflexivity.
Qed.

Lemma uint_value_acc (u : Decimal.uint) (acc : positive) :
  Shape.uint_value (Zpos acc) u = Zpos (Pos.of_uint_acc u acc).
Proof.
  revert acc. induction u; intros acc; cbn [Shape.uint_value Pos.of_uint_acc];
    try reflexivity; rewrite <- IHu; f_equal; lia.
Qed.

Lemma uint_value_of_uint (u : Decimal.uint) :
  Shape.uint_value 0 u = Z.of_N (Pos.of_uint u).
Proof.
  induction u; cbn [Shape.uint_value Pos.of_uint Z.of_N]; try reflexivity;
    try (exact IHu); rewrite <- uint_value_acc; reflexivity.
Qed.

Lemma digits_value_string_of_pos (p : positive) :
  digits_value (string_of_pos p) = Zpos p.
Proof.
  unfold digits_value, string_of_pos.
  rewrite digits_value_of_uint, uint_value_of_uint, DecimalPos.Unsigned.of_to.
  reflexivity.
Qed.

Lemma remove_char_digits (s : string) :
  Shape.all_chars is_digit s = true -> remove_char "," s = s.
Proof.
  induction s as [| c s IH]; cbn [Shape.all_chars remove_char]; [reflexivity |].
  intros H. apply andb_prop in H as [Hc Hs].
  destruct (Ascii.eqb_spec "," c) as [<- | _]; [discriminate | now rewrite IH].
Qed.

Lemma string_of_pos_grouped (p : positive) :
  Shape.grouped_digits (string_of_pos p)
  /\ digits_value (remove_char "," (string_of_pos p)) = Zpos p.
Proof.
  pose proof (string_of_uint_digits (Pos.to_uint p)) as Hd.
  fold (string_of_pos p) in Hd.
  rewrite (remove_char_digits _ Hd), digits_value_string_of_pos.
  split; [| reflexivity]. split.
  - revert Hd. apply all_chars_weaken. intros c Hc. now rewrite Hc.
  - rewrite (remove_char_digits _ Hd). intros H.
    pose proof (digits_value_string_of_pos p) as Hv. rewrite H in Hv. discriminate.
Qed.

(** X11: an integer from 0 below 2^52, printed the way JavaScript prints
    numbers, is read back by both normalizers as the same number. *)
Theorem printed_integers_read_back (n : Z) :
  0 <= n < 2 ^ 52 ->
  safeParseFloat (Str (number_to_string (of_Z n))) = of_Z n
  /\ safeParseInt (Str (number_to_string (of_Z n))) = of_Z n.
Proof.
  intros Hn. destruct n as [| p | p]; try lia; [now vm_compute |].
  rewrite TextFacts.number_to_string_integer by lia.
  destruct (string_of_pos_grouped p) as [Hg Hv].
  rewrite (safeParseFloat_grouped _ Hg), (safeParseInt_grouped _ Hg), Hv.
  now split.
Qed.

Lemma printed_integers_read_back_witness :
  safeParseFloat (Str (number_to_string (of_Z 2025))) = of_Z 2025
  /\ safeParseInt (Str (number_to_string (of_Z 2025))) = of_Z 2025.
Proof.
  apply (printed_integers_read_back 2025).
  split; [lia | reflexivity].
Defined.

(** ** Transaction dates over the range of [Date] *)

(** Beyond the year 275760 a zone within a day of UTC has no instant
    left for the local midnight. *)
Lemma last_midnight_beyond (host : Host.t) (year month : Z) :
  275761 <= year -> 1 <= month <= 12 ->
  Spec.within_a_day host (Spec.last_midnight year month) ->
  8640000000000000 < Z.abs (Host.utc host (Spec.last_midnight year month)).
Proof.
  intros Hy Hm Hz. unfold Spec.within_a_day in Hz.
  pose proof (DateFacts.last_midnight_range year month ltac:(lia) Hm) as Hr.
  assert (Hf : Date.MakeFullYear year = year).
  { unfold Date.MakeFullYear.
    destruct (Z.leb_spec 0 year), (Z.leb_spec year 99); cbn [andb]; lia. }
  rewrite Hf in Hr.
  pose proof (DateFacts.DayFromYear_estimate year) as E0.
  unfold Date.msPerDay in *. lia.
Qed.

(** X12: the transaction dates over the whole range of [Date], not just
    for four-digit years.  For a month from 1 to 12 and a year from 1 to
    2^52, two-digit years included, the first date is [month/1/year]; the
    last is [month/lastday/year], [lastday] being the length of that
    month in the Gregorian calendar, wherever the host's zone keeps the
    local midnight of that day on its day, which a zone can do up to the
    year 275760.  From the year 275761 on the date is invalid in every
    zone within a day of UTC, and the last date reads [month/NaN/year]. *)
Theorem dates_over_the_range_of_Date
    (host : Host.t) (now : Z) (item : ADLSResponse.t) (pj : ParsedJson.t)
    (row : ReconciliationRow.t) (month year : Z) :
  ADLSResponse.parsed_json item = Present pj ->
  mapADLSToReconciliationRow host now item = Return row ->
  1 <= month <= 12 -> statementMonth pj = of_Z month ->
  1 <= year < 2 ^ 52 -> statementYear pj = of_Z year ->
  ReconciliationRow.first_transaction_date row
  = string_of_Z month ++ "/1/" ++ string_of_Z year
  /\ (Spec.keeps_the_day host (Spec.last_midnight year month) ->
      ReconciliationRow.last_transaction_date row
      = string_of_Z month ++ "/" ++ string_of_Z (Spec.days_in_month year month)
        ++ "/" ++ string_of_Z year)
  /\ (275761 <= year -> Spec.within_a_day host (Spec.last_midnight year month) ->
      ReconciliationRow.last_transaction_date row
      = string_of_Z month ++ "/NaN/" ++ string_of_Z year).
Proof.
  intros Hpj Hrow Hm Hmonth Hy Hyear.
  destruct (mapped_last_date host now item pj row month year Hpj Hrow Hm Hmonth Hy Hyear)
    as (Hfirst & Hlast & Hnone).
  split; [exact Hfirst |]. split; [exact Hlast |].
  intros Hbig Hz. apply Hnone. now apply last_midnight_beyond.
Qed.

Lemma dates_over_the_range_of_Date_witness :
  (exists row,
     mapADLSToReconciliationRow Sample.utc_host 1762138000000
       (Sample.item (Present (Sample.statement_of 2 96)) Absent) = Return row
     /\ ReconciliationRow.last_transaction_date row = "2/29/96")
  /\ (exists row,
        mapADLSToReconciliationRow Sample.utc_host 1762138000000
          (Sample.item (Present (Sample.statement_of 9 275761)) Absent) = Return row
        /\ ReconciliationRow.last_transaction_date row = "9/NaN/275761").
Proof.
  split.
  - eexists. split; [reflexivity |].
    apply (proj1 (proj2 (dates_over_the_range_of_Date Sample.utc_host 1762138000000
             (Sample.item (Present (Sample.statement_of 2 96)) Absent)
             (Sample.statement_of 2 96) _ 2 96
             eq_refl eq_refl ltac:(lia) ltac:(vm_compute; reflexivity)
             ltac:(split; [lia | reflexivity])
             ltac:(vm_compute; reflexivity)))).
    split; [vm_compute; discriminate | reflexivity].
  - eexists. split; [reflexivity |].
    apply (proj2 (proj2 (dates_over_the_range_of_Date Sample.utc_host 1762138000000
             (Sample.item (Present (Sample.statement_of 9 275761)) Absent)
             (Sample.statement_of 9 275761) _ 9 275761
             eq_refl eq_refl ltac:(lia) ltac:(vm_compute; reflexivity)
             ltac:(split; [lia | reflexivity])
             ltac:(vm_compute; reflexivity)))).
    + lia.
    + vm_compute. discriminate.
Defined.

Local Close Scope Z_scope.


(** ** Splitting text *)

Lemma split_not_nil (sep : ascii) (s : string) : Text.split sep s <> [].
Proof.
  induction s as [| c s IH]; cbn; [discriminate |].
  destruct (Ascii.eqb c sep); [discriminate |].
  destruct (Text.split sep s); discriminate.
Qed.

Lemma split_free (sep : ascii) (w : string) :
  Shape.free_of sep w -> Text.split sep w = [w].
Proof.
  unfold Shape.free_of. induction w as [| c w IH]; cbn; [reflexivity |].
  intros H. apply andb_prop in H as [Hc Hw]. apply negb_true_iff in Hc.
  now rewrite Hc, (IH Hw).
Qed.

Lemma split_word (sep : ascii) (w r : string) :
  Shape.free_of sep w -> Text.split sep (w ++ String sep r) = w :: Text.split sep r.
Proof.
  unfold Shape.free_of. induction w as [| c w IH]; cbn [append Shape.all_chars Text.split].
  - intros _. now rewrite Ascii.eqb_refl.
  - intros H. apply andb_prop in H as [Hc Hw]. apply negb_true_iff in Hc.
    now rewrite Hc, (IH Hw).
Qed.

Lemma split_parts_free (sep : ascii) (s : string) :
  Forall (Shape.free_of sep) (Text.split sep s).
Proof.
  induction s as [| c s IH]; cbn [Text.split].
  - now repeat constructor.
  - destruct (Ascii.eqb c sep) eqn:E.
    + constructor; [reflexivity | exact IH].
    + destruct (Text.split sep s) as [| w ws];
        [constructor; [unfold Shape.free_of; cbn; now rewrite E | constructor] |].
      inversion IH as [| ? ? Hw Hws]; subst. constructor; [| exact Hws].
      unfold Shape.free_of in *. cbn. now rewrite E, Hw.
Qed.

Lemma split_single_inv (sep : ascii) (s w : string) :
  Text.split sep s = [w] -> w = s /\ Shape.free_of sep s.
Proof.
  revert w. induction s as [| c s IH]; cbn [Text.split]; intros w.
  - intros [= <-]. now split.
  - destruct (Ascii.eqb c sep) eqn:E.
    + intros [= _ H]. now apply split_not_nil in H.
    + destruct (Text.split sep s) as [| w' ws] eqn:Es; [now apply split_not_nil in Es |].
      intros [= <- ->]. destruct (IH w' eq_refl) as [-> Hf].
      split; [reflexivity |]. unfold Shape.free_of in *. cbn. now rewrite E, Hf.
Qed.

Lemma take_drop (n : nat) (s : string) : take n s ++ drop n s = s.
Proof.
  revert s. induction n as [| n IH]; intros [| c s]; cbn; try reflexivity.
  now rewrite IH.
Qed.

Lemma length_take (n : nat) (s : string) :
  (n <= String.length s)%nat -> String.length (take n s) = n.
Proof.
  revert s. induction n as [| n IH]; intros [| c s]; cbn; try lia.
  intros H. rewrite IH; lia.
Qed.

Lemma length_drop (n : nat) (s : string) :
  String.length (drop n s) = (String.length s - n)%nat.
Proof.
  revert s. induction n as [| n IH]; intros [| c s]; cbn; try lia. apply IH.
Qed.

Lemma free_take (c : ascii) (n : nat) (s : string) :
  Shape.free_of c s -> Shape.free_of c (take n s).
Proof.
  unfold Shape.free_of. revert s. induction n as [| n IH]; intros [| d s]; cbn; auto.
  intros H. apply andb_prop in H as [Hd Hs]. now rewrite Hd, IH.
Qed.

Lemma free_drop (c : ascii) (n : nat) (s : string) :
  Shape.free_of c s -> Shape.free_of c (drop n s).
Proof.
  unfold Shape.free_of. revert s. induction n as [| n IH]; intros [| d s]; cbn; auto.
  intros H. apply andb_prop in H as [Hd Hs]. now apply IH.
Qed.

Lemma div2_succ_bounds (n : nat) :
  (Nat.div2 (S n) <= n \/ n = 0)%nat /\ (Nat.div2 (S n) + Nat.div2 n = n)%nat.
Proof.
  rewrite !Nat.div2_div.
  pose proof (Nat.div_mod_eq (S n) 2). pose proof (Nat.div_mod_eq n 2).
  pose proof (Nat.mod_upper_bound (S n) 2). pose proof (Nat.mod_upper_bound n 2).
  assert (Hs : (S n mod 2 + n mod 2 = 1)%nat).
  { replace (S n) with (1 + n)%nat by lia.
    rewrite <- Nat.Div0.add_mod_idemp_r.
    destruct (n mod 2)%nat as [| [| k]] eqn:E; cbn; lia. }
  lia.
Qed.

(** X13: the bank name is shown in one or two parts, none of which
    holds a space; it is shown in one part exactly when it is a single
    word of at most 4 characters. *)
Theorem bank_name_parts (bankName : string) :
  (List.length (Component.getBankNameFirstTwoWords bankName) = 1%nat
   \/ List.length (Component.getBankNameFirstTwoWords bankName) = 2%nat)
  /\ Forall (Shape.free_of " ") (Component.getBankNameFirstTwoWords bankName)
  /\ (List.length (Component.getBankNameFirstTwoWords bankName) = 1%nat
      <-> Shape.free_of " " bankName /\ (String.length bankName <= 4)%nat).
Proof.
  unfold Component.getBankNameFirstTwoWords.
  pose proof (split_parts_free " " bankName) as Hfree.
  pose proof (split_not_nil " " bankName) as Hnil.
  destruct (Text.split " " bankName) as [| w [| w2 ws]] eqn:Es; [contradiction | |].
  - destruct (split_single_inv _ _ _ Es) as [-> Hf].
    cbn [List.length Nat.leb Nat.eqb nth].
    destruct (Nat.leb_spec (String.length bankName) 4) as [Hle | Hgt].
    + split; [now left |]. split; [exact Hfree |]. split; [now split | reflexivity].
    + split; [now right |]. split.
      * repeat constructor; [now apply free_take | now apply free_drop].
      * cbn. split; [discriminate | intros [_ H]; lia].
  - cbn [List.length Nat.leb firstn]. split; [now right |]. split.
    + inversion Hfree as [| ? ? H1 H']; subst. inversion H' as [| ? ? H2 _]; subst.
      now repeat constructor.
    + split; [discriminate |]. intros [Hf _].
      rewrite (split_free _ _ Hf) in Es. discriminate.
Qed.

Lemma bank_name_parts_witness :
  List.length (Component.getBankNameFirstTwoWords "BMO") = 1%nat.
Proof.
  apply (proj2 (proj2 (proj2 (bank_name_parts "BMO")))).
  split; [reflexivity | simpl; lia].
Defined.

(** X14: a single word is split without loss: its parts put together
    give the word again, and a word of more than 4 characters is cut into
    a first part of half its length, rounded up, and a second part with
    the rest.  A name of several words is shown by its first two
    words. *)
Theorem bank_name_split :
  (forall word,
     Shape.free_of " " word ->
     String.concat "" (Component.getBankNameFirstTwoWords word) = word
     /\ ((4 < String.length word)%nat ->
         exists first second,
           Component.getBankNameFirstTwoWords word = [first; second]
           /\ String.length first = Nat.div2 (S (String.length word))
           /\ String.length second = Nat.div2 (String.length word)))
  /\ (forall first second rest,
        Shape.free_of " " first -> Shape.free_of " " second ->
        rest = "" \/ (exists more, rest = String " " more) ->
        Component.getBankNameFirstTwoWords (first ++ " " ++ second ++ rest)
        = [first; second]).
Proof.
  split.
  - intros word Hf. unfold Component.getBankNameFirstTwoWords.
    rewrite (split_free _ _ Hf). cbn [List.length Nat.leb Nat.eqb nth].
    destruct (div2_succ_bounds (String.length word)) as [Hb Hsum].
    destruct (Nat.leb_spec (String.length word) 4) as [Hle | Hgt].
    + split; [reflexivity | lia].
    + split.
      * cbn [String.concat]. apply take_drop.
      * intros _. eexists. eexists. split; [reflexivity |].
        rewrite length_take by lia. split; [reflexivity |].
        rewrite length_drop. lia.
  - intros first second rest Hf Hs Hrest. unfold Component.getBankNameFirstTwoWords.
    change (first ++ " " ++ second ++ rest) with (first ++ String " " (second ++ rest)).
    rewrite (split_word _ _ _ Hf).
    destruct Hrest as [-> | [more ->]].
    + rewrite TextFacts.append_nil_r, (split_free _ _ Hs). reflexivity.
    + rewrite (split_word _ _ _ Hs).
      pose proof (split_not_nil " " more) as Hn.
      destruct (Text.split " " more); [contradiction | reflexivity].
Qed.

Lemma bank_name_split_witness :
  Component.getBankNameFirstTwoWords ("Wells" ++ " " ++ "Fargo" ++ " Bank")
  = ["Wells"; "Fargo"].
Proof.
  apply (proj2 bank_name_split "Wells" "Fargo" " Bank").
  - reflexivity.
  - reflexivity.
  - right. exists "Bank". reflexivity.
Defined.


(** ** Matching [Case<digits>] *)

Lemma span_digits_spec (s : string) :
  Shape.all_chars is_digit (fst (span_digits s)) = true
  /\ s = fst (span_digits s) ++ snd (span_digits s)
  /\ Shape.no_digit_ahead (snd (span_digits s)).
Proof.
  induction s as [| c s IH]; cbn [span_digits].
  - now repeat split.
  - destruct (is_digit c) eqn:Hc.
    + destruct (span_digits s) as [ds rest]. cbn [fst snd] in *.
      destruct IH as (Hd & Hs & Hr). cbn. rewrite Hc, Hd.
      repeat split; [now f_equal | exact Hr].
    + cbn. repeat split. exact Hc.
Qed.

Lemma span_digits_app (ds rest : string) :
  Shape.all_chars is_digit ds = true -> Shape.no_digit_ahead rest ->
  span_digits (ds ++ rest) = (ds, rest).
Proof.
  intros Hd Hr. induction ds as [| c ds IH]; cbn [append].
  - destruct rest as [| c r]; [reflexivity |]. cbn in *. now rewrite Hr.
  - cbn in Hd. apply andb_prop in Hd as [Hc Hd]. cbn [span_digits].
    now rewrite Hc, (IH Hd).
Qed.

Lemma match_Case_here_sound (ignoreCase : bool) (s whole ds : string) :
  Text.match_Case_here ignoreCase s = Some (whole, ds) ->
  Shape.digits ds
  /\ exists letters rest,
       String.length letters = 4%nat
       /\ (if ignoreCase then lower_string letters = "case" else letters = "Case")
       /\ whole = letters ++ ds /\ s = whole ++ rest /\ Shape.no_digit_ahead rest.
Proof.
  unfold Text.match_Case_here.
  destruct s as [| c1 [| c2 [| c3 [| c4 r]]]]; try discriminate.
  destruct (Text.same_letter ignoreCase "C" c1) eqn:E1; [| discriminate].
  destruct (Text.same_letter ignoreCase "a" c2) eqn:E2; [| discriminate].
  destruct (Text.same_letter ignoreCase "s" c3) eqn:E3; [| discriminate].
  destruct (Text.same_letter ignoreCase "e" c4) eqn:E4; [| discriminate].
  cbn [andb].
  destruct (span_digits_spec r) as (Hd & Hr & Hn).
  destruct (span_digits r) as [[| d ds'] rest] eqn:Esp; [discriminate |].
  cbn [fst snd] in *. intros [= <- <-].
  split; [split; [discriminate | exact Hd] |].
  exists (String c1 (String c2 (String c3 (String c4 "")))), rest.
  repeat split; auto.
  - unfold Text.same_letter in *. destruct ignoreCase.
    + apply Ascii.eqb_eq in E1, E2, E3, E4. cbn [lower_string].
      now rewrite <- E1, <- E2, <- E3, <- E4.
    + apply Ascii.eqb_eq in E1, E2, E3, E4. now subst.
  - cbn [append]. now rewrite Hr.
Qed.

Lemma match_Case_sound (ignoreCase : bool) (s whole ds : string) :
  Text.match_Case ignoreCase s = Some (whole, ds) ->
  Shape.digits ds
  /\ exists before letters rest,
       String.length letters = 4%nat
       /\ (if ignoreCase then lower_string letters = "case" else letters = "Case")
       /\ whole = letters ++ ds /\ s = before ++ whole ++ rest
       /\ Shape.no_digit_ahead rest.
Proof.
  induction s as [| c s IH]; cbn [Text.match_Case].
  - cbn. discriminate.
  - destruct (Text.match_Case_here ignoreCase (String c s)) as [[w d] |] eqn:E.
    + intros [= <- <-].
      destruct (match_Case_here_sound _ _ _ _ E) as (Hd & l & r & Hl & Hc & Hw & Hs & Hn).
      split; [exact Hd |]. exists "", l, r. repeat split; auto.
    + intros H. destruct (IH H) as (Hd & b & l & r & Hl & Hc & Hw & Hs & Hn).
      split; [exact Hd |]. exists (String c b), l, r. repeat split; auto.
      cbn [append]. now rewrite Hs.
Qed.

Lemma match_Case_here_found (ignoreCase : bool) (letters ds rest : string) :
  (if ignoreCase then lower_string letters = "case" else letters = "Case") ->
  Shape.digits ds -> Shape.no_digit_ahead rest ->
  Text.match_Case_here ignoreCase (letters ++ ds ++ rest) = Some (letters ++ ds, ds).
Proof.
  intros Hl [Hne Hd] Hr.
  assert (Hlen : exists c1 c2 c3 c4,
             letters = String c1 (String c2 (String c3 (String c4 "")))
             /\ Text.same_letter ignoreCase "C" c1 = true
             /\ Text.same_letter ignoreCase "a" c2 = true
             /\ Text.same_letter ignoreCase "s" c3 = true
             /\ Text.same_letter ignoreCase "e" c4 = true).
  { unfold Text.same_letter. destruct ignoreCase.
    - destruct letters as [| c1 [| c2 [| c3 [| c4 [| c5 l]]]]]; try discriminate.
      cbn in Hl. injection Hl as H1 H2 H3 H4.
      exists c1, c2, c3, c4. rewrite H1, H2, H3, H4. now repeat split.
    - subst letters. exists "C"%char, "a"%char, "s"%char, "e"%char. now repeat split. }
  destruct Hlen as (c1 & c2 & c3 & c4 & -> & E1 & E2 & E3 & E4).
  cbn [append Text.match_Case_here]. rewrite E1, E2, E3, E4. cbn [andb].
  rewrite (span_digits_app _ _ Hd Hr).
  destruct ds; [contradiction | reflexivity].
Qed.

(** ** The funding-transfer route *)

Lemma no_digit_no_match (ignoreCase : bool) (s : string) :
  Shape.all_chars (fun c => negb (is_digit c)) s = true ->
  Text.match_Case ignoreCase s = None.
Proof.
  induction s as [| c s IH]; intros H; [reflexivity |].
  cbn [Text.match_Case].
  destruct (Text.match_Case_here ignoreCase (String c s)) as [[w d] |] eqn:E.
  - exfalso.
    destruct (match_Case_here_sound _ _ _ _ E) as ([Hne Hd] & l & r & Hl & _ & Hw & Hs & _).
    rewrite Hw in Hs.
    assert (Hall : forall a b, Shape.all_chars (fun c => negb (is_digit c)) (a ++ b) = true ->
                          Shape.all_chars (fun c => negb (is_digit c)) b = true).
    { induction a; cbn; auto. intros b Hb. apply andb_prop in Hb as [_ Hb]. auto. }
    rewrite Hs in H. rewrite TextFacts.append_assoc in H.
    apply Hall in H. destruct d as [| dc d']; [contradiction |].
    cbn in H, Hd. apply andb_prop in H as [H _]. apply andb_prop in Hd as [Hd _].
    rewrite Hd in H. discriminate.
  - cbn in H. apply andb_prop in H as [_ H]. now apply IH.
Qed.

(** X16: the file the funding-transfer route reads is always named
    [Case<digits>.json], with a capital C whatever the letter case of the
    case id.  An id that starts with [case], in any letter case, followed
    by digits gives the file of those digits; an id without a digit is
    turned down. *)
Theorem funding_file_name :
  (forall caseId name,
     FundingTransfer.fileName caseId = Some name ->
     exists number, Shape.digits number /\ name = "Case" ++ number ++ ".json")
  /\ (forall letters number rest,
        lower_string letters = "case" -> Shape.digits number ->
        Shape.no_digit_ahead rest ->
        FundingTransfer.fileName (letters ++ number ++ rest)
        = Some ("Case" ++ number ++ ".json"))
  /\ (forall caseId,
        Shape.all_chars (fun c => negb (is_digit c)) caseId = true ->
        FundingTransfer.fileName caseId = None).
Proof.
  unfold FundingTransfer.fileName, FundingTransfer.caseNumber.
  split; [| split].
  - intros caseId name.
    destruct (Text.match_Case true caseId) as [[w d] |] eqn:E; [| discriminate].
    intros [= <-]. destruct (match_Case_sound _ _ _ _ E) as [Hd _]. now exists d.
  - intros letters number rest Hl Hn Hr.
    assert (Hhere := match_Case_here_found true letters number rest Hl Hn Hr).
    destruct (letters ++ number ++ rest) as [| c s] eqn:Es.
    + discriminate.
    + cbn [Text.match_Case]. now rewrite Hhere.
  - intros caseId H. now rewrite (no_digit_no_match true caseId H).
Qed.

Lemma funding_file_name_witness :
  FundingTransfer.fileName ("CASE" ++ "101" ++ "-a") = Some ("Case" ++ "101" ++ ".json").
Proof.
  apply (proj1 (proj2 funding_file_name) "CASE" "101" "-a").
  - reflexivity.
  - split; [discriminate | reflexivity].
  - reflexivity.
Defined.


(** ** The last segment of a path *)

Lemma last_cons_cons {A : Type} (a b : A) (l : list A) (d : A) :
  List.last (a :: b :: l) d = List.last (b :: l) d.
Proof. reflexivity. Qed.

Lemma last_split_free (sep : ascii) (s : string) :
  Shape.free_of sep (List.last (Text.split sep s) "").
Proof.
  pose proof (split_parts_free sep s) as H.
  pose proof (split_not_nil sep s) as Hn.
  induction H as [| w ws Hw Hws IH]; [contradiction |].
  destruct ws as [| w' ws']; [exact Hw |].
  rewrite last_cons_cons. apply IH. discriminate.
Qed.

(** The last segment after a parent path. *)
Lemma last_split_after (sep : ascii) (parent name : string) :
  Shape.free_of sep name ->
  List.last (Text.split sep (parent ++ String sep name)) "" = name.
Proof.
  intros Hf. induction parent as [| c parent IH]; cbn [append Text.split].
  - rewrite Ascii.eqb_refl, (split_free _ _ Hf). reflexivity.
  - pose proof (split_not_nil sep (parent ++ String sep name)) as Hn.
    destruct (Ascii.eqb c sep).
    + destruct (Text.split sep (parent ++ String sep name)) as [| w ws]; [contradiction |].
      rewrite last_cons_cons. exact IH.
    + destruct (Text.split sep (parent ++ String sep name)) as [| w ws] eqn:E;
        [contradiction |].
      destruct ws as [| w' ws'].
      * (* the remainder has a separator, so more than one part *)
        exfalso. apply split_single_inv in E as [_ Hfree].
        unfold Shape.free_of in Hfree.
        clear - Hfree. induction parent as [| d parent IH]; cbn in Hfree.
        -- now rewrite Ascii.eqb_refl in Hfree.
        -- apply andb_prop in Hfree as [_ H]. auto.
      * rewrite !last_cons_cons in *. exact IH.
Qed.

(** ** [/api/fetch-bsi-analysis] *)

Lemma digits_free_of (c : ascii) (s : string) :
  is_digit c = false -> Shape.all_chars is_digit s = true -> Shape.free_of c s.
Proof.
  intros Hc. unfold Shape.free_of. induction s as [| d s IH]; cbn; [reflexivity |].
  intros H. apply andb_prop in H as [Hd Hs]. rewrite (IH Hs), andb_true_r.
  apply negb_true_iff. destruct (Ascii.eqb_spec d c) as [-> | _]; congruence.
Qed.

Lemma free_of_app (c : ascii) (a b : string) :
  Shape.free_of c a -> Shape.free_of c b -> Shape.free_of c (a ++ b).
Proof.
  unfold Shape.free_of. induction a as [| d a IH]; cbn; auto.
  intros H Hb. apply andb_prop in H as [Hd Ha]. now rewrite Hd, IH.
Qed.

Lemma no_match_here (c : ascii) (s : string) :
  Ascii.eqb "C" c = false -> Text.match_Case_here false (String c s) = None.
Proof.
  intros Hc. unfold Text.match_Case_here.
  destruct s as [| c2 [| c3 [| c4 r]]]; try reflexivity.
  unfold Text.same_letter at 1. now rewrite Hc.
Qed.

Lemma match_Case_skips_digits (ds s : string) :
  Shape.all_chars is_digit ds = true ->
  Text.match_Case false (ds ++ String "_" s) = Text.match_Case false s.
Proof.
  induction ds as [| d ds IH]; cbn [append Shape.all_chars]; intros H.
  - cbn [Text.match_Case]. now rewrite no_match_here.
  - apply andb_prop in H as [Hd Hds].
    cbn [Text.match_Case]. rewrite no_match_here; [exact (IH Hds) |].
    destruct (Ascii.eqb_spec "C"%char d) as [<- | _]; [discriminate | reflexivity].
Qed.

Lemma dirName_matches (caseId parent prefix number : string) :
  Shape.all_chars is_digit prefix = true -> Shape.digits number ->
  BsiAnalysis.matches caseId (parent ++ "/" ++ prefix ++ "_Case" ++ number)
  = String.eqb ("Case" ++ number) caseId.
Proof.
  intros Hp [Hne Hd]. unfold BsiAnalysis.matches, BsiAnalysis.dirName, Text.pop_or.
  change (parent ++ "/" ++ prefix ++ "_Case" ++ number)
    with (parent ++ String "/" (prefix ++ "_Case" ++ number)).
  assert (Hfree : Shape.free_of "/" (prefix ++ "_Case" ++ number)).
  { apply free_of_app; [now apply digits_free_of |].
    apply (free_of_app _ "_Case"); [reflexivity | now apply digits_free_of]. }
  rewrite (last_split_after _ _ _ Hfree).
  assert (Hm : Text.match_Case false (prefix ++ "_Case" ++ number)
               = Some ("Case" ++ number, number)).
  { change (prefix ++ "_Case" ++ number) with (prefix ++ String "_" ("Case" ++ number)).
    rewrite (match_Case_skips_digits _ _ Hp).
    pose proof (match_Case_here_found false "Case" number "" eq_refl (conj Hne Hd) I) as H.
    rewrite TextFacts.append_nil_r in H.
    change ("Case" ++ number) with (String "C" ("ase" ++ number)) at 1.
    cbn [Text.match_Case]. change (String "C" ("ase" ++ number)) with ("Case" ++ number).
    now rewrite H. }
  destruct (prefix ++ "_Case" ++ number) as [| c s] eqn:E.
  - destruct prefix; discriminate.
  - now rewrite Hm.
Qed.

(** X18: a directory named [<digits>_Case<n>], under any parent path,
    matches a case id exactly when the id is [Case<n>]; so [Case10] does
    not match the directory of [Case101]. *)
Theorem directory_of_a_case (parent prefix number : string) (caseId : string) :
  Shape.all_chars is_digit prefix = true -> Shape.digits number ->
  (BsiAnalysis.matches caseId (parent ++ "/" ++ prefix ++ "_Case" ++ number) = true
   <-> caseId = "Case" ++ number).
Proof.
  intros Hp Hn. rewrite (dirName_matches _ _ _ _ Hp Hn).
  rewrite String.eqb_eq. split; congruence.
Qed.

Lemma directory_of_a_case_witness :
  BsiAnalysis.matches "Case101" ("gold/mca" ++ "/" ++ "01" ++ "_Case" ++ "101") = true.
Proof.
  refine (proj2 (directory_of_a_case "gold/mca" "01" "101" "Case101" _ _) _).
  - reflexivity.
  - split; [discriminate | reflexivity].
  - reflexivity.
Defined.

(** X19: the directory the route settles on is one of those listed, and
    the first of them that matches; the case id then has the form
    [Case<digits>] and stands in the directory's last segment, not
    followed by a further digit. *)
Theorem matched_directory_sound (directories : list string) (caseId dir : string) :
  BsiAnalysis.matchedDirectory directories caseId = Some dir ->
  In dir directories
  /\ (exists number, Shape.digits number /\ caseId = "Case" ++ number)
  /\ (exists before rest,
        BsiAnalysis.dirName dir = before ++ caseId ++ rest
        /\ Shape.no_digit_ahead rest)
  /\ (exists skipped later,
        directories = (skipped ++ dir :: later)%list
        /\ Forall (fun d => BsiAnalysis.matches caseId d = false) skipped).
Proof.
  induction directories as [| d rest IH]; cbn [BsiAnalysis.matchedDirectory];
    [discriminate |].
  destruct (BsiAnalysis.matches caseId d) eqn:Em.
  - intros [= <-]. split; [now left |].
    unfold BsiAnalysis.matches in Em.
    destruct (Text.match_Case false (BsiAnalysis.dirName d)) as [[w ds] |] eqn:E;
      [| discriminate].
    apply String.eqb_eq in Em. subst w.
    destruct (match_Case_sound _ _ _ _ E) as (Hd & b & l & r & _ & Hl & Hw & Hs & Hn).
    subst l. split; [now exists ds |]. split; [now exists b, r |].
    exists [], rest. split; [reflexivity | constructor].
  - intros H. destruct (IH H) as (Hin & Hid & Hname & sk & la & Heq & Hsk).
    split; [now right |]. split; [exact Hid |]. split; [exact Hname |].
    exists (d :: sk), la. split; [now rewrite Heq | now constructor].
Qed.

Lemma matched_directory_sound_witness :
  In "gold/mca/10_Case10" ["gold/mca/01_Case101"; "gold/mca/10_Case10"].
Proof.
  refine (proj1 (matched_directory_sound
                   ["gold/mca/01_Case101"; "gold/mca/10_Case10"]
                   "Case10" "gold/mca/10_Case10" _)).
  vm_compute. reflexivity.
Defined.


(** ** [/api/fetch-adls] and the page *)

Lemma endsWith_nonempty (s : string) : Text.endsWith ".json" s = true -> s <> "".
Proof. destruct s; [discriminate | discriminate]. Qed.

Lemma endsWith_last_segment (s : string) :
  Text.endsWith ".json" s = true ->
  Text.endsWith ".json" (List.last (Text.split "/" s) "") = true.
Proof.
  induction s as [| c s IH]; [discriminate |].
  intros H. cbn [Text.split].
  pose proof (split_not_nil "/" s) as Hn.
  destruct (Ascii.eqb_spec c "/") as [-> | Hc].
  - destruct (Text.split "/" s) as [| w ws] eqn:Es; [contradiction |].
    rewrite last_cons_cons. apply IH.
    cbn [Text.endsWith] in H. now cbn in H.
  - destruct (Text.split "/" s) as [| w ws] eqn:Es; [contradiction |].
    destruct ws as [| w' ws'].
    + apply split_single_inv in Es as [-> _]. exact H.
    + rewrite last_cons_cons. apply IH.
      cbn [Text.endsWith] in H. apply orb_prop in H as [H | H]; [| exact H].
      exfalso. apply String.eqb_eq in H. injection H as _ ->. discriminate.
Qed.

Lemma fileNameOf_json (filePath : string) :
  Text.endsWith ".json" filePath = true ->
  FetchAdls.fileNameOf filePath = List.last (Text.split "/" filePath) ""
  /\ Text.endsWith ".json" (FetchAdls.fileNameOf filePath) = true
  /\ Shape.free_of "/" (FetchAdls.fileNameOf filePath).
Proof.
  intros H. pose proof (endsWith_last_segment _ H) as Hl.
  pose proof (last_split_free "/" filePath) as Hf.
  unfold FetchAdls.fileNameOf, Text.pop_or.
  destruct (List.last (Text.split "/" filePath) "") as [| c r]; [discriminate |].
  now repeat split.
Qed.

Lemma jsonPath_json (pathItem : FetchAdls.PathItem.t) (filePath : string) :
  FetchAdls.jsonPath pathItem = Some filePath -> Text.endsWith ".json" filePath = true.
Proof.
  unfold FetchAdls.jsonPath.
  destruct (FetchAdls.PathItem.isDirectory pathItem) as [ | | []]; try discriminate.
  destruct (FetchAdls.PathItem.name pathItem) as [ | | name]; try discriminate.
  destruct (Text.endsWith ".json" name) eqn:E; [| discriminate].
  intros [= <-]. unfold Text.startsWith.
  destruct name as [| c r]; [exact E |]. cbn [strip_prefix].
  destruct (Ascii.eqb_spec "/"%char c) as [<- | _]; [| exact E].
  cbn [drop]. cbn [Text.endsWith] in E. now cbn in E.
Qed.

Lemma filePaths_json (listing : list FetchAdls.PathItem.t) :
  Forall (fun p => Text.endsWith ".json" p = true) (FetchAdls.filePaths listing).
Proof.
  induction listing as [| item rest IH]; cbn [FetchAdls.filePaths]; [constructor |].
  destruct (FetchAdls.jsonPath item) eqn:E; [| exact IH].
  constructor; [now apply (jsonPath_json item) | exact IH].
Qed.

Lemma row_filename (host : Host.t) (item : ADLSResponse.t) (row : ReconciliationRow.t)
    (name : string) :
  Shape.row_of host item row -> ADLSResponse.filename item = Present name -> name <> "" ->
  ReconciliationRow.filename row = strip_parsing_result name.
Proof.
  intros [now Hrow] Hname Hne. unfold mapADLSToReconciliationRow in Hrow.
  destruct (ADLSResponse.parsed_json item); try discriminate.
  injection Hrow as <-. cbn [ReconciliationRow.filename]. rewrite Hname.
  destruct name; [contradiction | reflexivity].
Qed.

(** ** The storage route and the page, on any JSON *)

Lemma own_assign (key : string) (x : Json.t) (fields : list (string * Json.t)) :
  Json.own key (FetchAdls.Any.assign key x fields) = Some x.
Proof.
  induction fields as [| [k v] rest IH]; cbn [FetchAdls.Any.assign Json.own].
  - now rewrite String.eqb_refl.
  - destruct (String.eqb k key) eqn:E; cbn [Json.own]; rewrite E; [reflexivity | exact IH].
Qed.

Lemma own_assign_other (key other : string) (x : Json.t) (fields : list (string * Json.t)) :
  key <> other ->
  Json.own other (FetchAdls.Any.assign key x fields) = Json.own other fields.
Proof.
  intros Hne. induction fields as [| [k v] rest IH]; cbn [FetchAdls.Any.assign Json.own].
  - destruct (String.eqb_spec key other); [contradiction | reflexivity].
  - destruct (String.eqb_spec k key) as [-> | Hk]; cbn [Json.own].
    + destruct (String.eqb_spec key other); [contradiction | reflexivity].
    + now rewrite IH.
Qed.

(** A property that is there comes through the trip. *)
Lemma own_json (key : string) (fields : list (string * Json.t)) (x : Json.t) :
  Json.own key fields = Some x -> x <> Json.Undefined ->
  exists fields',
    Wire.json (Json.Obj fields) = Json.Obj fields'
    /\ Json.own key fields' = Some (Wire.json x).
Proof.
  intros Hown Hx. cbn [Wire.json]. eexists. split; [reflexivity |].
  induction fields as [| [k v] rest IH]; [discriminate |].
  cbn [Json.own] in Hown.
  destruct (String.eqb k key) eqn:E.
  - injection Hown as ->. destruct x; try contradiction; cbn [Json.own]; now rewrite E.
  - destruct v; try (cbn [Json.own]; rewrite E); now apply IH.
Qed.

Lemma readFile_handed_over (read : string -> option Json.t) (filePath : string)
    (file : Json.t) :
  Text.endsWith ".json" filePath = true ->
  FetchAdls.Any.readFile read filePath = Some file ->
  Shape.handed_over (Wire.json file).
Proof.
  intros Hj. unfold FetchAdls.Any.readFile.
  destruct (read filePath) as [jsonData |]; [| discriminate].
  destruct (Raw.valid_item jsonData) as [[|] | |] eqn:Hv; try discriminate.
  destruct (RawFacts.valid_item_inv _ Hv) as (fields & parsed_json & accounts & -> & Hpj & Hacc).
  intros [= <-].
  assert (Hpj' : Json.own "parsed_json"
                   (FetchAdls.Any.assign "filename"
                      (Json.Str (FetchAdls.fileNameOf filePath)) fields)
                 = Some (Json.Obj parsed_json))
    by (rewrite own_assign_other; [exact Hpj | discriminate]).
  destruct (own_json _ _ _ Hpj' ltac:(discriminate)) as (fields' & Hfile & Hpj'').
  destruct (own_json _ _ _ Hacc ltac:(discriminate)) as (parsed_json' & Hparsed & Hacc').
  destruct (own_json _ _ _ (own_assign "filename" (Json.Str (FetchAdls.fileNameOf filePath))
                              fields) ltac:(discriminate)) as (fields'' & Hfile' & Hname).
  rewrite Hfile in Hfile'. injection Hfile' as <-.
  rewrite Hfile. rewrite Hparsed in Hpj''. split.
  - eapply RawFacts.valid_item_of_fields; [exact Hpj'' | exact Hacc'].
  - exists (FetchAdls.fileNameOf filePath). cbn [Json.get]. rewrite Hname.
    split; [reflexivity |]. now destruct (fileNameOf_json _ Hj) as (_ & H1 & H2).
Qed.

Lemma files_handed_over (read : string -> option Json.t) (paths : list string) :
  Forall (fun p => Text.endsWith ".json" p = true) paths ->
  Forall Shape.handed_over (List.map Wire.json (FetchAdls.Any.files read paths)).
Proof.
  induction 1 as [| p rest Hp Hrest IH]; cbn [FetchAdls.Any.files List.map]; [constructor |].
  destruct (FetchAdls.Any.readFile read p) eqn:E; [| exact IH].
  cbn [List.map]. constructor; [now apply (readFile_handed_over read p) | exact IH].
Qed.

Lemma result_data (files : list Json.t) :
  Forall (fun file => Shape.is_there file = true) files ->
  Json.get "data" (Wire.result files) = Some (Json.Arr (List.map Wire.json files)).
Proof.
  intros Hthere. unfold Wire.result. cbn [Wire.json Json.get Json.own String.eqb Ascii.eqb Bool.eqb].
  do 2 f_equal. apply map_ext_in. intros file Hin.
  rewrite Forall_forall in Hthere. specialize (Hthere file Hin). now destruct file.
Qed.

Lemma raw_row_filename (host : Host.t) (item : Json.t) (row : Raw.Row.t) (name : string) :
  Shape.raw_row_of host item row ->
  Json.get "filename" item = Some (Json.Str name) -> name <> "" ->
  Raw.Row.filename row = strip_parsing_result name.
Proof.
  intros [now Hrow] Hname Hne. unfold Raw.mapADLSToReconciliationRow in Hrow.
  destruct (negb (Json.truthy item)); [discriminate |].
  apply RawFacts.bind_Return in Hrow as (parsed_json & _ & Hrow).
  destruct (negb (Json.truthy parsed_json)); [discriminate |].
  apply RawFacts.bind_Return in Hrow as (batch_id & _ & Hrow).
  apply RawFacts.bind_Return in Hrow as (filename & Hfilename & Hrow).
  unfold Raw.get in Hfilename. rewrite Hname in Hfilename. injection Hfilename as <-.
  repeat (apply RawFacts.bind_Return in Hrow as (? & ? & Hrow)).
  injection Hrow as <-. cbn [Raw.Row.filename].
  destruct name as [| c rest]; [contradiction |].
  match goal with
  | Hdisplay : (if Json.truthy (Json.Str _) then _ else _) = Return _ |- _ =>
      cbn in Hdisplay; now injection Hdisplay
  end.
Qed.

Lemma Forall2_filter_left {A B : Type} (P : A -> Prop) (R : A -> B -> Prop)
    (f : A -> bool) (l : list A) (l' : list B) :
  Forall P l -> Forall2 R (filter f l) l' ->
  Forall2 (fun a b => P a /\ R a b) (filter f l) l'.
Proof.
  intros HP. revert l'.
  induction HP as [| a l Ha Hl IH]; intros l' HR; cbn [filter] in *.
  - inversion HR. constructor.
  - destruct (f a); [| now apply IH].
    inversion HR; subst. constructor; [now split | now apply IH].
Qed.

Lemma handed_over_is_there (file : Json.t) :
  Shape.handed_over file -> Shape.is_there file = true.
Proof. intros [Hv _]. now destruct file. Qed.

Lemma json_is_there (file : Json.t) :
  Shape.is_there (Wire.json file) = true -> Shape.is_there file = true.
Proof. now destruct file. Qed.

(** X3: what the storage route answers with and what the page makes of
    it.  Every file of the answer, after its trip through JSON, passes
    the guard of the page, whose run therefore ends in no error; the
    page shows a row for each of these files on which the mapper
    returns, in the order of the route, and the [filename] of the row is
    the stripped form of a name that ends in [.json] and holds no slash.
    The mapper need not return: a file whose one account is [null] is
    answered by the route and shown by no row. *)
Theorem route_feeds_the_page
    (listing : list FetchAdls.PathItem.t) (read : string -> option Json.t)
    (host : Host.t) (clock : nat -> Z) :
  Forall (fun file => Raw.valid_item file = Return true)
         (List.map Wire.json (FetchAdls.Any.GET listing read))
  /\ (exists rows,
        Raw.fetchData host clock (Wire.result (FetchAdls.Any.GET listing read))
        = Return rows
        /\ Forall2
             (fun file row =>
                Shape.raw_row_of host file row
                /\ exists name,
                     Json.get "filename" file = Some (Json.Str name)
                     /\ Text.endsWith ".json" name = true
                     /\ Shape.free_of "/" name
                     /\ Raw.Row.filename row = strip_parsing_result name)
             (filter (Shape.shown_item host)
                     (List.map Wire.json (FetchAdls.Any.GET listing read)))
             rows)
  /\ FetchAdls.Any.GET
       [ {| FetchAdls.PathItem.isDirectory := Present false;
            FetchAdls.PathItem.name := Present "silver/chase_aug_parsing_result.json" |} ]
       (fun _ => Some Sample.null_account)
     = [Sample.null_account]
  /\ Raw.fetchData host clock (Wire.result [Sample.null_account]) = Return [].
Proof.
  pose proof (files_handed_over read _ (filePaths_json listing)) as Hroute.
  fold (FetchAdls.Any.GET listing read) in Hroute.
  assert (Hthere : Forall (fun file => Shape.is_there file = true)
                          (List.map Wire.json (FetchAdls.Any.GET listing read))).
  { eapply Forall_impl; [| exact Hroute]. intros file. apply handed_over_is_there. }
  assert (Hfiles : Forall (fun file => Shape.is_there file = true)
                          (FetchAdls.Any.GET listing read)).
  { rewrite Forall_map in Hthere. eapply Forall_impl; [| exact Hthere].
    intros file. apply json_is_there. }
  split; [| split; [| split]].
  - eapply Forall_impl; [| exact Hroute]. now intros file [Hv _].
  - destruct (RawFacts.mapItems_rows host clock _ Hthere 0%nat) as (rows & Hrun & Hrows).
    exists rows. split.
    + rewrite (fetchData_of_data host clock _ _ (result_data _ Hfiles)). exact Hrun.
    + pose proof (Forall2_filter_left _ _ _ _ _ Hroute Hrows) as H.
      eapply Forall2_impl; [| exact H].
      intros file row [[_ (name & Hname & Hj & Hfree)] Hrow]. split; [exact Hrow |].
      exists name. repeat split; auto.
      apply (raw_row_filename host file row name Hrow Hname). now apply endsWith_nonempty.
  - reflexivity.
  - reflexivity.
Qed.

(** On files of the declared interfaces the route is the one above. *)
Lemma readFile_of_response (read : string -> option ADLSResponse.t) (filePath : string) :
  FetchAdls.Any.readFile (fun p => option_map Raw.of_response (read p)) filePath
  = option_map Raw.of_response (FetchAdls.readFile read filePath).
Proof.
  unfold FetchAdls.Any.readFile, FetchAdls.readFile.
  destruct (read filePath) as [jsonData |]; [| reflexivity]. cbn [option_map].
  rewrite RawFacts.valid_item_of_response.
  destruct (valid_item jsonData); reflexivity.
Qed.

(** ** A stored file and its displayed name *)

Lemma suffix_free_of_slash (suffix : string) :
  lower_string suffix = "_parsing_result.json" -> Shape.free_of "/" suffix.
Proof.
  intros H. unfold Shape.free_of.
  assert (Hl : forall s,
             Shape.all_chars (fun d => negb (Ascii.eqb d "/")) (lower_string s) = true ->
             Shape.all_chars (fun d => negb (Ascii.eqb d "/")) s = true).
  { induction s as [| c s IH]; cbn [lower_string Shape.all_chars]; [reflexivity |].
    intros Hs. apply andb_prop in Hs as [Hc Hs]. rewrite (IH Hs), andb_true_r.
    destruct (Ascii.eqb_spec c "/") as [-> | _]; [exact Hc | reflexivity]. }
  apply Hl. now rewrite H.
Qed.

Lemma readFile_name (read : string -> option ADLSResponse.t) (filePath : string)
    (file : ADLSResponse.t) :
  FetchAdls.readFile read filePath = Some file ->
  ADLSResponse.filename file = Present (FetchAdls.fileNameOf filePath).
Proof.
  unfold FetchAdls.readFile.
  destruct (read filePath) as [json |]; [| discriminate].
  destruct (valid_item json); [| discriminate].
  now intros [= <-].
Qed.

(** X15: a file stored as [<base>_parsing_result.json], in a directory
    or not, with no slash in [<base>], is displayed by the page under
    the name [<base>]: the route names the file by the last segment of
    its path, and the mapper strips the suffix. *)
Theorem stored_file_is_displayed_by_its_base
    (host : Host.t) (read : string -> option ADLSResponse.t) (parent base suffix : string)
    (file : ADLSResponse.t) (row : ReconciliationRow.t) :
  lower_string suffix = "_parsing_result.json" -> Shape.free_of "/" base ->
  (FetchAdls.readFile read (parent ++ "/" ++ base ++ suffix) = Some file
   \/ FetchAdls.readFile read (base ++ suffix) = Some file) ->
  Shape.row_of host (Wire.of_file file) row ->
  ReconciliationRow.filename row = base.
Proof.
  intros Hs Hb Hread Hrow.
  assert (Hfree : Shape.free_of "/" (base ++ suffix))
    by (apply free_of_app; [exact Hb | now apply suffix_free_of_slash]).
  assert (Hne : base ++ suffix <> "") by (destruct base, suffix; discriminate).
  assert (Hname : ADLSResponse.filename file = Present (base ++ suffix)).
  { destruct Hread as [Hread | Hread]; rewrite (readFile_name _ _ _ Hread); f_equal;
      unfold FetchAdls.fileNameOf, Text.pop_or.
    - change (parent ++ "/" ++ base ++ suffix) with (parent ++ String "/" (base ++ suffix)).
      rewrite (last_split_after _ _ _ Hfree).
      destruct (base ++ suffix); [contradiction | reflexivity].
    - rewrite (split_free _ _ Hfree). cbn [List.last].
      destruct (base ++ suffix); [contradiction | reflexivity]. }
  rewrite (row_filename host (Wire.of_file file) row _ Hrow Hname Hne).
  now apply strip_suffix.
Qed.

Lemma stored_file_is_displayed_by_its_base_witness :
  exists file row,
    FetchAdls.readFile (fun _ => Some (Sample.item (Present Sample.august_2025) Absent))
      ("silver/parsed" ++ "/" ++ "chase_aug" ++ "_parsing_result.json") = Some file
    /\ Shape.row_of Sample.utc_host (Wire.of_file file) row
    /\ ReconciliationRow.filename row = "chase_aug".
Proof.
  eexists. eexists. split; [reflexivity |].
  split; [exists 1762138000000%Z; reflexivity |].
  eapply (stored_file_is_displayed_by_its_base Sample.utc_host
            (fun _ => Some (Sample.item (Present Sample.august_2025) Absent))
            "silver/parsed" "chase_aug" "_parsing_result.json").
  - reflexivity.
  - reflexivity.
  - left. reflexivity.
  - exists 1762138000000%Z. reflexivity.
Defined.

(** ** The funding-transfer counts *)

Lemma count_items (items : maybe (list FundingTransfer.TransactionItem.t)) :
  FundingTransfer.countNonTrueRevenue items
  = Z.of_nat (List.length (filter FundingTransfer.is_non_true_revenue
                             (Shape.items_of items))).
Proof. now destruct items. Qed.

Lemma filter_length_le {A : Type} (f : A -> bool) (l : list A) :
  (List.length (filter f l) <= List.length l)%nat.
Proof. induction l as [| a l IH]; cbn; [lia |]. destruct (f a); cbn; lia. Qed.

(** X17: the funding-transfer count of an account is the number of
    transactions flagged [non_true_revenue === 1] in its five arrays
    taken together, a missing array counting as empty; it lies between 0
    and the number of all these transactions, and is 0 exactly when none
    of them is flagged. *)
Theorem funding_transfer_count (account : FundingTransfer.AccountData.t) :
  FundingTransfer.fundingTransferCount account
  = Z.of_nat (List.length (filter FundingTransfer.is_non_true_revenue
                             (Shape.transactions account)))
  /\ (0 <= FundingTransfer.fundingTransferCount account
       <= Z.of_nat (List.length (Shape.transactions account)))%Z
  /\ (FundingTransfer.fundingTransferCount account = 0%Z
      <-> Forall (fun item => FundingTransfer.is_non_true_revenue item = false)
                 (Shape.transactions account)).
Proof.
  assert (Hcount : FundingTransfer.fundingTransferCount account
                   = Z.of_nat (List.length (filter FundingTransfer.is_non_true_revenue
                                              (Shape.transactions account)))).
  { unfold FundingTransfer.fundingTransferCount, Shape.transactions.
    rewrite !count_items, !filter_app, !length_app. lia. }
  split; [exact Hcount |]. rewrite Hcount. split.
  - pose proof (filter_length_le FundingTransfer.is_non_true_revenue
                  (Shape.transactions account)).
    lia.
  - rewrite <- filter_nil_iff. rewrite <- length_zero_iff_nil. lia.
Qed.

Lemma funding_transfer_count_witness :
  FundingTransfer.fundingTransferCount
    (Fixtures.funding_account (Present [Fixtures.transaction (Num (of_Z 0))]) Absent)
  = 0%Z.
Proof.
  apply (proj2 (proj2 (proj2 (funding_transfer_count
           (Fixtures.funding_account (Present [Fixtures.transaction (Num (of_Z 0))])
                                     Absent))))).
  constructor; [reflexivity | constructor].
Defined.
